(** * eLCS estimator (skeLCS/eLCS.py): constructor validation, training loop,
      inference, persistence and scoring.

    The estimator class [eLCS] drives a rule population kept by the classes
    ClassifierSet, Classifier, Prediction, OfflineEnvironment, Timer and
    IterationRecord.  The estimator is embedded here as Rocq functions over an
    explicit state; its collaborators enter as the operations of a section. *)

From Stdlib Require Import ZArith QArith Qabs Qround List String Bool Lia.
From Stdlib Require Import DecimalString Lqa.
Import ListNotations.
Open Scope Z_scope.

(** ** Python values *)

(** A Python float: a finite value (rounding is not modelled, a finite float is
    the rational it denotes), the two infinities, or NaN. *)
Inductive pyfloat : Type :=
| FFin (q : Q)
| FPosInf
| FNegInf
| FNaN.

(** The scalar values a hyperparameter or a data cell can hold. *)
Inductive pyval : Type :=
| VInt (z : Z)
| VBool (b : bool)
| VFloat (f : pyfloat)
| VStr (s : string)
| VNone.

(** An argument that is either a scalar or a numpy ndarray of scalars. *)
Inductive pyarg : Type :=
| AScalar (v : pyval)
| ANdArray (l : list pyval).

Inductive exn : Type :=
| TypeError
| ValueError
| OverflowError
| ZeroDivisionError
| AttributeError
| FileNotFoundError
| IndexError
| PyException (msg : string).

(** Result of an expression that may raise. *)
Inductive res (A : Type) : Type :=
| Val (a : A)
| Exn (e : exn).
Arguments Val {A} a.
Arguments Exn {A} e.

Definition res_bind {A B} (r : res A) (k : A -> res B) : res B :=
  match r with
  | Val a => k a
  | Exn e => Exn e
  end.

Definition is_val {A} (r : res A) : bool :=
  match r with Val _ => true | Exn _ => false end.

Definition Z_of_bool (b : bool) : Z := if b then 1 else 0.

(** [float(int)] raises OverflowError once the integer rounds to infinity. *)
Definition float_int_bound : Z := 2 ^ 1024 - 2 ^ 970.

(** [int(x)] on a finite float truncates toward zero. *)
Definition Qtrunc (q : Q) : Z := Z.quot (Qnum q) (Zpos (Qden q)).

Module Py.

Section PyBuiltins.

(** Python's parsers of numeric literals, used by [float(str)] and
    [int(str)]. *)
Variable float_of_string : string -> option pyfloat.
Variable int_of_string : string -> option Z.

(** [float(v)] *)
Definition py_float (v : pyval) : res pyfloat :=
  match v with
  | VInt z => if Z.abs z <? float_int_bound then Val (FFin (inject_Z z))
              else Exn OverflowError
  | VBool b => Val (FFin (inject_Z (Z_of_bool b)))
  | VFloat f => Val f
  | VStr s => match float_of_string s with
              | Some f => Val f
              | None => Exn ValueError
              end
  | VNone => Exn TypeError
  end.

(** [int(v)] *)
Definition py_int (v : pyval) : res Z :=
  match v with
  | VInt z => Val z
  | VBool b => Val (Z_of_bool b)
  | VFloat (FFin q) => Val (Qtrunc q)
  | VFloat FNaN => Exn ValueError
  | VFloat _ => Exn OverflowError
  | VStr s => match int_of_string s with
              | Some z => Val z
              | None => Exn ValueError
              end
  | VNone => Exn TypeError
  end.

(** [v - i] for an int [i]. *)
Definition py_sub_int (v : pyval) (i : Z) : res pyval :=
  match v with
  | VInt z => Val (VInt (z - i))
  | VBool b => Val (VInt (Z_of_bool b - i))
  | VFloat (FFin q) => Val (VFloat (FFin (q - inject_Z i)))
  | VFloat f => Val (VFloat f)
  | VStr _ | VNone => Exn TypeError
  end.

(** Strict order on the rationals, as a boolean. *)
Definition Qltb (a b : Q) : bool := negb (Qle_bool b a).

(** [v < c] and [v > c] against an int constant [c]. *)
Definition py_lt_int (v : pyval) (c : Z) : res bool :=
  match v with
  | VInt z => Val (z <? c)
  | VBool b => Val (Z_of_bool b <? c)
  | VFloat (FFin q) => Val (Qltb q (inject_Z c))
  | VFloat FNegInf => Val true
  | VFloat _ => Val false
  | VStr _ | VNone => Exn TypeError
  end.

Definition py_gt_int (v : pyval) (c : Z) : res bool :=
  match v with
  | VInt z => Val (c <? z)
  | VBool b => Val (c <? Z_of_bool b)
  | VFloat (FFin q) => Val (Qltb (inject_Z c) q)
  | VFloat FPosInf => Val true
  | VFloat _ => Val false
  | VStr _ | VNone => Exn TypeError
  end.

(** [v == 0] *)
Definition py_eq_zero (v : pyval) : bool :=
  match v with
  | VInt z => z =? 0
  | VBool b => negb b
  | VFloat (FFin q) => Qeq_bool q 0
  | _ => false
  end.

(** [v != s] against a string constant. *)
Definition py_ne_str (v : pyval) (s : string) : bool :=
  match v with
  | VStr t => negb (String.eqb t s)
  | _ => true
  end.

(** [isinstance(v, bool)] and [isinstance(v, str)] *)
Definition isinstance_bool (v : pyval) : bool :=
  match v with VBool _ => true | _ => false end.

Definition isinstance_str (v : pyval) : bool :=
  match v with VStr _ => true | _ => false end.

(** [eLCS.checkIsInt]: every exception inside the [try] gives False. *)
Definition checkIsInt (num : pyval) : bool :=
  match py_float num with
  | Exn _ => false
  | Val _ =>
      match py_int num with
      | Exn _ => false
      | Val i =>
          match py_sub_int num i with
          | Exn _ => false
          | Val d => py_eq_zero d
          end
      end
  end.

(** [eLCS.checkIsFloat] *)
Definition checkIsFloat (num : pyval) : bool :=
  is_val (py_float num).

End PyBuiltins.

End Py.

Import Py.

(** ** Numeric operators used on counters and tracked accuracies *)

(** The numeric view of a value: an int (True and False count as 1 and 0) or a
    float; strings and None are not numbers. *)
Inductive num : Type :=
| NInt (z : Z)
| NFloat (f : pyfloat).

Definition num_of (v : pyval) : option num :=
  match v with
  | VInt z => Some (NInt z)
  | VBool b => Some (NInt (Z_of_bool b))
  | VFloat f => Some (NFloat f)
  | VStr _ | VNone => None
  end.

Definition val_of_num (n : num) : pyval :=
  match n with
  | NInt z => VInt z
  | NFloat f => VFloat f
  end.

(** Conversion of an operand to float in mixed arithmetic. *)
Definition num_float (n : num) : res pyfloat :=
  match n with
  | NInt z => if Z.abs z <? float_int_bound then Val (FFin (inject_Z z))
              else Exn OverflowError
  | NFloat f => Val f
  end.

Definition fneg (a : pyfloat) : pyfloat :=
  match a with
  | FFin q => FFin (- q)
  | FPosInf => FNegInf
  | FNegInf => FPosInf
  | FNaN => FNaN
  end.

Definition fadd (a b : pyfloat) : pyfloat :=
  match a, b with
  | FNaN, _ | _, FNaN => FNaN
  | FFin x, FFin y => FFin (x + y)
  | FPosInf, FNegInf | FNegInf, FPosInf => FNaN
  | FPosInf, _ | _, FPosInf => FPosInf
  | FNegInf, _ | _, FNegInf => FNegInf
  end.

Definition fsub (a b : pyfloat) : pyfloat := fadd a (fneg b).

Definition fabs (a : pyfloat) : pyfloat :=
  match a with
  | FFin q => FFin (Qabs q)
  | FPosInf | FNegInf => FPosInf
  | FNaN => FNaN
  end.

Definition fltb (a b : pyfloat) : bool :=
  match a, b with
  | FNaN, _ | _, FNaN => false
  | FFin x, FFin y => Qltb x y
  | FNegInf, FNegInf => false
  | FNegInf, _ => true
  | _, FNegInf => false
  | FPosInf, _ => false
  | _, FPosInf => true
  end.

Definition feqb (a b : pyfloat) : bool :=
  match a, b with
  | FFin x, FFin y => Qeq_bool x y
  | FPosInf, FPosInf | FNegInf, FNegInf => true
  | _, _ => false
  end.

(** Float division; a zero divisor raises. *)
Definition fdiv (a b : pyfloat) : res pyfloat :=
  match b with
  | FNaN => Val FNaN
  | FFin y =>
      if Qeq_bool y 0 then Exn ZeroDivisionError
      else match a with
           | FFin x => Val (FFin (x / y))
           | FNaN => Val FNaN
           | FPosInf => Val (if Qltb y 0 then FNegInf else FPosInf)
           | FNegInf => Val (if Qltb y 0 then FPosInf else FNegInf)
           end
  | FPosInf | FNegInf =>
      match a with
      | FFin _ => Val (FFin 0)
      | _ => Val FNaN
      end
  end.

(** [a + b] *)
Definition py_add (a b : pyval) : res pyval :=
  match num_of a, num_of b with
  | Some (NInt x), Some (NInt y) => Val (VInt (x + y))
  | Some x, Some y =>
      res_bind (num_float x) (fun fx =>
      res_bind (num_float y) (fun fy => Val (VFloat (fadd fx fy))))
  | _, _ => Exn TypeError
  end.

(** [a < b] *)
Definition py_lt (a b : pyval) : res bool :=
  match num_of a, num_of b with
  | Some (NInt x), Some (NInt y) => Val (x <? y)
  | Some x, Some y =>
      res_bind (num_float x) (fun fx =>
      res_bind (num_float y) (fun fy => Val (fltb fx fy)))
  | _, _ => Exn TypeError
  end.

(** [a == b]; never raises. *)
Definition py_eqb (a b : pyval) : bool :=
  match num_of a, num_of b with
  | Some (NInt x), Some (NInt y) => x =? y
  | Some x, Some y =>
      match num_float x, num_float y with
      | Val fx, Val fy => feqb fx fy
      | _, _ => false
      end
  | None, None =>
      match a, b with
      | VStr s, VStr t => String.eqb s t
      | VNone, VNone => true
      | _, _ => false
      end
  | _, _ => false
  end.

(** [v % m] for an int [m]; the result takes the sign of [m]. *)
Definition py_mod_int (v : pyval) (m : Z) : res pyval :=
  match num_of v with
  | None => Exn TypeError
  | Some n =>
      if m =? 0 then Exn ZeroDivisionError
      else match n with
           | NInt z => Val (VInt (z mod m))
           | NFloat (FFin q) =>
               Val (VFloat (FFin (q - inject_Z m * inject_Z (Qfloor (q / inject_Z m)))))
           | NFloat _ => Val (VFloat FNaN)
           end
  end.

(** [v / d] (true division) by an int constant [d]; the quotient of two ints
    is computed exactly and overflows only when it is itself too large. *)
Definition py_truediv_int (v : pyval) (d : Z) : res pyfloat :=
  match num_of v with
  | None => Exn TypeError
  | Some (NInt z) =>
      if d =? 0 then Exn ZeroDivisionError
      else if Z.abs z <? float_int_bound * Z.abs d
           then Val (FFin (inject_Z z / inject_Z d))
           else Exn OverflowError
  | Some (NFloat f) => fdiv f (FFin (inject_Z d))
  end.

(** [a - b] *)
Definition py_sub (a b : pyval) : res pyval :=
  match num_of a, num_of b with
  | Some (NInt x), Some (NInt y) => Val (VInt (x - y))
  | Some x, Some y =>
      res_bind (num_float x) (fun fx =>
      res_bind (num_float y) (fun fy => Val (VFloat (fsub fx fy))))
  | _, _ => Exn TypeError
  end.

(** Truth value of a condition [if v:]. *)
Definition py_truthy (v : pyval) : bool :=
  match v with
  | VInt z => negb (z =? 0)
  | VBool b => b
  | VFloat (FFin q) => negb (Qeq_bool q 0)
  | VFloat _ => true
  | VStr s => negb (String.eqb s "")
  | VNone => false
  end.

(** [np.isnan(v)]: numpy takes a Python int as a 64-bit integer and
    refuses one that fits neither the signed nor the unsigned type; a string
    or None is refused as well. *)
Definition np_isnan (v : pyval) : res bool :=
  match v with
  | VFloat FNaN => Val true
  | VInt z =>
      if (- 2 ^ 63 <=? z) && (z <? 2 ^ 64) then Val false else Exn TypeError
  | VBool _ | VFloat _ => Val false
  | VStr _ | VNone => Exn TypeError
  end.

(** [l[i]] for a constant index. *)
Definition py_index {A} (l : list A) (i : nat) : res A :=
  match nth_error l i with
  | Some a => Val a
  | None => Exn IndexError
  end.

(** [sum(l)] over floats, and [len(l)]. *)
Definition fsum (l : list pyfloat) : pyfloat :=
  fold_left fadd l (FFin 0).

Definition py_len {A} (l : list A) : Z := Z.of_nat (List.length l).

(** ** Data model *)

(** A data row (one instance's attribute values). *)
Definition Row : Type := list pyval.

(** The constructor's arguments, in the order of its signature. *)
Record Params : Type := mkParams {
  learningIterations : pyval;
  trackAccuracyWhileFit : pyval;
  N : pyval;
  p_spec : pyval;
  discreteAttributeLimit : pyval;
  specifiedAttributes : pyarg;
  nu : pyval;
  chi : pyval;
  upsilon : pyval;
  theta_GA : pyval;
  theta_del : pyval;
  theta_sub : pyval;
  acc_sub : pyval;
  beta : pyval;
  delta : pyval;
  init_fit : pyval;
  fitnessReduction : pyval;
  doCorrectSetSubsumption : pyval;
  doGASubsumption : pyval;
  selectionMethod : pyval;
  theta_sel : pyval;
  randomSeed : pyval;
  matchForMissingness : pyval;
  rebootFilename : pyval
}.

(** The defaults of the constructor's signature. *)
Definition default_params : Params := {|
  learningIterations := VInt 10000;
  trackAccuracyWhileFit := VBool false;
  N := VInt 1000;
  p_spec := VFloat (FFin (1 # 2));
  discreteAttributeLimit := VInt 10;
  specifiedAttributes := ANdArray [];
  nu := VInt 5;
  chi := VFloat (FFin (8 # 10));
  upsilon := VFloat (FFin (4 # 100));
  theta_GA := VInt 25;
  theta_del := VInt 20;
  theta_sub := VInt 20;
  acc_sub := VFloat (FFin (99 # 100));
  beta := VFloat (FFin (2 # 10));
  delta := VFloat (FFin (1 # 10));
  init_fit := VFloat (FFin (1 # 100));
  fitnessReduction := VFloat (FFin (1 # 10));
  doCorrectSetSubsumption := VBool false;
  doGASubsumption := VBool true;
  selectionMethod := VStr "tournament";
  theta_sel := VFloat (FFin (1 # 2));
  randomSeed := VStr "none";
  matchForMissingness := VBool false;
  rebootFilename := VNone
|}.

Definition set_learningIterations (v : pyval) (p : Params) : Params :=
  mkParams v (trackAccuracyWhileFit p) (N p) (p_spec p)
    (discreteAttributeLimit p) (specifiedAttributes p) (nu p) (chi p)
    (upsilon p) (theta_GA p) (theta_del p) (theta_sub p) (acc_sub p) (beta p)
    (delta p) (init_fit p) (fitnessReduction p) (doCorrectSetSubsumption p)
    (doGASubsumption p) (selectionMethod p) (theta_sel p) (randomSeed p)
    (matchForMissingness p) (rebootFilename p).

(** Modelled from the spec: the condition entries and phenotype of a rule
    (class Classifier is not part of this source file); a tagged variant per
    entry, a label or an interval. *)
Inductive CondElem : Type :=
| CDiscrete (v : Q)
| CContinuous (lo hi : Q).

Inductive RulePhenotype : Type :=
| PLabel (v : Q)
| PInterval (lo hi : Q).

(** Modelled from the spec: class Classifier, a rule with its learned
    statistics.  The estimator reads [numerosity] when it reboots. *)
Record Classifier : Type := mkClassifier {
  specifiedAttList : list Z;
  condition : list CondElem;
  phenotype : RulePhenotype;
  fitness : Q;
  accuracy : Q;
  numerosity : Z;
  aveMatchSetSize : Q;
  timeStampGA : Z;
  initTimeStamp : Z;
  matchCount : Z;
  correctCount : Z;
  deletionVote : Q
}.

(** Modelled from the spec: the attributes of class ClassifierSet, the rule
    population with its transient match and correct sets (indices into
    [popSet]). *)
Record ClassifierSet : Type := mkClassifierSet {
  popSet : list Classifier;
  microPopSize : Z;
  matchSet : list Z;
  correctSet : list Z
}.

(** Modelled from the spec: [ClassifierSet()], the empty population. *)
Definition new_ClassifierSet : ClassifierSet :=
  mkClassifierSet [] 0 [] [].

(** [tempTrackingObj]: the counters of one iteration. *)
Record tempTrackingObj : Type := mkTracking {
  macroPopSize : Z;
  t_microPopSize : Z;
  matchSetSize : Z;
  correctSetSize : Z;
  avgIterAge : pyfloat;
  subsumptionCount : Z;
  crossOverCount : Z;
  mutationCount : Z;
  coveringCount : Z;
  deletionCount : Z
}.

(** [tempTrackingObj.__init__] and [tempTrackingObj.resetAll] *)
Definition new_tempTrackingObj : tempTrackingObj :=
  mkTracking 0 0 0 0 (FFin 0) 0 0 0 0 0.

Definition resetAll (_ : tempTrackingObj) : tempTrackingObj :=
  mkTracking 0 0 0 0 (FFin 0) 0 0 0 0 0.

(** Modelled from the spec: class Timer (not part of this source file), the
    cumulative timers.  Its attributes here are those the estimator reads and
    writes; [globalAdd] and [globalGA] exist only once a reboot has set them,
    and [refs] stands for the timer's private start references. *)
Record Timer : Type := mkTimer {
  globalTime : Q;
  globalMatching : Q;
  globalDeletion : Q;
  globalSubsumption : Q;
  globalSelection : Q;
  globalEvaluation : Q;
  globalAdd : option Q;
  globalGA : option Q;
  refs : list Q
}.

(** The list [finalMetrics], which is also the content of a pickled model:
    the iteration count, six cumulative timers and a deep copy of popSet. *)
Record Snapshot : Type := mkSnapshot {
  raw0 : pyval;
  raw1 : Q;
  raw2 : Q;
  raw3 : Q;
  raw4 : Q;
  raw5 : Q;
  raw6 : Q;
  raw7 : list Classifier
}.

(** Modelled from the spec: the attribute schema FormatData (not part of this
    source file), with the attributes of [env.formatData] that the estimator
    reads. *)
Record FormatData : Type := mkFormatData {
  numTrainInstances : Z;
  discretePhenotype : bool;
  phenotypeList : list pyval;
  savedRawTrainingData : list Row * list pyval
}.

(** Modelled from the spec: class Prediction (not part of this source file),
    the object built by [Prediction(self, population)]: its decision, its
    class probabilities and whether any rule matched. *)
Record PredictionObj : Type := mkPrediction {
  decision : pyval;
  probabilities : list (pyval * pyfloat);
  hasMatch : bool
}.

Definition getDecision (p : PredictionObj) : pyval := decision p.
Definition getProbabilities (p : PredictionObj) : list (pyval * pyfloat) :=
  probabilities p.

(** Modelled from the spec: class IterationRecord (not part of this source
    file) as the list of its rows; one row holds the arguments of
    [addToTracking]. *)
Record TrackRow : Type := mkTrackRow {
  tr_iter : pyval;
  tr_accuracy : pyfloat;
  tr_aveGenerality : pyfloat;
  tr_counters : tempTrackingObj;
  tr_times : list Q
}.

(** ** Calls to the collaborators *)

(** The methods of the population (class ClassifierSet) that the estimator
    calls for their effect, with their arguments. *)
Inductive set_op : Type :=
| MakeMatchSet (state_phenotype : Row * pyval) (exploreIter : pyval)
| MakeCorrectSet (phen : pyval)
| UpdateSets (exploreIter : pyval)
| DoCorrectSetSubsumption
| RunGA (exploreIter : pyval) (state : Row) (phen : pyval)
| Deletion (exploreIter : pyval)
| ClearSets
| MakeEvalMatchSet (state : Row).

Inductive timer_op : Type :=
| StartTimeEvaluation
| StopTimeEvaluation
| UpdateGlobalTime
| StartTimeSubsumption
| StopTimeSubsumption
| StartTimeDeletion
| StopTimeDeletion.

(** What an execution does to its collaborators, in call order. *)
Inductive event : Type :=
| EvSet (o : set_op)
| EvTimer (o : timer_op)
| EvResetAll
| EvPrediction
| EvGetInitStampAverage
| EvGetAveGenerality
| EvNewEnvironment
| EvGetTrainInstance
| EvNewInstance
| EvNewPopulation
| EvReboot
| EvAddToTracking
| EvScore
| EvExport (routine : string).

(** Outcome of a method over a state of type [S]: a normal return, a raised
    exception, or a loop that never ends. *)
Inductive Outcome (S A : Type) : Type :=
| Ok (a : A) (s : S)
| Raise (e : exn) (s : S)
| Loops.
Arguments Ok {S A} a s.
Arguments Raise {S A} e s.
Arguments Loops {S A}.

Definition M (S A : Type) : Type := S -> Outcome S A.

Definition ret {S A} (a : A) : M S A := fun s => Ok a s.

Definition bind {S A B} (c : M S A) (k : A -> M S B) : M S B :=
  fun s => match c s with
           | Ok a s' => k a s'
           | Raise e s' => Raise e s'
           | Loops => Loops
           end.

Definition raise {S A} (e : exn) : M S A := fun s => Raise e s.

Definition get {S} : M S S := fun s => Ok s s.
Definition modify {S} (f : S -> S) : M S unit := fun s => Ok tt (f s).

(** An expression that may raise, evaluated inside a method. *)
Definition lift {S A} (r : res A) : M S A :=
  match r with
  | Val a => ret a
  | Exn e => raise e
  end.

Declare Scope py_scope.
Delimit Scope py_scope with py.
Notation "x <- c ;; k" := (bind c (fun x => k))
  (at level 100, c at next level, right associativity) : py_scope.
Notation "c ;;; k" := (bind c (fun _ => k))
  (at level 100, k at level 200, right associativity) : py_scope.
Notation "x <~ r ;; k" := (res_bind r (fun x => k))
  (at level 100, r at next level, right associativity) : py_scope.
Notation "r ~;; k" := (res_bind r (fun _ => k))
  (at level 100, k at level 200, right associativity) : py_scope.

(** [if b: raise Exception(msg)] *)
Definition raise_if (b : bool) (msg : string) : res unit :=
  if b then Exn (PyException msg) else Val tt.

(** [try: body  except: raise Exception(msg)] *)
Definition try_except {A} (body : res A) (msg : string) : res A :=
  match body with
  | Val a => Val a
  | Exn _ => Exn (PyException msg)
  end.

(** [np.random.seed] accepts seeds from 0 to 2**32 - 1. *)
Definition np_seed_ok (i : Z) : bool := (0 <=? i) && (i <? 2 ^ 32).

(** ** sklearn.metrics.balanced_accuracy_score

    As documented by scikit-learn: the average, over the classes that occur in
    [y_true], of the recall obtained on each class.  Inputs of different
    lengths are refused first.  The targets must then be class labels in both
    arrays: among arrays of numbers and None, one holding None (an object
    array, of unknown type) or a float that is no integer (a continuous
    target) is refused with ValueError.  On empty input the mean of no value
    is NaN. *)

Definition count_where {A} (f : A -> bool) (l : list A) : Z :=
  Z.of_nat (List.length (filter f l)).

(** The distinct labels of a list, first occurrences kept. *)
Fixpoint distinct_labels (l : list pyval) : list pyval :=
  match l with
  | [] => []
  | a :: rest => a :: filter (fun b => negb (py_eqb b a)) (distinct_labels rest)
  end.

(** Recall on class [c]: among the samples whose true label is [c], the
    fraction predicted as [c]. *)
Definition recall (c : pyval) (pairs : list (pyval * pyval)) : Q :=
  count_where (fun tp => py_eqb (fst tp) c && py_eqb (snd tp) c) pairs
  # Z.to_pos (count_where (fun tp => py_eqb (fst tp) c) pairs).

Definition Qsum (l : list Q) : Q := fold_right Qplus 0%Q l.

(** An integer that an array of int64 and an array of float64 both hold
    exactly. *)
Definition exact_int (z : Z) : bool := (- 2 ^ 53 <=? z) && (z <=? 2 ^ 53).

(** A numeric class label: a bool, or an int or a float whose value is such
    an integer. *)
Definition class_label (v : pyval) : bool :=
  match v with
  | VInt z => exact_int z
  | VBool _ => true
  | VFloat (FFin q) => Qeq_bool q (inject_Z (Qfloor q)) && exact_int (Qfloor q)
  | _ => false
  end.

(** An entry of an array of numbers and None: None, a bool, such an int, or
    any float. *)
Definition number_or_none (v : pyval) : bool :=
  match v with
  | VInt z => exact_int z
  | VBool _ | VFloat _ | VNone => true
  | VStr _ => false
  end.

(** What the library answers on other targets (strings, integers beyond
    2^53, mixtures of strings and numbers) depends on the conversion to
    arrays and on the version; it is a parameter, [other_targets]. *)
Definition balanced_accuracy_score
  (other_targets : list pyval -> list pyval -> res pyfloat)
  (y_true y_pred : list pyval) : res pyfloat :=
  if negb (Nat.eqb (List.length y_true) (List.length y_pred)) then Exn ValueError
  else if forallb class_label y_true && forallb class_label y_pred then
    let pairs := combine y_true y_pred in
    let classes := distinct_labels y_true in
    match classes with
    | [] => Val FNaN
    | _ => Val (FFin (Qsum (map (fun c => recall c pairs) classes)
                      / inject_Z (py_len classes)))
    end
  else if forallb number_or_none y_true && forallb number_or_none y_pred then
    Exn ValueError
  else other_targets y_true y_pred.

(** ** State *)

Set Implicit Arguments.

Section StateTypes.

(** The two global generators ([random] and [np.random]), the wall clock
    and the training environment (class OfflineEnvironment). *)
Variables PyRng NpRng Clock Env : Type.

(** The state of the two global generators. *)
Definition Rngs : Type := (PyRng * NpRng)%type.

(** The world outside the estimator object: the global generators, the
    clock, the pickled models on disk, and the calls made so far. *)
Record World : Type := mkWorld {
  rngs : Rngs;
  clock : Clock;
  files : string -> option Snapshot;
  log : list event
}.

(** The attributes of the estimator object [self].  An attribute that an
    earlier method has not yet created is [None] here, and reading it raises
    AttributeError. *)
Record Model : Type := mkModel {
  params : Params;
  trackingObj : tempTrackingObj;
  record : list TrackRow;
  hasTrained : bool;
  env : option Env;
  explorIter : option pyval;
  trackingAccuracy : list pyfloat;
  movingAvgCount : Z;
  population : option ClassifierSet;
  timer : option Timer;
  finalMetrics : option Snapshot
}.

Definition State : Type := (Model * World)%type.

(** What a method of the population, of a prediction or of the timer can
    read and change: the population, the iteration counters, the timer, the
    clock and the generators. *)
Record Engine : Type := mkEngine {
  e_pop : ClassifierSet;
  e_track : tempTrackingObj;
  e_timer : Timer;
  e_clock : Clock;
  e_rngs : Rngs
}.

(** *** Attribute access *)

Definition set_params (v : Params) (m : Model) : Model :=
  mkModel v (trackingObj m) (record m) (hasTrained m) (env m) (explorIter m)
    (trackingAccuracy m) (movingAvgCount m) (population m) (timer m)
    (finalMetrics m).
Definition set_trackingObj (v : tempTrackingObj) (m : Model) : Model :=
  mkModel (params m) v (record m) (hasTrained m) (env m) (explorIter m)
    (trackingAccuracy m) (movingAvgCount m) (population m) (timer m)
    (finalMetrics m).
Definition set_record (v : list TrackRow) (m : Model) : Model :=
  mkModel (params m) (trackingObj m) v (hasTrained m) (env m) (explorIter m)
    (trackingAccuracy m) (movingAvgCount m) (population m) (timer m)
    (finalMetrics m).
Definition set_hasTrained (v : bool) (m : Model) : Model :=
  mkModel (params m) (trackingObj m) (record m) v (env m) (explorIter m)
    (trackingAccuracy m) (movingAvgCount m) (population m) (timer m)
    (finalMetrics m).
Definition set_env (v : option Env) (m : Model) : Model :=
  mkModel (params m) (trackingObj m) (record m) (hasTrained m) v
    (explorIter m) (trackingAccuracy m) (movingAvgCount m) (population m)
    (timer m) (finalMetrics m).
Definition set_explorIter (v : option pyval) (m : Model) : Model :=
  mkModel (params m) (trackingObj m) (record m) (hasTrained m) (env m) v
    (trackingAccuracy m) (movingAvgCount m) (population m) (timer m)
    (finalMetrics m).
Definition set_trackingAccuracy (v : list pyfloat) (m : Model) : Model :=
  mkModel (params m) (trackingObj m) (record m) (hasTrained m) (env m)
    (explorIter m) v (movingAvgCount m) (population m) (timer m)
    (finalMetrics m).
Definition set_movingAvgCount (v : Z) (m : Model) : Model :=
  mkModel (params m) (trackingObj m) (record m) (hasTrained m) (env m)
    (explorIter m) (trackingAccuracy m) v (population m) (timer m)
    (finalMetrics m).
Definition set_population (v : option ClassifierSet) (m : Model) : Model :=
  mkModel (params m) (trackingObj m) (record m) (hasTrained m) (env m)
    (explorIter m) (trackingAccuracy m) (movingAvgCount m) v (timer m)
    (finalMetrics m).
Definition set_timer (v : option Timer) (m : Model) : Model :=
  mkModel (params m) (trackingObj m) (record m) (hasTrained m) (env m)
    (explorIter m) (trackingAccuracy m) (movingAvgCount m) (population m) v
    (finalMetrics m).
Definition set_finalMetrics (v : option Snapshot) (m : Model) : Model :=
  mkModel (params m) (trackingObj m) (record m) (hasTrained m) (env m)
    (explorIter m) (trackingAccuracy m) (movingAvgCount m) (population m)
    (timer m) v.

Definition set_rngs (v : Rngs) (w : World) : World :=
  mkWorld v (clock w) (files w) (log w).
Definition set_clock (v : Clock) (w : World) : World :=
  mkWorld (rngs w) v (files w) (log w).
Definition set_log (v : list event) (w : World) : World :=
  mkWorld (rngs w) (clock w) (files w) v.

End StateTypes.

Unset Implicit Arguments.

Arguments params {Env} m.
Arguments trackingObj {Env} m.
Arguments record {Env} m.
Arguments hasTrained {Env} m.
Arguments env {Env} m.
Arguments explorIter {Env} m.
Arguments trackingAccuracy {Env} m.
Arguments movingAvgCount {Env} m.
Arguments population {Env} m.
Arguments timer {Env} m.
Arguments finalMetrics {Env} m.

(** ** A small instance of the collaborators

    A concrete, executable choice for every collaborator, on which the
    estimator can be run: the generators are counters, the clock counts its
    readings, the environment cycles through the rows in order, covering adds
    one rule per iteration whose fitness is drawn from the generator. *)

Module Demo.

(** Unsigned decimal literals only. *)
Definition digit_of (c : Ascii.ascii) : option Z :=
  let n := Z.of_nat (Ascii.nat_of_ascii c) in
  if (48 <=? n) && (n <=? 57) then Some (n - 48) else None.

Fixpoint parse_digits (acc : Z) (s : string) : option Z :=
  match s with
  | EmptyString => Some acc
  | String c rest =>
      match digit_of c with
      | Some d => parse_digits (10 * acc + d) rest
      | None => None
      end
  end.

Definition int_of_string (s : string) : option Z :=
  match s with
  | EmptyString => None
  | _ => parse_digits 0 s
  end.

Definition float_of_string (s : string) : option pyfloat :=
  option_map (fun z => FFin (inject_Z z)) (int_of_string s).

Definition random_seed (i : Z) : Z := Z.abs i.
Definition np_random_seed (i : Z) : Z := i.

Record Env : Type := mkEnv {
  instances : list (Row * pyval);
  cursor : nat;
  schema : FormatData
}.

Definition OfflineEnvironment (X : list Row) (y : list pyval) (_ : Params)
  (g : Z * Z) : Env * (Z * Z) :=
  (mkEnv (combine X y) 0
     (mkFormatData (py_len X) true (distinct_labels y) (X, y)), g).

Definition getTrainInstance (e : Env) : Row * pyval :=
  nth (cursor e) (instances e) ([], VNone).

Definition newInstance (e : Env) : Env :=
  mkEnv (instances e)
    (if Nat.ltb (S (cursor e)) (List.length (instances e))
     then S (cursor e) else O)
    (schema e).

Definition formatData (e : Env) : FormatData := schema e.

Definition label_of (v : pyval) : Q :=
  match num_of v with
  | Some (NInt z) => inject_Z z
  | Some (NFloat (FFin q)) => q
  | _ => 0%Q
  end.

Definition same_label (v : pyval) (c : Classifier) : bool :=
  match phenotype c with
  | PLabel q => Qeq_bool q (label_of v)
  | PInterval lo hi => Qle_bool lo (label_of v) && Qle_bool (label_of v) hi
  end.

(** Indices of the rules selected by [f]. *)
Fixpoint indices_where (f : Classifier -> bool) (i : Z) (l : list Classifier)
  : list Z :=
  match l with
  | [] => []
  | c :: rest =>
      (if f c then [i] else []) ++ indices_where f (i + 1) rest
  end.

Definition cover (y it : pyval) (draw : Z) : Classifier :=
  mkClassifier [] [] (PLabel (label_of y)) (draw # 100) 1 1 1
    (Qfloor (label_of it)) (Qfloor (label_of it)) 0 0 0.

Definition run_set_op (_ : Params) (_ : FormatData) (o : set_op)
  (e : Engine Z Z Z) : Engine Z Z Z :=
  let pop := e_pop e in
  match o with
  | MakeMatchSet sp it =>
      let pop' := popSet pop ++ [cover (snd sp) it (fst (e_rngs e) mod 100)] in
      mkEngine
        (mkClassifierSet pop' (microPopSize pop + 1)
           (indices_where (fun _ => true) 0 pop') (correctSet pop))
        (e_track e) (e_timer e) (e_clock e)
        (fst (e_rngs e) * 7 + 3, snd (e_rngs e))
  | MakeEvalMatchSet _ =>
      mkEngine
        (mkClassifierSet (popSet pop) (microPopSize pop)
           (indices_where (fun _ => true) 0 (popSet pop)) (correctSet pop))
        (e_track e) (e_timer e) (e_clock e) (e_rngs e)
  | MakeCorrectSet y =>
      mkEngine
        (mkClassifierSet (popSet pop) (microPopSize pop) (matchSet pop)
           (indices_where (same_label y) 0 (popSet pop)))
        (e_track e) (e_timer e) (e_clock e) (e_rngs e)
  | ClearSets =>
      mkEngine (mkClassifierSet (popSet pop) (microPopSize pop) [] [])
        (e_track e) (e_timer e) (e_clock e) (e_rngs e)
  | _ => e
  end.

Definition Prediction (_ : Params) (_ : FormatData) (e : Engine Z Z Z)
  : PredictionObj * Engine Z Z Z :=
  match matchSet (e_pop e), popSet (e_pop e) with
  | _ :: _, c :: _ =>
      (mkPrediction
         (match phenotype c with
          | PLabel q => VFloat (FFin q)
          | PInterval lo _ => VFloat (FFin lo)
          end) [] true, e)
  | _, _ => (mkPrediction VNone [] false, e)
  end.

Definition getInitStampAverage (_ : ClassifierSet) : pyfloat := FFin 0.

Definition getAveGenerality (_ : Params) (_ : FormatData)
  (_ : ClassifierSet) : pyfloat := FFin 1.

Definition new_Timer (c : Z) : Timer * Z :=
  (mkTimer 0 0 0 0 0 0 None None [inject_Z c], c + 1).

Definition timer_step (o : timer_op) (t : Timer) (c : Z) : Timer * Z :=
  match o with
  | UpdateGlobalTime =>
      (mkTimer (inject_Z c) (globalMatching t) (globalDeletion t)
         (globalSubsumption t) (globalSelection t) (globalEvaluation t)
         (globalAdd t) (globalGA t) (refs t), c + 1)
  | _ => (t, c + 1)
  end.

(** Targets that are neither class labels nor numbers are refused. *)
Definition other_targets (_ _ : list pyval) : res pyfloat := Exn TypeError.

(** A world with no pickled model, in which nothing has been called. *)
Definition world (g : Z * Z) (c : Z) : World Z Z Z :=
  mkWorld g c (fun _ => None) [].

(** Sample data: XOR on two binary attributes. *)
Definition X : list Row :=
  [[VInt 0; VInt 0]; [VInt 0; VInt 1]; [VInt 1; VInt 0]; [VInt 1; VInt 1]].
Definition y : list pyval := [VInt 0; VInt 1; VInt 1; VInt 0].

Definition with_seed (seed : pyval) (p : Params) : Params :=
  mkParams (learningIterations p) (trackAccuracyWhileFit p) (N p) (p_spec p)
    (discreteAttributeLimit p) (specifiedAttributes p) (nu p) (chi p)
    (upsilon p) (theta_GA p) (theta_del p) (theta_sub p) (acc_sub p) (beta p)
    (delta p) (init_fit p) (fitnessReduction p) (doCorrectSetSubsumption p)
    (doGASubsumption p) (selectionMethod p) (theta_sel p) seed
    (matchForMissingness p) (rebootFilename p).

Definition with_rebootFilename (name : pyval) (p : Params) : Params :=
  mkParams (learningIterations p) (trackAccuracyWhileFit p) (N p) (p_spec p)
    (discreteAttributeLimit p) (specifiedAttributes p) (nu p) (chi p)
    (upsilon p) (theta_GA p) (theta_del p) (theta_sub p) (acc_sub p) (beta p)
    (delta p) (init_fit p) (fitnessReduction p) (doCorrectSetSubsumption p)
    (doGASubsumption p) (selectionMethod p) (theta_sel p) (randomSeed p)
    (matchForMissingness p) name.

Definition with_p_spec (v : pyval) (p : Params) : Params :=
  mkParams (learningIterations p) (trackAccuracyWhileFit p) (N p) v
    (discreteAttributeLimit p) (specifiedAttributes p) (nu p) (chi p)
    (upsilon p) (theta_GA p) (theta_del p) (theta_sub p) (acc_sub p) (beta p)
    (delta p) (init_fit p) (fitnessReduction p) (doCorrectSetSubsumption p)
    (doGASubsumption p) (selectionMethod p) (theta_sel p) (randomSeed p)
    (matchForMissingness p) (rebootFilename p).

(** Three learning iterations, the other parameters at their defaults. *)
Definition params3 : Params := set_learningIterations (VInt 3) default_params.

(** The model right after construction. *)
Definition untrained (p : Params) : Model Env :=
  mkModel p new_tempTrackingObj [] false None None [] 0 None None None.

Definition env0 : Env := fst (OfflineEnvironment X y params3 (0, 0)).

(** A model in the middle of training: its environment, population and
    timer exist. *)
Definition started : State Z Z Z Env :=
  (mkModel params3 new_tempTrackingObj [] false (Some env0) (Some (VInt 0))
     [] 50 (Some new_ClassifierSet) (Some (fst (new_Timer 0))) None,
   world (0, 0) 1).

(** Two rules of numerosities 2 and 3. *)
Definition two_rules : ClassifierSet :=
  mkClassifierSet
    [mkClassifier [] [] (PLabel 0) (1 # 2) 1 2 1 0 0 0 0 0;
     mkClassifier [0] [CDiscrete 1] (PLabel 1) (1 # 2) 1 3 1 0 0 0 0 0]
    5 [] [].

(** A model at the end of training, before its final metrics are saved. *)
Definition trained : State Z Z Z Env :=
  (mkModel params3 new_tempTrackingObj [] false (Some env0) (Some (VInt 3))
     [] 50 (Some two_rules) (Some (fst (new_Timer 0))) None,
   world (0, 0) 1).

(** The snapshot of [trained], as [saveFinalMetrics] writes it. *)
Definition pickled : Snapshot :=
  mkSnapshot (VInt 3) 0 0 0 0 0 0 (popSet two_rules).

(** A world whose disk holds that snapshot under the name model.pkl. *)
Definition world_with_pickle : World Z Z Z :=
  mkWorld (0, 0) 0
    (fun f => if String.eqb f "model.pkl" then Some pickled else None) [].

(** A model about to reboot from model.pkl. *)
Definition rebooting : Model Env :=
  mkModel (with_rebootFilename (VStr "model.pkl") params3)
    new_tempTrackingObj [] false (Some env0) (Some (VInt 0)) [] 50 None None
    None.

End Demo.

(** A clock read in whole seconds, a disk that takes every name but the
    empty one, and a model whose training has finished. *)
Module DemoDisk.

Definition time_time (c : Z) : Q * Z := (inject_Z c, c + 1).

Definition open_wb (name : string) : option exn :=
  if String.eqb name "" then Some FileNotFoundError else None.

Definition finished : Model Demo.Env :=
  mkModel Demo.params3 new_tempTrackingObj [] true (Some Demo.env0)
    (Some (VInt 3)) [] 50 (Some Demo.two_rules)
    (Some (fst (Demo.new_Timer 0))) (Some Demo.pickled).

(** Three learning iterations with the accuracy tracked. *)
Definition tracking3 : Params :=
  mkParams (VInt 3) (VBool true) (N default_params) (p_spec default_params)
    (discreteAttributeLimit default_params)
    (specifiedAttributes default_params) (nu default_params)
    (chi default_params) (upsilon default_params) (theta_GA default_params)
    (theta_del default_params) (theta_sub default_params)
    (acc_sub default_params) (beta default_params) (delta default_params)
    (init_fit default_params) (fitnessReduction default_params)
    (doCorrectSetSubsumption default_params) (doGASubsumption default_params)
    (selectionMethod default_params) (theta_sel default_params)
    (randomSeed default_params) (matchForMissingness default_params)
    (rebootFilename default_params).

End DemoDisk.

Section Estimator.
Local Open Scope py_scope.

(** Python's numeric parsers. *)
Variable float_of_string : string -> option pyfloat.
Variable int_of_string : string -> option Z.

(** The state types of the generators, the clock and the environment, and
    the seeding functions [random.seed] and [np.random.seed]. *)
Variables PyRng NpRng Clock Env : Type.
Variable random_seed : Z -> PyRng.
Variable np_random_seed : Z -> NpRng.

Local Abbreviation Rngs := (Rngs PyRng NpRng).
Local Abbreviation World := (World PyRng NpRng Clock).
Local Abbreviation Model := (Model Env).
Local Abbreviation State := (State PyRng NpRng Clock Env).
Local Abbreviation Engine := (Engine PyRng NpRng Clock).
Local Abbreviation checkIsInt := (checkIsInt float_of_string int_of_string).
Local Abbreviation checkIsFloat := (checkIsFloat float_of_string).
Local Abbreviation py_int := (py_int int_of_string).
Local Abbreviation py_float := (py_float float_of_string).

(** *** Parameter validity checking ([eLCS.__init__]) *)

Definition msg_int (name : string) : string :=
  name ++ " param must be nonnegative integer".
Definition msg_unit (name : string) : string :=
  name ++ " param must be float from 0 - 1".
Definition msg_float (name : string) : string :=
  name ++ " param must be float".
Definition msg_bool (name : string) : string :=
  name ++ " param must be boolean".
Definition msg_dal : string :=
  "discreteAttributeLimit param must be nonnegative integer or 'c' or 'd'".
Definition msg_spec : string :=
  "All specifiedAttributes elements param must be nonnegative integers".
Definition msg_seed : string := "randomSeed param must be integer or 'none'".

(** [if not self.checkIsInt(v): raise ...; if v < 0: raise ...] *)
Definition check_int_nonneg (name : string) (v : pyval) : res unit :=
  raise_if (negb (checkIsInt v)) (msg_int name) ~;;
  b <~ py_lt_int v 0 ;;
  raise_if b (msg_int name).

(** [if not self.checkIsFloat(v): raise ...; if v < 0 or v > 1: raise ...] *)
Definition check_unit_interval (name : string) (v : pyval) : res unit :=
  raise_if (negb (checkIsFloat v)) (msg_unit name) ~;;
  lo <~ py_lt_int v 0 ;;
  out <~ (if lo then Val true else py_gt_int v 1) ;;
  raise_if out (msg_unit name).

Definition check_float (name : string) (v : pyval) : res unit :=
  raise_if (negb (checkIsFloat v)) (msg_float name).

Definition check_float_nonneg (name : string) (v : pyval) : res unit :=
  raise_if (negb (checkIsFloat v)) (name ++ " param must be nonnegative float") ~;;
  b <~ py_lt_int v 0 ;;
  raise_if b (name ++ " param must be nonnegative float").

Definition check_bool (name : string) (v : pyval) : res unit :=
  raise_if (negb (isinstance_bool v)) (msg_bool name).

Definition check_discreteAttributeLimit (v : pyval) : res unit :=
  if py_ne_str v "c" && py_ne_str v "d" then
    try_except
      (dpl <~ py_int v ;;
       raise_if (negb (checkIsInt v)) msg_dal ~;;
       raise_if (dpl <? 0) msg_dal)
      msg_dal
  else Val tt.

Fixpoint check_spAttrs (l : list pyval) : res unit :=
  match l with
  | [] => Val tt
  | spAttr :: rest =>
      raise_if (negb (checkIsInt spAttr)) msg_spec ~;;
      i <~ py_int spAttr ;;
      raise_if (i <? 0) msg_spec ~;;
      check_spAttrs rest
  end.

Definition check_specifiedAttributes (a : pyarg) : res unit :=
  match a with
  | AScalar _ => Exn (PyException "specifiedAttributes param must be ndarray")
  | ANdArray l => check_spAttrs l
  end.

Definition check_selectionMethod (v : pyval) : res unit :=
  raise_if (py_ne_str v "tournament" && py_ne_str v "roulette")
    "selectionMethod param must be 'tournament' or 'roulette'".

Definition check_rebootFilename (v : pyval) : res unit :=
  raise_if (negb (py_eqb v VNone) && negb (isinstance_str v))
    "rebootFilename param must be None or String from pickle".

(** The checks from learningIterations to theta_sel, in source order. *)
Definition checks_before_seed (p : Params) : res unit :=
  check_int_nonneg "learningIterations" (learningIterations p) ~;;
  check_bool "trackAccuracyWhileFit" (trackAccuracyWhileFit p) ~;;
  check_int_nonneg "N" (N p) ~;;
  check_unit_interval "p_spec" (p_spec p) ~;;
  check_discreteAttributeLimit (discreteAttributeLimit p) ~;;
  check_specifiedAttributes (specifiedAttributes p) ~;;
  check_float "nu" (nu p) ~;;
  check_unit_interval "chi" (chi p) ~;;
  check_unit_interval "upsilon" (upsilon p) ~;;
  check_float_nonneg "theta_GA" (theta_GA p) ~;;
  check_int_nonneg "theta_del" (theta_del p) ~;;
  check_int_nonneg "theta_sub" (theta_sub p) ~;;
  check_unit_interval "acc_sub" (acc_sub p) ~;;
  check_float "beta" (beta p) ~;;
  check_float "delta" (delta p) ~;;
  check_float "init_fit" (init_fit p) ~;;
  check_float "fitnessReduction" (fitnessReduction p) ~;;
  check_bool "doCorrectSetSubsumption" (doCorrectSetSubsumption p) ~;;
  check_bool "doGASubsumption" (doGASubsumption p) ~;;
  check_selectionMethod (selectionMethod p) ~;;
  check_unit_interval "theta_sel" (theta_sel p).

Definition checks_after_seed (p : Params) : res unit :=
  check_bool "matchForMissingness" (matchForMissingness p) ~;;
  check_rebootFilename (rebootFilename p).

(** The randomSeed block: [random.seed] runs before [np.random.seed], so a
    seed that only numpy refuses has already reseeded [random]. *)
Definition seed_step (v : pyval) (g : Rngs) : res unit * Rngs :=
  if py_ne_str v "none" then
    if checkIsInt v then
      match py_int v with
      | Exn _ => (Exn (PyException msg_seed), g)
      | Val i =>
          if np_seed_ok i then (Val tt, (random_seed i, np_random_seed i))
          else (Exn (PyException msg_seed), (random_seed i, snd g))
      end
    else (Exn (PyException msg_seed), g)
  else (Val tt, g).

(** The collaborators: class OfflineEnvironment, the methods of
    ClassifierSet, class Prediction and class Timer.  The population's
    methods and [Prediction] receive [self]; they see its hyperparameters
    and the data schema. *)
Variable OfflineEnvironment :
  list Row -> list pyval -> Params -> Rngs -> Env * Rngs.
Variable getTrainInstance : Env -> Row * pyval.
Variable newInstance : Env -> Env.
Variable formatData : Env -> FormatData.
Variable run_set_op : Params -> FormatData -> set_op -> Engine -> Engine.
Variable Prediction : Params -> FormatData -> Engine -> PredictionObj * Engine.
Variable getInitStampAverage : ClassifierSet -> pyfloat.
Variable getAveGenerality : Params -> FormatData -> ClassifierSet -> pyfloat.
Variable new_Timer : Clock -> Timer * Clock.
Variable timer_step : timer_op -> Timer -> Clock -> Timer * Clock.
Variable other_targets : list pyval -> list pyval -> res pyfloat.

(** [eLCS.__init__]: the validity checks, then the attributes are set. *)
Definition init (p : Params) : M World Model :=
  fun w =>
    match checks_before_seed p with
    | Exn e => Raise e w
    | Val _ =>
        let (r, g) := seed_step (randomSeed p) (rngs w) in
        let w' := set_rngs g w in
        match r ~;; checks_after_seed p with
        | Exn e => Raise e w'
        | Val _ =>
            Ok (mkModel p new_tempTrackingObj [] false None None [] 0 None
                  None None) w'
        end
    end.

(** *** Calling the collaborators *)

Definition Meth (A : Type) : Type := M State A.

Definition get_state : Meth State := get.

Definition log_event (e : event) : Meth unit :=
  modify (fun s => (fst s, set_log (log (snd s) ++ [e]) (snd s))).

Definition modify_model (f : Model -> Model) : Meth unit :=
  modify (fun s => (f (fst s), snd s)).

(** Reads an attribute of [self]; AttributeError if it does not exist. *)
Definition attr {A} (f : Model -> option A) : Meth A :=
  s <- get_state ;;
  match f (fst s) with
  | Some a => ret a
  | None => raise AttributeError
  end.

(** Runs a collaborator's method on the parts of the state it can reach. *)
Definition with_engine {A} (f : Engine -> A * Engine) : Meth A :=
  pop <- attr population ;;
  tm <- attr timer ;;
  s <- get_state ;;
  let (m, w) := s in
  let (a, e) := f (mkEngine pop (trackingObj m) tm (clock w) (rngs w)) in
  modify (fun _ =>
    (set_population (Some (e_pop e))
       (set_trackingObj (e_track e) (set_timer (Some (e_timer e)) m)),
     set_clock (e_clock e) (set_rngs (e_rngs e) w))) ;;;
  ret a.

(** [self.env.formatData] *)
Definition get_formatData : Meth FormatData :=
  ev <- attr env ;;
  ret (formatData ev).

(** [self.population.<method>(..., self)] *)
Definition call_set_op (o : set_op) : Meth unit :=
  pop <- attr population ;;
  log_event (EvSet o) ;;;
  fd <- get_formatData ;;
  s <- get_state ;;
  with_engine (fun e => (tt, run_set_op (params (fst s)) fd o e)).

(** [self.timer.<method>()] *)
Definition call_timer (o : timer_op) : Meth unit :=
  tm <- attr timer ;;
  log_event (EvTimer o) ;;;
  s <- get_state ;;
  let (tm', c') := timer_step o tm (clock (snd s)) in
  modify (fun s => (set_timer (Some tm') (fst s), set_clock c' (snd s))).

(** [Prediction(self, self.population)] *)
Definition call_Prediction : Meth PredictionObj :=
  pop <- attr population ;;
  log_event EvPrediction ;;;
  fd <- get_formatData ;;
  s <- get_state ;;
  with_engine (Prediction (params (fst s)) fd).

(** *** [eLCS.runIteration] *)

(** [if len(self.trackingAccuracy) == self.movingAvgCount:
       del self.trackingAccuracy[0]
     self.trackingAccuracy.append(x)] *)
Definition push_tracking (x : pyfloat) : Meth unit :=
  modify_model (fun m =>
    let l := trackingAccuracy m in
    let l' := if py_len l =? movingAvgCount m then tl l else l in
    set_trackingAccuracy (l' ++ [x]) m).

(** The accuracy estimate of the continuous-phenotype branch. *)
Definition accuracyEstimate (fd : FormatData) (phenotypePrediction y : pyval)
  : res pyfloat :=
  fy <~ py_float y ;;
  d <~ py_sub phenotypePrediction (VFloat fy) ;;
  predictionError <~ res_bind (py_float d) (fun f => Val (fabs f)) ;;
  hi <~ py_index (phenotypeList fd) 1 ;;
  lo <~ py_index (phenotypeList fd) 0 ;;
  phenotypeRange <~ py_sub hi lo ;;
  r <~ py_float phenotypeRange ;;
  q <~ fdiv predictionError r ;;
  Val (fsub (FFin 1) q).

(** The block guarded by [if self.trackAccuracyWhileFit:]. *)
Definition track_accuracy (state_phenotype : Row * pyval) : Meth unit :=
  call_timer StartTimeEvaluation ;;;
  prediction <- call_Prediction ;;
  let phenotypePrediction := getDecision prediction in
  fd <- get_formatData ;;
  (if discretePhenotype fd then
     if py_eqb phenotypePrediction (snd state_phenotype)
     then push_tracking (FFin 1)
     else push_tracking (FFin 0)
   else
     a <- lift (accuracyEstimate fd phenotypePrediction (snd state_phenotype)) ;;
     push_tracking a) ;;;
  call_timer StopTimeEvaluation.

(** The five assignments to [self.trackingObj] before the sets are
    cleared. *)
Definition snapshot_counters : Meth unit :=
  pop <- attr population ;;
  log_event EvGetInitStampAverage ;;;
  modify_model (fun m =>
    let t := trackingObj m in
    set_trackingObj
      (mkTracking (py_len (popSet pop)) (microPopSize pop)
         (py_len (matchSet pop)) (py_len (correctSet pop))
         (getInitStampAverage pop) (subsumptionCount t) (crossOverCount t)
         (mutationCount t) (coveringCount t) (deletionCount t)) m).

Definition runIteration (state_phenotype : Row * pyval) (exploreIter : pyval)
  : Meth unit :=
  log_event EvResetAll ;;;
  modify_model (fun m => set_trackingObj (resetAll (trackingObj m)) m) ;;;
  call_set_op (MakeMatchSet state_phenotype exploreIter) ;;;
  s <- get_state ;;
  (if py_truthy (trackAccuracyWhileFit (params (fst s)))
   then track_accuracy state_phenotype
   else ret tt) ;;;
  call_set_op (MakeCorrectSet (snd state_phenotype)) ;;;
  call_set_op (UpdateSets exploreIter) ;;;
  s <- get_state ;;
  (if py_truthy (doCorrectSetSubsumption (params (fst s)))
   then call_timer StartTimeSubsumption ;;;
        call_set_op DoCorrectSetSubsumption ;;;
        call_timer StopTimeSubsumption
   else ret tt) ;;;
  call_set_op (RunGA exploreIter (fst state_phenotype) (snd state_phenotype)) ;;;
  call_timer StartTimeDeletion ;;;
  call_set_op (Deletion exploreIter) ;;;
  call_timer StopTimeDeletion ;;;
  snapshot_counters ;;;
  call_set_op ClearSets.

(** *** Persistence: [saveFinalMetrics] and [rebootPopulation] *)

Definition saveFinalMetrics : Meth unit :=
  s <- get_state ;;
  tm <- attr timer ;;
  pop <- attr population ;;
  modify_model (set_finalMetrics (Some
    (mkSnapshot (learningIterations (params (fst s))) (globalTime tm)
       (globalMatching tm) (globalDeletion tm) (globalSubsumption tm)
       (globalSelection tm) (globalEvaluation tm) (popSet pop)))).

(** [open(self.rebootFilename, 'rb')] followed by [pickle.load]. *)
Definition load_pickle (name : pyval) (w : World) : res Snapshot :=
  match name with
  | VStr f => match files w f with
              | Some rawData => Val rawData
              | None => Exn FileNotFoundError
              end
  | _ => Exn TypeError
  end.

(** [microPopSize = 0; for rule in popSet: microPopSize += rule.numerosity] *)
Definition sum_numerosity (popSet : list Classifier) : Z :=
  fold_left (fun microPopSize rule => microPopSize + numerosity rule) popSet 0.

(** The six assignments to the fresh timer. *)
Definition restore_timer (rawData : Snapshot) (tm : Timer) : Timer :=
  mkTimer (globalTime tm) (raw2 rawData) (raw3 rawData) (raw4 rawData)
    (globalSelection tm) (raw6 rawData) (Some (raw1 rawData))
    (Some (raw5 rawData)) (refs tm).

Definition rebootPopulation : Meth unit :=
  s <- get_state ;;
  rawData <- lift (load_pickle (rebootFilename (params (fst s))) (snd s)) ;;
  log_event EvReboot ;;;
  let popSet := raw7 rawData in
  let microPopSize := sum_numerosity popSet in
  let set := mkClassifierSet popSet microPopSize
               (matchSet new_ClassifierSet) (correctSet new_ClassifierSet) in
  modify_model (set_population (Some set)) ;;;
  s <- get_state ;;
  let (tm, c) := new_Timer (clock (snd s)) in
  modify (fun s => (set_timer (Some (restore_timer rawData tm)) (fst s),
                    set_clock c (snd s))) ;;;
  s <- get_state ;;
  li <- lift (py_add (learningIterations (params (fst s))) (raw0 rawData)) ;;
  modify_model (fun m => set_params (set_learningIterations li (params m)) m) ;;;
  it <- attr explorIter ;;
  it' <- lift (py_add it (raw0 rawData)) ;;
  modify_model (set_explorIter (Some it')).

(** *** [eLCS.fit] *)

(** [for value in instance: if not np.isnan(value): float(value)] *)
Fixpoint check_instance (instance : Row) : res unit :=
  match instance with
  | [] => Val tt
  | value :: rest =>
      isnan <~ np_isnan value ;;
      (if isnan then Val tt else py_float value ~;; Val tt) ~;;
      check_instance rest
  end.

Fixpoint check_X (X : list Row) : res unit :=
  match X with
  | [] => Val tt
  | instance :: rest => check_instance instance ~;; check_X rest
  end.

(** [for value in y: float(value)] *)
Fixpoint check_y (y : list pyval) : res unit :=
  match y with
  | [] => Val tt
  | value :: rest => py_float value ~;; check_y rest
  end.

(** [min(numTrainInstances, int(self.learningIterations/20)+1)] *)
Definition compute_aveGeneralityFreq (fd : FormatData) (li : pyval) : res Z :=
  f <~ py_truediv_int li 20 ;;
  i <~ py_int (VFloat f) ;;
  Val (Z.min (numTrainInstances fd) (i + 1)).

(** The number of times [explorIter < learningIterations] can still hold
    while only [explorIter += 1] changes it: the distance between two finite
    numbers, rounded up.  When learningIterations is infinite the loop
    never ends, whatever the amount. *)
Definition num_Q (n : num) : option Q :=
  match n with
  | NInt z => Some (inject_Z z)
  | NFloat (FFin q) => Some q
  | NFloat _ => None
  end.

Definition iterations_left (li it : pyval) : nat :=
  match num_of li, num_of it with
  | Some a, Some b =>
      match num_Q a, num_Q b with
      | Some x, Some y => Z.to_nat (Qceiling (x - y))
      | _, _ => O
      end
  | _, _ => O
  end.

(** [sum(self.trackingAccuracy)/len(self.trackingAccuracy)], or 0 for the
    empty list. *)
Definition mean_trackingAccuracy (l : list pyfloat) : res pyfloat :=
  if negb (py_len l =? 0)
  then fdiv (fsum l) (FFin (inject_Z (py_len l)))
  else Val (FFin 0).

Definition times_of (tm : Timer) : list Q :=
  [globalTime tm; globalMatching tm; globalDeletion tm; globalSubsumption tm;
   globalSelection tm; globalEvaluation tm].

(** The body of the training loop. *)
Definition fit_body (aveGeneralityFreq : Z) (aveGenerality : pyfloat)
  : Meth pyfloat :=
  ev <- attr env ;;
  log_event EvGetTrainInstance ;;;
  let state_phenotype := getTrainInstance ev in
  it <- attr explorIter ;;
  runIteration state_phenotype it ;;;
  call_timer StartTimeEvaluation ;;;
  it <- attr explorIter ;;
  r <- lift (py_mod_int it aveGeneralityFreq) ;;
  aveGenerality <-
    (if py_eqb r (VInt (aveGeneralityFreq - 1))
     then pop <- attr population ;;
          log_event EvGetAveGenerality ;;;
          fd <- get_formatData ;;
          s <- get_state ;;
          ret (getAveGenerality (params (fst s)) fd pop)
     else ret aveGenerality) ;;
  s <- get_state ;;
  accuracy <- lift (mean_trackingAccuracy (trackingAccuracy (fst s))) ;;
  call_timer UpdateGlobalTime ;;;
  it <- attr explorIter ;;
  tm <- attr timer ;;
  log_event EvAddToTracking ;;;
  modify_model (fun m =>
    set_record (record m ++
      [mkTrackRow it accuracy aveGenerality (trackingObj m) (times_of tm)]) m) ;;;
  call_timer StopTimeEvaluation ;;;
  it <- attr explorIter ;;
  it' <- lift (py_add it (VInt 1)) ;;
  modify_model (set_explorIter (Some it')) ;;;
  ev <- attr env ;;
  log_event EvNewInstance ;;;
  modify_model (set_env (Some (newInstance ev))) ;;;
  ret aveGenerality.

(** [while self.explorIter < self.learningIterations: ...] *)
Fixpoint fit_loop (fuel : nat) (aveGeneralityFreq : Z)
  (aveGenerality : pyfloat) : Meth unit :=
  it <- attr explorIter ;;
  s <- get_state ;;
  continue <- lift (py_lt it (learningIterations (params (fst s)))) ;;
  if continue then
    match fuel with
    | O => fun _ => Loops
    | S fuel' =>
        aveGenerality' <- fit_body aveGeneralityFreq aveGenerality ;;
        fit_loop fuel' aveGeneralityFreq aveGenerality'
    end
  else ret tt.

Definition new_training_state : Meth unit :=
  s <- get_state ;;
  let (tm, c) := new_Timer (clock (snd s)) in
  log_event EvNewPopulation ;;;
  modify (fun s => (set_population (Some new_ClassifierSet)
                      (set_timer (Some tm) (fst s)),
                    set_clock c (snd s))).

(** The training loop and the three statements after it. *)
Definition fit_train (aveGeneralityFreq : Z) : Meth unit :=
  s <- get_state ;;
  it <- attr explorIter ;;
  fit_loop (iterations_left (learningIterations (params (fst s))) it)
    aveGeneralityFreq (FFin 0) ;;;
  saveFinalMetrics ;;;
  modify_model (set_hasTrained true).

Definition fit (X : list Row) (y : list pyval) : Meth unit :=
  s <- get_state ;;
  (if hasTrained (fst s)
   then raise (PyException "Cannot train already trained model again")
   else ret tt) ;;;
  lift (try_except (check_X X ~;; check_y y) "X and y must be fully numeric") ;;;
  log_event EvNewEnvironment ;;;
  s <- get_state ;;
  let (ev, g) := OfflineEnvironment X y (params (fst s)) (rngs (snd s)) in
  modify (fun s => (set_env (Some ev) (fst s), set_rngs g (snd s))) ;;;
  modify_model (fun m =>
    set_movingAvgCount 50 (set_trackingAccuracy [] (set_explorIter (Some (VInt 0)) m))) ;;;
  fd <- get_formatData ;;
  s <- get_state ;;
  aveGeneralityFreq <-
    lift (compute_aveGeneralityFreq fd (learningIterations (params (fst s)))) ;;
  (if py_eqb (rebootFilename (params (fst s))) VNone
   then new_training_state
   else rebootPopulation) ;;;
  fit_train aveGeneralityFreq.

(** *** Inference: [predict], [predict_proba], [score] *)

(** One pass of the loop [for inst in range(instances)] of [predict]. *)
Definition predict_row (state : Row) : Meth pyval :=
  call_set_op (MakeEvalMatchSet state) ;;;
  prediction <- call_Prediction ;;
  let phenotypeSelection := getDecision prediction in
  call_set_op ClearSets ;;;
  ret phenotypeSelection.

Definition predict_proba_row (state : Row) : Meth (list (pyval * pyfloat)) :=
  call_set_op (MakeEvalMatchSet state) ;;;
  prediction <- call_Prediction ;;
  let probs := getProbabilities prediction in
  call_set_op ClearSets ;;;
  ret probs.

(** [predList = []; for ...: predList.append(f(X[inst]))] *)
Fixpoint for_rows {A} (f : Row -> Meth A) (X : list Row) : Meth (list A) :=
  match X with
  | [] => ret []
  | state :: rest =>
      a <- f state ;;
      predList <- for_rows f rest ;;
      ret (a :: predList)
  end.

Definition predict (X : list Row) : Meth (list pyval) :=
  lift (try_except (check_X X) "X must be fully numeric") ;;;
  for_rows predict_row X.

Definition predict_proba (X : list Row) : Meth (list (list (pyval * pyfloat))) :=
  lift (try_except (check_X X) "X must be fully numeric") ;;;
  for_rows predict_proba_row X.

Definition score (X : list Row) (y : list pyval) : Meth pyfloat :=
  predList <- predict X ;;
  lift (balanced_accuracy_score other_targets y predList).

(** *** Export and evaluation routines *)

Definition msg_no_tracking : string :=
  "There is no tracking data to export, as the eLCS model has not been trained".
Definition msg_no_population : string :=
  "There is no rule population to export, as the eLCS model has not been trained".
Definition msg_no_accuracy : string :=
  "There is no final training accuracy to return, as the XCS model has not been trained".
Definition msg_no_coverage : string :=
  "There is no final instance coverage to return, as the eLCS model has not been trained".

(** [if self.hasTrained: body  else: raise Exception(msg)] *)
Definition if_trained {A} (body : Meth A) (msg : string) : Meth A :=
  s <- get_state ;;
  if hasTrained (fst s) then body else raise (PyException msg).

Definition exportIterationTrackingData (filename : pyval) : Meth unit :=
  if_trained (log_event (EvExport "exportTrackingToCSV")) msg_no_tracking.

Definition exportFinalRulePopulation (DCAL : bool) : Meth unit :=
  if_trained
    (if DCAL then log_event (EvExport "exportPopDCAL")
     else log_event (EvExport "exportPop"))
    msg_no_population.

Definition getFinalAccuracy : Meth pyfloat :=
  if_trained
    (fd <- get_formatData ;;
     let originalTrainingData := savedRawTrainingData fd in
     score (fst originalTrainingData) (snd originalTrainingData))
    msg_no_accuracy.

(** One pass of the coverage loop; returns the new [numCovered]. *)
Definition coverage_row (numCovered : Z) (state : Row) : Meth Z :=
  call_set_op (MakeEvalMatchSet state) ;;;
  predictionArray <- call_Prediction ;;
  let numCovered' :=
    if hasMatch predictionArray then numCovered + 1 else numCovered in
  call_set_op ClearSets ;;;
  ret numCovered'.

Fixpoint coverage_rows (numCovered : Z) (X : list Row) : Meth Z :=
  match X with
  | [] => ret numCovered
  | state :: rest =>
      n <- coverage_row numCovered state ;;
      coverage_rows n rest
  end.

Definition getFinalInstanceCoverage : Meth pyfloat :=
  if_trained
    (fd <- get_formatData ;;
     let originalTrainingData := savedRawTrainingData fd in
     numCovered <- coverage_rows 0 (fst originalTrainingData) ;;
     f <- lift (py_truediv_int (VInt numCovered)
                 (py_len (fst originalTrainingData))) ;;
     ret f)
    msg_no_coverage.

(** *** [pickleModel] and the attribute lists *)

(** [time.time()] read off the clock; [open(name, 'wb')], which the file
    system may refuse with an exception; and the two list methods of the
    population, [getAttributeSpecificityList] and
    [getAttributeAccuracyList]. *)
Variable time_time : Clock -> Q * Clock.
Variable open_wb : string -> option exn.
Variable getAttributeSpecificityList :
  Params -> FormatData -> Engine -> list pyval * Engine.
Variable getAttributeAccuracyList :
  Params -> FormatData -> Engine -> list pyval * Engine.

(** [str(n)] for an int [n]. *)
Definition py_str_int (n : Z) : string := NilZero.string_of_int (Z.to_int n).

Definition set_files (v : string -> option Snapshot) (w : World) : World :=
  mkWorld (rngs w) (clock w) v (log w).

(** The content of file [name] becomes [content]; an empty file holds no
    pickled object. *)
Definition write_file (name : string) (content : option Snapshot) : Meth unit :=
  modify (fun s =>
    (fst s,
     set_files (fun f => if String.eqb f name then content else files (snd s) f)
       (snd s))).

(** ['pickled'+str(int(time.time()))] *)
Definition default_pickle_name : Meth string :=
  s <- get_state ;;
  let (t, c) := time_time (clock (snd s)) in
  modify (fun s => (fst s, set_clock c (snd s))) ;;;
  ret ("pickled" ++ py_str_int (Qtrunc t))%string.

Definition msg_no_pickle : string :=
  "There is model to pickle, as the eLCS model has not been trained".
Definition msg_no_specificity : string :=
  "There is no final attribute specificity list to return, as the eLCS model has not been trained".
Definition msg_no_attribute_accuracy : string :=
  "There is no final attribute accuracy list to return, as the eLCS model has not been trained".

(** [open] empties the file before [self.finalMetrics] is read for
    [pickle.dump]. *)
Definition pickleModel (filename : option string) : Meth unit :=
  if_trained
    (filename <- match filename with
                 | None => default_pickle_name
                 | Some f => ret f
                 end ;;
     match open_wb filename with
     | Some e => raise e
     | None =>
         write_file filename None ;;;
         rawData <- attr finalMetrics ;;
         write_file filename (Some rawData)
     end)
    msg_no_pickle.

Definition getFinalAttributeSpecificityList : Meth (list pyval) :=
  if_trained
    (pop <- attr population ;;
     fd <- get_formatData ;;
     s <- get_state ;;
     with_engine (getAttributeSpecificityList (params (fst s)) fd))
    msg_no_specificity.

Definition getFinalAttributeAccuracyList : Meth (list pyval) :=
  if_trained
    (pop <- attr population ;;
     fd <- get_formatData ;;
     s <- get_state ;;
     with_engine (getAttributeAccuracyList (params (fst s)) fd))
    msg_no_attribute_accuracy.

(** *** Vocabulary of the statements *)

Definition raises {S A} (o : Outcome S A) : Prop :=
  match o with
  | Raise _ _ => True
  | _ => False
  end.

Definition returns {S A} (o : Outcome S A) : Prop :=
  match o with
  | Ok _ _ => True
  | _ => False
  end.

(** The number denoted by [v] is below, or above, the integer [c].  NaN,
    strings and None denote no number. *)
Definition value_lt (v : pyval) (c : Z) : Prop :=
  match v with
  | VInt z => z < c
  | VBool b => Z_of_bool b < c
  | VFloat (FFin q) => (q < inject_Z c)%Q
  | VFloat FNegInf => True
  | _ => False
  end.

Definition value_gt (v : pyval) (c : Z) : Prop :=
  match v with
  | VInt z => c < z
  | VBool b => c < Z_of_bool b
  | VFloat (FFin q) => (inject_Z c < q)%Q
  | VFloat FPosInf => True
  | _ => False
  end.

Definition negative (v : pyval) : Prop := value_lt v 0.
Definition outside_unit (v : pyval) : Prop := value_lt v 0 \/ value_gt v 1.

(** A float with zero fractional part: [f == int(f)]. *)
Definition integral (q : Q) : Prop := (q == inject_Z (Qtrunc q))%Q.

(** Values in range for a parameter documented as a nonnegative integer:
    an int, or a number with zero fractional part. *)
Definition nonneg_integer (v : pyval) : Prop :=
  match v with
  | VInt z => 0 <= z < float_int_bound
  | VBool _ => True
  | VFloat (FFin q) => integral q /\ (0 <= q)%Q
  | _ => False
  end.

(** Values in range for a parameter documented as a float from 0 to 1. *)
Definition in_unit (v : pyval) : Prop :=
  match v with
  | VInt z => 0 <= z <= 1
  | VBool _ => True
  | VFloat (FFin q) => (0 <= q <= 1)%Q
  | _ => False
  end.

(** Values in range for a parameter documented as a float. *)
Definition a_number (v : pyval) : Prop :=
  match v with
  | VInt z => Z.abs z < float_int_bound
  | VBool _ | VFloat _ => True
  | _ => False
  end.

(** Values in range for a parameter documented as a nonnegative float. *)
Definition nonneg_number (v : pyval) : Prop :=
  match v with
  | VInt z => 0 <= z < float_int_bound
  | VBool _ => True
  | VFloat (FFin q) => (0 <= q)%Q
  | VFloat FPosInf => True
  | _ => False
  end.

Definition a_bool (v : pyval) : Prop := exists b, v = VBool b.

(** A configuration whose every parameter is of its documented kind and in
    its documented range. *)
Record in_range (p : Params) : Prop := {
  ir_learningIterations : nonneg_integer (learningIterations p);
  ir_trackAccuracyWhileFit : a_bool (trackAccuracyWhileFit p);
  ir_N : nonneg_integer (N p);
  ir_p_spec : in_unit (p_spec p);
  ir_discreteAttributeLimit :
    discreteAttributeLimit p = VStr "c" \/ discreteAttributeLimit p = VStr "d"
    \/ nonneg_integer (discreteAttributeLimit p);
  ir_specifiedAttributes :
    exists l, specifiedAttributes p = ANdArray l /\ Forall nonneg_integer l;
  ir_nu : a_number (nu p);
  ir_chi : in_unit (chi p);
  ir_upsilon : in_unit (upsilon p);
  ir_theta_GA : nonneg_number (theta_GA p);
  ir_theta_del : nonneg_integer (theta_del p);
  ir_theta_sub : nonneg_integer (theta_sub p);
  ir_acc_sub : in_unit (acc_sub p);
  ir_beta : a_number (beta p);
  ir_delta : a_number (delta p);
  ir_init_fit : a_number (init_fit p);
  ir_fitnessReduction : a_number (fitnessReduction p);
  ir_doCorrectSetSubsumption : a_bool (doCorrectSetSubsumption p);
  ir_doGASubsumption : a_bool (doGASubsumption p);
  ir_selectionMethod :
    selectionMethod p = VStr "tournament" \/ selectionMethod p = VStr "roulette";
  ir_theta_sel : in_unit (theta_sel p);
  ir_randomSeed :
    randomSeed p = VStr "none"
    \/ exists z, randomSeed p = VInt z /\ 0 <= z < 2 ^ 32;
  ir_matchForMissingness : a_bool (matchForMissingness p);
  ir_rebootFilename :
    rebootFilename p = VNone \/ exists f, rebootFilename p = VStr f
}.

(** The four parameters checked by [checkIsInt] and [< 0]. *)
Inductive int_param : Type :=
| LearningIterations
| MaxPopulation
| ThetaDel
| ThetaSub.

Definition with_int_param (k : int_param) (v : pyval) (p : Params) : Params :=
  match k with
  | LearningIterations => set_learningIterations v p
  | MaxPopulation =>
      mkParams (learningIterations p) (trackAccuracyWhileFit p) v (p_spec p)
        (discreteAttributeLimit p) (specifiedAttributes p) (nu p) (chi p)
        (upsilon p) (theta_GA p) (theta_del p) (theta_sub p) (acc_sub p)
        (beta p) (delta p) (init_fit p) (fitnessReduction p)
        (doCorrectSetSubsumption p) (doGASubsumption p) (selectionMethod p)
        (theta_sel p) (randomSeed p) (matchForMissingness p)
        (rebootFilename p)
  | ThetaDel =>
      mkParams (learningIterations p) (trackAccuracyWhileFit p) (N p)
        (p_spec p) (discreteAttributeLimit p) (specifiedAttributes p) (nu p)
        (chi p) (upsilon p) (theta_GA p) v (theta_sub p) (acc_sub p)
        (beta p) (delta p) (init_fit p) (fitnessReduction p)
        (doCorrectSetSubsumption p) (doGASubsumption p) (selectionMethod p)
        (theta_sel p) (randomSeed p) (matchForMissingness p)
        (rebootFilename p)
  | ThetaSub =>
      mkParams (learningIterations p) (trackAccuracyWhileFit p) (N p)
        (p_spec p) (discreteAttributeLimit p) (specifiedAttributes p) (nu p)
        (chi p) (upsilon p) (theta_GA p) (theta_del p) v (acc_sub p)
        (beta p) (delta p) (init_fit p) (fitnessReduction p)
        (doCorrectSetSubsumption p) (doGASubsumption p) (selectionMethod p)
        (theta_sel p) (randomSeed p) (matchForMissingness p)
        (rebootFilename p)
  end.

(** The parameters by documented kind. *)
Definition integer_params (p : Params) : list pyval :=
  [learningIterations p; N p; theta_del p; theta_sub p].
Definition nonnegative_params (p : Params) : list pyval :=
  [learningIterations p; N p; theta_GA p; theta_del p; theta_sub p].
Definition unit_params (p : Params) : list pyval :=
  [p_spec p; chi p; upsilon p; acc_sub p; theta_sel p].
Definition boolean_params (p : Params) : list pyval :=
  [doCorrectSetSubsumption p; doGASubsumption p; trackAccuracyWhileFit p;
   matchForMissingness p].

(** A value of Python's type int. *)
Definition python_int (v : pyval) : Prop := exists z, v = VInt z.

(** The state of the generators after a successful construction. *)
Definition seeded (v : pyval) (g : Rngs) : Rngs :=
  snd (seed_step v g).

(** *** Traces of the training loop *)

(** The attributes that [fit] creates before its loop exist. *)
Definition ready (s : State) : Prop :=
  population (fst s) <> None /\ timer (fst s) <> None /\ env (fst s) <> None.

(** [s'] is reached from [s] by calls that leave the parameters, the
    environment, the iteration counter, the trained flag and the files
    alone, and that add [tr] to the calls made. *)
Record extends (s : State) (tr : list event) (s' : State) : Prop := {
  ex_ready : ready s';
  ex_params : params (fst s') = params (fst s);
  ex_env : env (fst s') = env (fst s);
  ex_explorIter : explorIter (fst s') = explorIter (fst s);
  ex_hasTrained : hasTrained (fst s') = hasTrained (fst s);
  ex_files : files (snd s') = files (snd s);
  ex_log : log (snd s') = log (snd s) ++ tr
}.

(** An assignment to an attribute outside the frame of [extends]. *)
Definition harmless (f : Model -> Model) : Prop :=
  forall m, params (f m) = params m /\ env (f m) = env m
            /\ explorIter (f m) = explorIter m
            /\ hasTrained (f m) = hasTrained m
            /\ population (f m) = population m /\ timer (f m) = timer m.

(** [c] returns from [s], having made exactly the calls [tr]. *)
Definition yields {A} (c : Meth A) (s : State) (tr : list event)
  (Q : A -> Prop) : Prop :=
  exists a s', c s = Ok a s' /\ extends s tr s' /\ Q a.

(** The calls to the population's methods in a trace. *)
Fixpoint set_ops (tr : list event) : list set_op :=
  match tr with
  | [] => []
  | EvSet o :: rest => o :: set_ops rest
  | _ :: rest => set_ops rest
  end.

(** The iteration protocol, in the words of the specification. *)
Definition protocol (subsume : bool) (state_phenotype : Row * pyval)
  (it : pyval) : list set_op :=
  [MakeMatchSet state_phenotype it; MakeCorrectSet (snd state_phenotype);
   UpdateSets it]
  ++ (if subsume then [DoCorrectSetSubsumption] else [])
  ++ [RunGA it (fst state_phenotype) (snd state_phenotype); Deletion it;
      ClearSets].

(** Every call of one [runIteration], in order; [track] and [subsume] are
    the truth values of trackAccuracyWhileFit and doCorrectSetSubsumption. *)
Definition iteration_trace (track subsume : bool)
  (state_phenotype : Row * pyval) (it : pyval) : list event :=
  [EvResetAll; EvSet (MakeMatchSet state_phenotype it)]
  ++ (if track
      then [EvTimer StartTimeEvaluation; EvPrediction;
            EvTimer StopTimeEvaluation]
      else [])
  ++ [EvSet (MakeCorrectSet (snd state_phenotype)); EvSet (UpdateSets it)]
  ++ (if subsume
      then [EvTimer StartTimeSubsumption; EvSet DoCorrectSetSubsumption;
            EvTimer StopTimeSubsumption]
      else [])
  ++ [EvSet (RunGA it (fst state_phenotype) (snd state_phenotype));
      EvTimer StartTimeDeletion; EvSet (Deletion it);
      EvTimer StopTimeDeletion; EvGetInitStampAverage; EvSet ClearSets].

(** The accuracy tracked during training cannot raise: tracking is off, or
    the phenotype is discrete, or the estimate of the continuous branch is
    defined for whatever [Prediction] decides. *)
Definition tracking_safe (p : Params) : Prop :=
  py_truthy (trackAccuracyWhileFit p) = false
  \/ (forall ev, discretePhenotype (formatData ev) = true)
  \/ (forall ev e y, exists a,
        accuracyEstimate (formatData ev)
          (getDecision (fst (Prediction p (formatData ev) e))) y = Val a).

(** Every call of one pass of the training loop, at iteration [i] with the
    environment [ev]. *)
Definition body_trace (track subsume : bool) (freq : Z) (ev : Env) (i : Z)
  : list event :=
  [EvGetTrainInstance]
  ++ iteration_trace track subsume (getTrainInstance ev) (VInt i)
  ++ [EvTimer StartTimeEvaluation]
  ++ (if i mod freq =? freq - 1 then [EvGetAveGenerality] else [])
  ++ [EvTimer UpdateGlobalTime; EvAddToTracking; EvTimer StopTimeEvaluation;
      EvNewInstance].

(** The environment after [n] calls of [newInstance]. *)
Fixpoint advance (n : nat) (ev : Env) : Env :=
  match n with
  | O => ev
  | S n' => advance n' (newInstance ev)
  end.

(** The calls of [n] consecutive passes, starting at iteration [i]. *)
Fixpoint loop_trace (track subsume : bool) (freq : Z) (n : nat) (ev : Env)
  (i : Z) : list event :=
  match n with
  | O => []
  | S n' =>
      body_trace track subsume freq ev i
      ++ loop_trace track subsume freq n' (newInstance ev) (i + 1)
  end.

(** The number of instances fetched in a trace. *)
Definition fetches (tr : list event) : nat :=
  List.length (filter (fun e => match e with
                                | EvGetTrainInstance => true
                                | _ => false
                                end) tr).

Definition advances (tr : list event) : nat :=
  List.length (filter (fun e => match e with
                                | EvNewInstance => true
                                | _ => false
                                end) tr).

(** [min(numTrainInstances, int(n/20)+1)] for an int [n]. *)
Definition aveGeneralityFreq_of (fd : FormatData) (n : Z) : Z :=
  Z.min (numTrainInstances fd) (Qtrunc (inject_Z n / inject_Z 20) + 1).

(** *** Vocabulary of persistence *)

(** The sum of numerosity over a population. *)
Definition total_numerosity (l : list Classifier) : Z :=
  fold_right Z.add 0 (map numerosity l).

(** The population invariant: microPopSize = sum of numerosity over popSet. *)
Definition micro_invariant (cs : ClassifierSet) : Prop :=
  microPopSize cs = total_numerosity (popSet cs).

(** How [fit] gets its population: a fresh one, counted from iteration 0,
    or the one pickled in the file named by rebootFilename, counted from
    the iteration count [r] stored with it. *)
Inductive starts_from (p : Params) (w : World) : Z -> event -> Prop :=
| start_fresh :
    rebootFilename p = VNone -> starts_from p w 0 EvNewPopulation
| start_rebooted (f : string) (rawData : Snapshot) (r : Z) :
    rebootFilename p = VStr f -> files w f = Some rawData ->
    raw0 rawData = VInt r -> starts_from p w r EvReboot.

(** *** Vocabulary of inference *)

(** The part of the state that the collaborators' methods reach. *)
Definition engine_of (s : State) : option Engine :=
  match population (fst s), timer (fst s) with
  | Some pop, Some tm =>
      Some (mkEngine pop (trackingObj (fst s)) tm (clock (snd s))
              (rngs (snd s)))
  | _, _ => None
  end.

(** What inference does for one row, on the engine alone: the evaluation
    match set is built for this row, [read] takes its result from the
    prediction made of it, and the sets are cleared. *)
Definition infer_row {A} (read : PredictionObj -> A) (p : Params)
  (fd : FormatData) (row : Row) (e : Engine) : A * Engine :=
  let e1 := run_set_op p fd (MakeEvalMatchSet row) e in
  let (prediction, e2) := Prediction p fd e1 in
  (read prediction, run_set_op p fd ClearSets e2).

(** The rows one after the other. *)
Fixpoint infer_rows {A} (read : PredictionObj -> A) (p : Params)
  (fd : FormatData) (X : list Row) (e : Engine) : list A * Engine :=
  match X with
  | [] => ([], e)
  | row :: rest =>
      let (a, e') := infer_row read p fd row e in
      let (l, e'') := infer_rows read p fd rest e' in
      (a :: l, e'')
  end.

(** The calls of inference on one row. *)
Definition row_trace (row : Row) : list event :=
  [EvSet (MakeEvalMatchSet row); EvPrediction; EvSet ClearSets].

(** *** Vocabulary of determinism *)

(** What of the engine can influence the population: everything but the
    timer and the clock. *)
Definition core (e : Engine) : ClassifierSet * tempTrackingObj * Rngs :=
  (e_pop e, e_track e, e_rngs e).

(** The collaborators do not let the time they measure influence the
    population, the counters, the generators or a prediction. *)
Definition time_blind : Prop :=
  (forall p fd o e1 e2,
      core e1 = core e2 ->
      core (run_set_op p fd o e1) = core (run_set_op p fd o e2))
  /\ (forall p fd e1 e2,
        core e1 = core e2 ->
        fst (Prediction p fd e1) = fst (Prediction p fd e2)
        /\ core (snd (Prediction p fd e1)) = core (snd (Prediction p fd e2))).

(** Two states that differ at most in what depends on time: the timer, the
    clock, the times recorded row by row and in the final metrics, and in the
    calls logged before. *)
Record sim (s1 s2 : State) : Prop := {
  sim_params : params (fst s1) = params (fst s2);
  sim_trackingObj : trackingObj (fst s1) = trackingObj (fst s2);
  sim_hasTrained : hasTrained (fst s1) = hasTrained (fst s2);
  sim_env : env (fst s1) = env (fst s2);
  sim_explorIter : explorIter (fst s1) = explorIter (fst s2);
  sim_trackingAccuracy : trackingAccuracy (fst s1) = trackingAccuracy (fst s2);
  sim_movingAvgCount : movingAvgCount (fst s1) = movingAvgCount (fst s2);
  sim_population : population (fst s1) = population (fst s2);
  sim_timer : timer (fst s1) = None <-> timer (fst s2) = None;
  sim_rngs : rngs (snd s1) = rngs (snd s2);
  sim_files : forall f, files (snd s1) f = files (snd s2) f
}.

(** Two outcomes of the same kind, with results related by [R] and states
    related by [sim]. *)
Definition sim_outcome {A} (R : A -> A -> Prop) (o1 o2 : Outcome State A)
  : Prop :=
  match o1, o2 with
  | Ok a1 s1, Ok a2 s2 => R a1 a2 /\ sim s1 s2
  | Raise e1 s1, Raise e2 s2 => e1 = e2 /\ sim s1 s2
  | Loops, Loops => True
  | _, _ => False
  end.

(** Two methods that take related states to related outcomes. *)
Definition related {A} (R : A -> A -> Prop) (c1 c2 : Meth A) : Prop :=
  forall s1 s2, sim s1 s2 -> sim_outcome R (c1 s1) (c2 s2).

Definition any {A} (_ _ : A) : Prop := True.

(** *** Vocabulary of the further properties *)

(** A value that [checkIsInt] takes for an integer. *)
Definition whole_number (v : pyval) : Prop :=
  match v with
  | VInt z => Z.abs z < float_int_bound
  | VBool _ => True
  | VFloat (FFin q) => integral q
  | _ => False
  end.

(** A string that [float] converts. *)
Definition numeric_string (v : pyval) : Prop :=
  exists s f, v = VStr s /\ float_of_string s = Some f.

Definition set_p_spec (v : pyval) (p : Params) : Params :=
  mkParams (learningIterations p) (trackAccuracyWhileFit p) (N p) v
    (discreteAttributeLimit p) (specifiedAttributes p) (nu p) (chi p)
    (upsilon p) (theta_GA p) (theta_del p) (theta_sub p) (acc_sub p) (beta p)
    (delta p) (init_fit p) (fitnessReduction p) (doCorrectSetSubsumption p)
    (doGASubsumption p) (selectionMethod p) (theta_sel p) (randomSeed p)
    (matchForMissingness p) (rebootFilename p).

Definition set_nu (v : pyval) (p : Params) : Params :=
  mkParams (learningIterations p) (trackAccuracyWhileFit p) (N p) (p_spec p)
    (discreteAttributeLimit p) (specifiedAttributes p) v (chi p)
    (upsilon p) (theta_GA p) (theta_del p) (theta_sub p) (acc_sub p) (beta p)
    (delta p) (init_fit p) (fitnessReduction p) (doCorrectSetSubsumption p)
    (doGASubsumption p) (selectionMethod p) (theta_sel p) (randomSeed p)
    (matchForMissingness p) (rebootFilename p).

Definition set_randomSeed (v : pyval) (p : Params) : Params :=
  mkParams (learningIterations p) (trackAccuracyWhileFit p) (N p) (p_spec p)
    (discreteAttributeLimit p) (specifiedAttributes p) (nu p) (chi p)
    (upsilon p) (theta_GA p) (theta_del p) (theta_sub p) (acc_sub p) (beta p)
    (delta p) (init_fit p) (fitnessReduction p) (doCorrectSetSubsumption p)
    (doGASubsumption p) (selectionMethod p) (theta_sel p) v
    (matchForMissingness p) (rebootFilename p).

(** The name of the file that [pickleModel] writes. *)
Definition pickle_name (filename : option string) (w : World) : string :=
  match filename with
  | Some f => f
  | None => "pickled" ++ py_str_int (Qtrunc (fst (time_time (clock w))))
  end.

(** *** Vocabulary of what an execution leaves alone *)

(** [o] satisfies [Q] when it returns and [E] when it raises. *)
Definition outcome_sat {A} (o : Outcome State A) (Q : A -> State -> Prop)
  (E : State -> Prop) : Prop :=
  match o with
  | Ok a s' => Q a s'
  | Raise _ s' => E s'
  | Loops => True
  end.

(** However [c] ends, the state it ends in is related by [P] to the state
    it started from. *)
Definition keeps (P : State -> State -> Prop) {A} (c : Meth A) : Prop :=
  forall s, outcome_sat (c s) (fun _ s' => P s s') (P s).

Definition on_return {A} (o : Outcome State A) (Q : A -> State -> Prop)
  : Prop :=
  outcome_sat o Q (fun _ => True).

(** A relation between states that holds across everything the collaborators
    can do: logging a call, a method of the population or of a prediction, a
    method of the timer, and an update of the iteration counters. *)
Record Frame (P : State -> State -> Prop) : Prop := {
  fr_refl : forall s, P s s;
  fr_trans : forall s1 s2 s3, P s1 s2 -> P s2 s3 -> P s1 s3;
  fr_log : forall s l, P s (fst s, set_log l (snd s));
  fr_engine : forall s pop tk tm c g,
    P s (set_population (Some pop)
           (set_trackingObj tk (set_timer (Some tm) (fst s))),
         set_clock c (set_rngs g (snd s)));
  fr_timer : forall s tm c,
    P s (set_timer (Some tm) (fst s), set_clock c (snd s));
  fr_track : forall s t, P s (set_trackingObj t (fst s), snd s)
}.

(** The trained flag, the final metrics and the files are the same. *)
Record settled (s s' : State) : Prop := {
  st_hasTrained : hasTrained (fst s') = hasTrained (fst s);
  st_finalMetrics : finalMetrics (fst s') = finalMetrics (fst s);
  st_files : files (snd s') = files (snd s)
}.

(** Beside these, the parameters, the environment, the iteration counter,
    the tracking record and the size of the moving window are the same. *)
Record steady (s s' : State) : Prop := {
  sd_params : params (fst s') = params (fst s);
  sd_env : env (fst s') = env (fst s);
  sd_explorIter : explorIter (fst s') = explorIter (fst s);
  sd_record : record (fst s') = record (fst s);
  sd_movingAvgCount : movingAvgCount (fst s') = movingAvgCount (fst s);
  sd_settled : settled s s'
}.

Definition tracking_off (s : State) : Prop :=
  py_truthy (trackAccuracyWhileFit (params (fst s))) = false.

(** [steady], and with tracking off the moving window is the same too. *)
Definition calm (s s' : State) : Prop :=
  steady s s'
  /\ (tracking_off s -> trackingAccuracy (fst s') = trackingAccuracy (fst s)).

(** The iteration numbers [i], [i + 1], ... of [k] consecutive passes. *)
Fixpoint iteration_numbers (i : Z) (k : nat) : list pyval :=
  match k with
  | O => []
  | S k' => VInt i :: iteration_numbers (i + 1) k'
  end.

(** The state [s'] of a model that training has just finished from [s]: the
    trained flag is set, no file was written, and the final metrics are the
    snapshot of the model's own parameters, timer and population. *)
Definition trained_from (s s' : State) : Prop :=
  hasTrained (fst s') = true
  /\ files (snd s') = files (snd s)
  /\ exists pop tm,
       population (fst s') = Some pop /\ timer (fst s') = Some tm
       /\ finalMetrics (fst s')
          = Some (mkSnapshot (learningIterations (params (fst s')))
                    (globalTime tm) (globalMatching tm) (globalDeletion tm)
                    (globalSubsumption tm) (globalSelection tm)
                    (globalEvaluation tm) (popSet pop)).

(** The size of the moving window is the same, and a window that held at
    most that many values still does. *)
Definition windowed (s s' : State) : Prop :=
  movingAvgCount (fst s') = movingAvgCount (fst s)
  /\ (0 < movingAvgCount (fst s) ->
      py_len (trackingAccuracy (fst s)) <= movingAvgCount (fst s) ->
      py_len (trackingAccuracy (fst s')) <= movingAvgCount (fst s)).

(** [steady], and the moving window is the same as well: what is left to
    change is the population, the iteration counters, the timer, the clock,
    the generators and the calls made. *)
Definition still (s s' : State) : Prop :=
  steady s s' /\ trackingAccuracy (fst s') = trackingAccuracy (fst s).

(** The moving window [l] of at most [size] values after [x] has come in:
    the oldest value is dropped when the window is full. *)
Definition window (size : Z) (l : list pyfloat) (x : pyfloat)
  : list pyfloat :=
  (if py_len l =? size then tl l else l) ++ [x].

(** What one tracked iteration does to the state: [steady], and the moving
    window has taken one value in, which is 0 or 1 when the phenotype is
    discrete. *)
Definition tracked (s s' : State) : Prop :=
  steady s s'
  /\ exists x,
       trackingAccuracy (fst s')
       = window (movingAvgCount (fst s)) (trackingAccuracy (fst s)) x
       /\ (forall ev, env (fst s) = Some ev ->
             discretePhenotype (formatData ev) = true ->
             x = FFin 1 \/ x = FFin 0).

(** A tracked accuracy of the discrete branch, and a row of the record
    whose accuracy is a fraction between 0 and 1. *)
Definition bit (x : pyfloat) : Prop := x = FFin 1 \/ x = FFin 0.

Definition unit_row (r : TrackRow) : Prop :=
  exists q, tr_accuracy r = FFin q /\ (0 <= q <= 1)%Q.

(** A state of training on a discrete phenotype: the moving window holds
    zeros and ones, and every accuracy recorded so far is a fraction. *)
Definition discrete_run (s : State) : Prop :=
  (exists ev, env (fst s) = Some ev
              /\ discretePhenotype (formatData ev) = true)
  /\ Forall bit (trackingAccuracy (fst s))
  /\ Forall unit_row (record (fst s)).

Definition sound (s s' : State) : Prop := discrete_run s -> discrete_run s'.

(** Whenever [c] returns, the state it returns in is related by [P] to the
    state it started from. *)
Definition returns_with (P : State -> State -> Prop) {A} (c : Meth A)
  : Prop :=
  forall s, on_return (c s) (fun _ s' => P s s').

(** [c] ends, by returning or by raising, from every state. *)
Definition halts {A} (c : Meth A) : Prop := forall s, c s <> Loops.

(** A cell of [X] that the entry check accepts: an int that numpy can hold
    in 64 bits, a bool or a float (NaN and the infinities included). *)
Definition a_cell (v : pyval) : Prop :=
  match v with
  | VInt z => - 2 ^ 63 <= z < 2 ^ 64
  | VBool _ | VFloat _ => True
  | VStr _ | VNone => False
  end.

(** The integer a numeric class label stands for. *)
Definition label_key (v : pyval) : Z :=
  match v with
  | VInt z => z
  | VBool b => Z_of_bool b
  | VFloat (FFin q) => Qfloor q
  | _ => 0
  end.

(** *** Properties of the constructor *)

(** Forgets the collaborators that a statement does not mention, so that
    propositional automation cannot pick them up. *)
Ltac clear_ops :=
  try clear other_targets;
  try clear getAttributeAccuracyList; try clear getAttributeSpecificityList;
  try clear open_wb; try clear time_time;
  try clear timer_step; try clear new_Timer; try clear getAveGenerality;
  try clear getInitStampAverage; try clear Prediction; try clear run_set_op;
  try clear getTrainInstance; try clear newInstance; try clear formatData;
  try clear OfflineEnvironment; try clear np_random_seed;
  try clear random_seed; try clear int_of_string; try clear float_of_string.

Lemma Qltb_iff (a b : Q) : Qltb a b = true <-> (a < b)%Q.
Proof.
  unfold Qltb. rewrite negb_true_iff.
  split; intro H.
  - apply Qnot_le_lt. intro L. apply Qle_bool_iff in L. congruence.
  - destruct (Qle_bool b a) eqn:E; [|reflexivity].
    apply Qle_bool_iff in E. exfalso. exact (Qlt_not_le _ _ H E).
Qed.

Lemma py_lt_int_spec (v : pyval) (c : Z) (b : bool) :
  py_lt_int v c = Val b -> (b = true <-> value_lt v c).
Proof.
  clear_ops.
  destruct v as [z| [|] |[q| | |]|s|]; simpl; intro H; inversion H; subst;
    try (rewrite ?Z.ltb_lt; tauto);
    try (rewrite Qltb_iff; tauto);
    try (split; [discriminate | tauto]).
Qed.

Lemma py_gt_int_spec (v : pyval) (c : Z) (b : bool) :
  py_gt_int v c = Val b -> (b = true <-> value_gt v c).
Proof.
  clear_ops.
  destruct v as [z| [|] |[q| | |]|s|]; simpl; intro H; inversion H; subst;
    try (rewrite ?Z.ltb_lt; tauto);
    try (rewrite Qltb_iff; tauto);
    try (split; [discriminate | tauto]).
Qed.

Lemma checkIsInt_VInt (z : Z) :
  checkIsInt (VInt z) = (Z.abs z <? float_int_bound).
Proof.
  unfold Py.checkIsInt. simpl.
  destruct (Z.abs z <? float_int_bound); [|reflexivity].
  rewrite Z.sub_diag. reflexivity.
Qed.

Lemma checkIsInt_VBool (b : bool) : checkIsInt (VBool b) = true.
Proof. destruct b; reflexivity. Qed.

Lemma checkIsInt_VFloat (q : Q) :
  checkIsInt (VFloat (FFin q)) = true <-> integral q.
Proof.
  unfold Py.checkIsInt, integral. simpl.
  rewrite Qeq_bool_iff. split; intro H.
  - rewrite <- (Qplus_0_l (inject_Z (Qtrunc q))). rewrite <- H. ring.
  - rewrite H at 1. ring.
Qed.

Lemma checkIsInt_other (v : pyval) :
  checkIsInt v = true ->
  (exists z, v = VInt z) \/ (exists b, v = VBool b)
  \/ (exists q, v = VFloat (FFin q)).
Proof.
  clear_ops.
  destruct v as [z|b|[q| | |]|s|]; eauto; unfold Py.checkIsInt; simpl;
    try discriminate.
  destruct (float_of_string s); [|discriminate].
  destruct (int_of_string s); discriminate.
Qed.

Lemma seq_Val (r k : res unit) :
  (r ~;; k) = Val tt <-> r = Val tt /\ k = Val tt.
Proof.
  clear_ops.
  destruct r as [[]|e]; simpl; split; intros; intuition congruence.
Qed.

Lemma raise_if_Val (b : bool) (msg : string) :
  raise_if b msg = Val tt <-> b = false.
Proof. destruct b; simpl; split; congruence. Qed.

Lemma check_int_nonneg_inv (name : string) (v : pyval) :
  check_int_nonneg name v = Val tt -> checkIsInt v = true /\ ~ negative v.
Proof.
  unfold check_int_nonneg. rewrite seq_Val, raise_if_Val, negb_false_iff.
  intros [E H]. split; [exact E|].
  destruct (py_lt_int v 0) as [b|e] eqn:L; simpl in H; [|discriminate].
  apply raise_if_Val in H. subst b.
  intro Hn. apply (py_lt_int_spec _ _ _ L) in Hn. discriminate.
Qed.

Lemma check_int_nonneg_intro (name : string) (v : pyval) :
  nonneg_integer v -> check_int_nonneg name v = Val tt.
Proof.
  intro H. unfold check_int_nonneg. apply seq_Val. split.
  - apply raise_if_Val, negb_false_iff.
    destruct v as [z|b|[q| | |]|s|]; simpl in H; try contradiction.
    + rewrite checkIsInt_VInt. apply Z.ltb_lt. lia.
    + apply checkIsInt_VBool.
    + apply checkIsInt_VFloat, H.
  - destruct v as [z|b|[q| | |]|s|]; simpl in *; try contradiction.
    + replace (z <? 0) with false by (symmetry; apply Z.ltb_ge; lia).
      reflexivity.
    + destruct b; reflexivity.
    + destruct H as [_ H].
      destruct (Qltb q (inject_Z 0)) eqn:E; [|reflexivity].
      apply Qltb_iff in E. exfalso. exact (Qlt_not_le _ _ E H).
Qed.

Lemma check_unit_interval_inv (name : string) (v : pyval) :
  check_unit_interval name v = Val tt -> ~ outside_unit v.
Proof.
  unfold check_unit_interval. rewrite seq_Val. intros [_ H].
  destruct (py_lt_int v 0) as [lo|e] eqn:L; simpl in H; [|discriminate].
  pose proof (py_lt_int_spec _ _ _ L) as HL.
  destruct lo; simpl in H; [discriminate|].
  destruct (py_gt_int v 1) as [hi|e] eqn:G; simpl in H; [|discriminate].
  pose proof (py_gt_int_spec _ _ _ G) as HG.
  apply raise_if_Val in H. subst hi.
  intros [Hn|Hn]; [apply HL in Hn | apply HG in Hn]; discriminate.
Qed.

Lemma check_unit_interval_intro (name : string) (v : pyval) :
  in_unit v -> check_unit_interval name v = Val tt.
Proof.
  intro H. unfold check_unit_interval, Py.checkIsFloat.
  destruct v as [z|b|[q| | |]|s|]; simpl in H; try contradiction; simpl.
  - replace (Z.abs z <? float_int_bound) with true
      by (symmetry; apply Z.ltb_lt; unfold float_int_bound; simpl; lia).
    simpl.
    replace (z <? 0) with false by (symmetry; apply Z.ltb_ge; lia).
    replace (1 <? z) with false by (symmetry; apply Z.ltb_ge; lia).
    reflexivity.
  - destruct b; reflexivity.
  - destruct H as [H0 H1].
    destruct (Qltb q (inject_Z 0)) eqn:E0.
    { apply Qltb_iff in E0. exfalso. exact (Qlt_not_le _ _ E0 H0). }
    destruct (Qltb (inject_Z 1) q) eqn:E1.
    { apply Qltb_iff in E1. exfalso. exact (Qlt_not_le _ _ E1 H1). }
    reflexivity.
Qed.

Lemma check_float_nonneg_inv (name : string) (v : pyval) :
  check_float_nonneg name v = Val tt -> ~ negative v.
Proof.
  unfold check_float_nonneg. rewrite seq_Val. intros [_ H].
  destruct (py_lt_int v 0) as [b|e] eqn:L; simpl in H; [|discriminate].
  apply raise_if_Val in H. subst b.
  intro Hn. apply (py_lt_int_spec _ _ _ L) in Hn. discriminate.
Qed.

Lemma check_float_intro (name : string) (v : pyval) :
  a_number v -> check_float name v = Val tt.
Proof.
  intro H. unfold check_float, Py.checkIsFloat.
  destruct v as [z|b|f|s|]; simpl in H; try contradiction; simpl;
    try reflexivity.
  apply Z.ltb_lt in H. rewrite H. reflexivity.
Qed.

Lemma check_float_nonneg_intro (name : string) (v : pyval) :
  nonneg_number v -> check_float_nonneg name v = Val tt.
Proof.
  intro H. unfold check_float_nonneg, Py.checkIsFloat.
  destruct v as [z|b|[q| | |]|s|]; simpl in H; try contradiction; simpl;
    try reflexivity.
  - replace (Z.abs z <? float_int_bound) with true
      by (symmetry; apply Z.ltb_lt; lia).
    simpl.
    replace (z <? 0) with false by (symmetry; apply Z.ltb_ge; lia).
    reflexivity.
  - destruct b; reflexivity.
  - destruct (Qltb q (inject_Z 0)) eqn:E; [|reflexivity].
    apply Qltb_iff in E. exfalso. exact (Qlt_not_le _ _ E H).
Qed.

Lemma check_bool_iff (name : string) (v : pyval) :
  check_bool name v = Val tt <-> isinstance_bool v = true.
Proof.
  clear_ops.
  unfold check_bool. rewrite raise_if_Val, negb_false_iff. tauto.
Qed.

Lemma a_bool_isinstance (v : pyval) :
  a_bool v <-> isinstance_bool v = true.
Proof.
  split.
  - intros [b ->]. reflexivity.
  - destruct v; simpl; try discriminate. intros _. eexists; reflexivity.
Qed.

Lemma nonneg_integer_checkIsInt (v : pyval) :
  nonneg_integer v -> checkIsInt v = true.
Proof.
  intro H. destruct v as [z|b|[q| | |]|s|]; simpl in H; try contradiction.
  - rewrite checkIsInt_VInt. apply Z.ltb_lt. lia.
  - apply checkIsInt_VBool.
  - apply checkIsInt_VFloat, H.
Qed.

Lemma Qtrunc_nonneg (q : Q) : (0 <= q)%Q -> 0 <= Qtrunc q.
Proof.
  intro H. unfold Qtrunc. apply Z.quot_pos; [|lia].
  unfold Qle in H. simpl in H. lia.
Qed.

Lemma nonneg_integer_py_int (v : pyval) :
  nonneg_integer v -> exists i, py_int v = Val i /\ 0 <= i.
Proof.
  intro H. destruct v as [z|b|[q| | |]|s|]; simpl in H; try contradiction;
    simpl.
  - exists z. split; [reflexivity | lia].
  - exists (Z_of_bool b). split; [reflexivity | destruct b; simpl; lia].
  - exists (Qtrunc q). split; [reflexivity | apply Qtrunc_nonneg, H].
Qed.

Lemma check_discreteAttributeLimit_intro (v : pyval) :
  v = VStr "c" \/ v = VStr "d" \/ nonneg_integer v ->
  check_discreteAttributeLimit v = Val tt.
Proof.
  intros [->|[->|H]]; try reflexivity.
  unfold check_discreteAttributeLimit.
  destruct (py_ne_str v "c" && py_ne_str v "d"); [|reflexivity].
  destruct (nonneg_integer_py_int v H) as (i & -> & Hi). simpl.
  rewrite (nonneg_integer_checkIsInt v H). simpl.
  replace (i <? 0) with false by (symmetry; apply Z.ltb_ge; lia).
  reflexivity.
Qed.

Lemma check_spAttrs_intro (l : list pyval) :
  Forall nonneg_integer l -> check_spAttrs l = Val tt.
Proof.
  induction 1 as [|v l H _ IH]; simpl; [reflexivity|].
  rewrite (nonneg_integer_checkIsInt v H). simpl.
  destruct (nonneg_integer_py_int v H) as (i & -> & Hi). simpl.
  replace (i <? 0) with false by (symmetry; apply Z.ltb_ge; lia).
  exact IH.
Qed.

Lemma py_ne_str_false (v : pyval) (s : string) :
  py_ne_str v s = false <-> v = VStr s.
Proof.
  destruct v; simpl; try (split; [discriminate | intro H; inversion H]).
  - rewrite negb_false_iff, String.eqb_eq.
    split; [intros ->; reflexivity | intro H; inversion H; reflexivity].
Qed.

Lemma check_selectionMethod_iff (v : pyval) :
  check_selectionMethod v = Val tt <->
  v = VStr "tournament" \/ v = VStr "roulette".
Proof.
  clear_ops.
  unfold check_selectionMethod.
  rewrite raise_if_Val, andb_false_iff, !py_ne_str_false. tauto.
Qed.

Lemma check_rebootFilename_intro (v : pyval) :
  v = VNone \/ (exists f, v = VStr f) -> check_rebootFilename v = Val tt.
Proof. intros [->|[f ->]]; reflexivity. Qed.

(** Every outcome of the constructor, in terms of its three stages. *)
Lemma init_returns (p : Params) (w : World) :
  returns (init p w) <->
  checks_before_seed p = Val tt
  /\ fst (seed_step (randomSeed p) (rngs w)) = Val tt
  /\ checks_after_seed p = Val tt.
Proof.
  clear_ops.
  unfold init.
  destruct (checks_before_seed p) as [[]|e]; simpl.
  2: split; [contradiction | intros [H _]; discriminate].
  destruct (seed_step (randomSeed p) (rngs w)) as [[[]|e] g]; simpl.
  2: split; [contradiction | intros (_ & H & _); discriminate].
  destruct (checks_after_seed p) as [[]|e]; simpl.
  - tauto.
  - split; [contradiction | intros (_ & _ & H); discriminate].
Qed.

Lemma init_raises_or_returns (p : Params) (w : World) :
  raises (init p w) \/ returns (init p w).
Proof.
  clear_ops.
  unfold init.
  destruct (checks_before_seed p) as [[]|e]; simpl; auto.
  destruct (seed_step (randomSeed p) (rngs w)) as [[[]|e] g]; simpl; auto.
  destruct (checks_after_seed p) as [[]|e]; simpl; auto.
Qed.

Lemma not_returns_raises (p : Params) (w : World) :
  ~ returns (init p w) -> raises (init p w).
Proof. clear_ops. destruct (init_raises_or_returns p w); tauto. Qed.

Lemma checks_before_seed_Val (p : Params) :
  checks_before_seed p = Val tt <->
  (check_int_nonneg "learningIterations" (learningIterations p) = Val tt
   /\ check_bool "trackAccuracyWhileFit" (trackAccuracyWhileFit p) = Val tt
   /\ check_int_nonneg "N" (N p) = Val tt
   /\ check_unit_interval "p_spec" (p_spec p) = Val tt
   /\ check_discreteAttributeLimit (discreteAttributeLimit p) = Val tt
   /\ check_specifiedAttributes (specifiedAttributes p) = Val tt
   /\ check_float "nu" (nu p) = Val tt
   /\ check_unit_interval "chi" (chi p) = Val tt
   /\ check_unit_interval "upsilon" (upsilon p) = Val tt
   /\ check_float_nonneg "theta_GA" (theta_GA p) = Val tt
   /\ check_int_nonneg "theta_del" (theta_del p) = Val tt
   /\ check_int_nonneg "theta_sub" (theta_sub p) = Val tt
   /\ check_unit_interval "acc_sub" (acc_sub p) = Val tt
   /\ check_float "beta" (beta p) = Val tt
   /\ check_float "delta" (delta p) = Val tt
   /\ check_float "init_fit" (init_fit p) = Val tt
   /\ check_float "fitnessReduction" (fitnessReduction p) = Val tt
   /\ check_bool "doCorrectSetSubsumption" (doCorrectSetSubsumption p) = Val tt
   /\ check_bool "doGASubsumption" (doGASubsumption p) = Val tt
   /\ check_selectionMethod (selectionMethod p) = Val tt
   /\ check_unit_interval "theta_sel" (theta_sel p) = Val tt).
Proof.
  clear_ops.
  unfold checks_before_seed. rewrite !seq_Val. tauto.
Qed.

Lemma checks_after_seed_Val (p : Params) :
  checks_after_seed p = Val tt <->
  (check_bool "matchForMissingness" (matchForMissingness p) = Val tt
   /\ check_rebootFilename (rebootFilename p) = Val tt).
Proof. unfold checks_after_seed. apply seq_Val. Qed.

Lemma seed_step_intro (v : pyval) (g : Rngs) :
  v = VStr "none" \/ (exists z, v = VInt z /\ 0 <= z < 2 ^ 32) ->
  fst (seed_step v g) = Val tt.
Proof.
  intros [->|(z & -> & Hz)]; [reflexivity|].
  unfold seed_step. simpl py_ne_str. cbv iota.
  rewrite checkIsInt_VInt.
  replace (Z.abs z <? float_int_bound) with true
    by (symmetry; apply Z.ltb_lt; unfold float_int_bound; simpl in *; lia).
  simpl py_int. cbv iota. unfold np_seed_ok.
  replace (0 <=? z) with true by (symmetry; apply Z.leb_le; lia).
  replace (z <? 2 ^ 32) with true by (symmetry; apply Z.ltb_lt; lia).
  reflexivity.
Qed.

Lemma in_range_returns (p : Params) (w : World) :
  in_range p ->
  init p w =
    Ok (mkModel p new_tempTrackingObj [] false None None [] 0 None None None)
       (set_rngs (seeded (randomSeed p) (rngs w)) w).
Proof.
  clear_ops.
  intros [].
  assert (B : checks_before_seed p = Val tt).
  { apply checks_before_seed_Val.
    repeat split;
      auto using check_int_nonneg_intro, check_unit_interval_intro,
        check_float_intro, check_float_nonneg_intro,
        check_discreteAttributeLimit_intro;
      try (apply check_bool_iff, a_bool_isinstance; assumption);
      try (apply check_selectionMethod_iff; assumption).
    destruct ir_specifiedAttributes0 as (l & -> & Hl).
    apply check_spAttrs_intro, Hl. }
  assert (A : checks_after_seed p = Val tt).
  { apply checks_after_seed_Val. split.
    - apply check_bool_iff, a_bool_isinstance; assumption.
    - apply check_rebootFilename_intro; assumption. }
  pose proof (seed_step_intro (randomSeed p) (rngs w) ir_randomSeed0) as S.
  unfold init, seeded. rewrite B.
  destruct (seed_step (randomSeed p) (rngs w)) as [r g]. simpl in S. subst r.
  simpl. rewrite A. reflexivity.
Qed.


(** C10.  The integer-kind check looks at the value only: a float [q] with
    zero fractional part and [q >= 0] passes [checkIsInt], and a
    configuration that the constructor accepts is still accepted when
    learningIterations, N, theta_del or theta_sub is replaced by that
    float. *)
Theorem integral_float_accepted (k : int_param) (q : Q) (p : Params)
  (w : World) :
  integral q -> (0 <= q)%Q -> returns (init p w) ->
  checkIsInt (VFloat (FFin q)) = true
  /\ returns (init (with_int_param k (VFloat (FFin q)) p) w).
Proof.
  clear_ops.
  intros Hi Hq R. split; [apply checkIsInt_VFloat, Hi|].
  assert (C : forall name, check_int_nonneg name (VFloat (FFin q)) = Val tt).
  { intro name. apply check_int_nonneg_intro. simpl. split; assumption. }
  apply init_returns in R. destruct R as (B & S & A).
  apply checks_before_seed_Val in B. apply checks_after_seed_Val in A.
  apply init_returns.
  rewrite checks_before_seed_Val, checks_after_seed_Val.
  destruct k; simpl; intuition.
Qed.

(** *** Properties of the training loop *)

Lemma extends_refl (s : State) : ready s -> extends s [] s.
Proof. clear_ops. intro H. constructor; auto. rewrite app_nil_r. reflexivity. Qed.

Lemma extends_trans (s s' s'' : State) (t1 t2 : list event) :
  extends s t1 s' -> extends s' t2 s'' -> extends s (t1 ++ t2) s''.
Proof.
  intros [] []. constructor; try congruence.
  rewrite app_assoc. congruence.
Qed.

Lemma yields_ret {A} (a : A) (s : State) (Q : A -> Prop) :
  ready s -> Q a -> yields (ret a) s [] Q.
Proof. clear_ops. intros R HQ. exists a, s. auto using extends_refl. Qed.

Lemma yields_bind {A B} (c : Meth A) (k : A -> Meth B) (s : State)
  (t1 t2 : list event) (Q1 : A -> Prop) (Q2 : B -> Prop) :
  yields c s t1 Q1 ->
  (forall a s', extends s t1 s' -> Q1 a -> yields (k a) s' t2 Q2) ->
  yields (bind c k) s (t1 ++ t2) Q2.
Proof.
  clear_ops.
  intros (a & s' & E & X & HQ) K.
  destruct (K a s' X HQ) as (b & s'' & E' & X' & HQ').
  exists b, s''. unfold bind. rewrite E.
  eauto using extends_trans.
Qed.

Lemma yields_weaken {A} (c : Meth A) (s : State) (tr : list event)
  (Q Q' : A -> Prop) :
  yields c s tr Q -> (forall a, Q a -> Q' a) -> yields c s tr Q'.
Proof. clear_ops. intros (a & s' & E & X & HQ) W. exists a, s'. auto. Qed.

Lemma yields_trace {A} (c : Meth A) (s : State) (tr tr' : list event)
  (Q : A -> Prop) :
  yields c s tr Q -> tr = tr' -> yields c s tr' Q.
Proof. intros H <-. exact H. Qed.

Lemma yields_get_state (s : State) :
  ready s -> yields get_state s [] (fun a => a = s).
Proof. clear_ops. intro R. exists s, s. auto using extends_refl. Qed.

Lemma yields_log_event (e : event) (s : State) :
  ready s -> yields (log_event e) s [e] (fun _ => True).
Proof.
  clear_ops.
  intro R. destruct s as [m w].
  eexists tt, _. split; [reflexivity|]. split; [|exact I].
  constructor; simpl; auto.
Qed.

Lemma yields_attr {A} (f : Model -> option A) (s : State) (a : A) :
  ready s -> f (fst s) = Some a -> yields (attr f) s [] (fun x => x = a).
Proof.
  clear_ops.
  intros R E. exists a, s. cbv [attr bind get_state get ret].
  rewrite E. auto using extends_refl.
Qed.

Lemma ready_population (s : State) :
  ready s -> exists pop, population (fst s) = Some pop.
Proof. clear_ops. intros (H & _). destruct (population (fst s)); [eauto | tauto]. Qed.

Lemma ready_timer (s : State) :
  ready s -> exists tm, timer (fst s) = Some tm.
Proof. clear_ops. intros (_ & H & _). destruct (timer (fst s)); [eauto | tauto]. Qed.

Lemma ready_env (s : State) :
  ready s -> exists ev, env (fst s) = Some ev.
Proof. clear_ops. intros (_ & _ & H). destruct (env (fst s)); [eauto | tauto]. Qed.

Lemma yields_with_engine {A} (f : Engine -> A * Engine) (s : State) :
  ready s -> yields (with_engine f) s [] (fun a => exists e, a = fst (f e)).
Proof.
  intro R.
  destruct (ready_population s R) as [pop Hp].
  destruct (ready_timer s R) as [tm Ht].
  destruct R as (_ & _ & He).
  destruct s as [m w]. simpl in *.
  unfold yields. cbv [with_engine bind attr get_state get modify ret].
  simpl. rewrite Hp. cbv beta iota. simpl. rewrite Ht. cbv beta iota.
  destruct (f (mkEngine pop (trackingObj m) tm (clock w) (rngs w)))
    as [a e] eqn:F.
  eexists a, _. split; [reflexivity|].
  split; [|eexists; rewrite F; reflexivity].
  constructor; simpl; try reflexivity.
  - repeat split; simpl; congruence.
  - rewrite app_nil_r. reflexivity.
Qed.

(** Chains one call after another; the next state is ready again. *)
Ltac ystep L :=
  eapply yields_bind;
  [ apply L; try assumption
  | let a := fresh "a" in
    let s' := fresh "s" in
    let X := fresh "X" in
    let HQ := fresh "HQ" in
    intros a s' X HQ; cbv beta in HQ; pose proof (ex_ready _ _ _ X) ].

(** Reads the state; the value read is the current state. *)
Ltac ystate :=
  ystep yields_get_state;
  match goal with
  | H : ?a = _ |- _ => is_var a; subst a
  end.

(** Brings the parameters read in a later state back to the first one. *)
Ltac back_params :=
  repeat match goal with
         | X : extends _ _ ?b |- context [params (fst ?b)] =>
             rewrite (ex_params _ _ _ X)
         end.

Lemma yields_get_formatData (s : State) :
  ready s ->
  yields get_formatData s []
    (fun fd => exists ev, env (fst s) = Some ev /\ fd = formatData ev).
Proof.
  intro R. destruct (ready_env s R) as [ev He].
  unfold get_formatData.
  eapply yields_trace.
  - ystep (yields_attr env s ev).
    apply yields_ret; [assumption|].
    exists ev. split; [assumption | congruence].
  - reflexivity.
Qed.

Lemma yields_call_set_op (o : set_op) (s : State) :
  ready s -> yields (call_set_op o) s [EvSet o] (fun _ => True).
Proof.
  clear_ops.
  intro R. destruct (ready_population s R) as [pop Hp].
  unfold call_set_op.
  eapply yields_trace.
  - ystep (yields_attr population s pop).
    ystep yields_log_event.
    ystep yields_get_formatData.
    ystep yields_get_state.
    eapply yields_weaken; [apply yields_with_engine; assumption | auto].
  - reflexivity.
Qed.

Lemma yields_call_Prediction (s : State) :
  ready s ->
  yields call_Prediction s [EvPrediction]
    (fun pr => exists ev e,
       env (fst s) = Some ev
       /\ pr = fst (Prediction (params (fst s)) (formatData ev) e)).
Proof.
  clear_ops.
  intro R. destruct (ready_population s R) as [pop Hp].
  unfold call_Prediction.
  eapply yields_trace.
  - ystep (yields_attr population s pop).
    ystep yields_log_event.
    ystep yields_get_formatData.
    destruct HQ1 as (ev & He & ->).
    ystate.
    eapply yields_weaken; [apply yields_with_engine; assumption|].
    cbv beta. intros pr [e ->]. exists ev, e.
    rewrite (ex_env _ _ _ X0), (ex_env _ _ _ X) in He.
    back_params. auto.
  - reflexivity.
Qed.

Lemma yields_call_timer (o : timer_op) (s : State) :
  ready s -> yields (call_timer o) s [EvTimer o] (fun _ => True).
Proof.
  intro R. destruct (ready_timer s R) as [tm Ht].
  destruct R as (Hp & _ & He). destruct s as [m w]. simpl in *.
  unfold yields.
  cbv [call_timer bind attr get_state get modify ret log_event].
  simpl. rewrite Ht. cbv beta iota. simpl.
  destruct (timer_step o tm (clock w)) as [tm' c'].
  eexists tt, _. split; [reflexivity|]. split; [|exact I].
  constructor; simpl; try reflexivity.
  repeat split; simpl; congruence.
Qed.

Lemma yields_modify_model (f : Model -> Model) (s : State) :
  ready s -> harmless f -> yields (modify_model f) s [] (fun _ => True).
Proof.
  intros (Hp & Ht & He) Hf. destruct s as [m w]. simpl in *.
  destruct (Hf m) as (F1 & F2 & F3 & F4 & F5 & F6).
  eexists tt, _. split; [reflexivity|]. split; [|exact I].
  constructor; simpl; try assumption; try reflexivity.
  - repeat split; simpl; congruence.
  - rewrite app_nil_r. reflexivity.
Qed.

Lemma harmless_set_trackingObj (g : Model -> tempTrackingObj) :
  harmless (fun m => set_trackingObj (g m) m).
Proof. intro m. repeat split. Qed.

Lemma harmless_set_trackingAccuracy (g : Model -> list pyfloat) :
  harmless (fun m => set_trackingAccuracy (g m) m).
Proof. intro m. repeat split. Qed.

Lemma harmless_set_record (g : Model -> list TrackRow) :
  harmless (fun m => set_record (g m) m).
Proof. intro m. repeat split. Qed.

Lemma yields_push_tracking (x : pyfloat) (s : State) :
  ready s -> yields (push_tracking x) s [] (fun _ => True).
Proof.
  intro R. apply yields_modify_model; [assumption|].
  apply harmless_set_trackingAccuracy.
Qed.

Lemma yields_track_accuracy (sp : Row * pyval) (s : State) :
  ready s ->
  (forall ev, discretePhenotype (formatData ev) = true)
  \/ (forall ev e y, exists a,
        accuracyEstimate (formatData ev)
          (getDecision (fst (Prediction (params (fst s)) (formatData ev) e)))
          y = Val a) ->
  yields (track_accuracy sp) s
    [EvTimer StartTimeEvaluation; EvPrediction; EvTimer StopTimeEvaluation]
    (fun _ => True).
Proof.
  intros R D. unfold track_accuracy.
  eapply yields_trace.
  - ystep yields_call_timer.
    ystep yields_call_Prediction.
    destruct HQ0 as (ev0 & e & He0 & ->).
    ystep yields_get_formatData.
    destruct HQ0 as (ev & He & ->).
    rewrite (ex_env _ _ _ X0), He0 in He. inversion He; subst ev0.
    eapply yields_bind with (t1 := []) (Q1 := fun _ => True).
    + destruct (discretePhenotype (formatData ev)) eqn:Dp.
      * destruct (py_eqb _ _); apply yields_push_tracking; assumption.
      * destruct D as [D|D]; [rewrite D in Dp; discriminate|].
        rewrite (ex_params _ _ _ X).
        destruct (D ev e (snd sp)) as [est Ha]. rewrite Ha.
        change (yields (push_tracking est) s2 [] (fun _ => True)).
        apply yields_push_tracking; assumption.
    + intros ? ? X2 _. apply yields_call_timer. exact (ex_ready _ _ _ X2).
  - reflexivity.
Qed.

Lemma yields_snapshot_counters (s : State) :
  ready s -> yields snapshot_counters s [EvGetInitStampAverage] (fun _ => True).
Proof.
  intro R. destruct (ready_population s R) as [pop Hp].
  unfold snapshot_counters.
  eapply yields_trace.
  - ystep (yields_attr population s pop).
    ystep yields_log_event.
    apply yields_modify_model; [assumption|].
    apply harmless_set_trackingObj.
  - reflexivity.
Qed.

Lemma yields_runIteration (sp : Row * pyval) (it : pyval) (s : State) :
  ready s -> tracking_safe (params (fst s)) ->
  yields (runIteration sp it) s
    (iteration_trace (py_truthy (trackAccuracyWhileFit (params (fst s))))
       (py_truthy (doCorrectSetSubsumption (params (fst s)))) sp it)
    (fun _ => True).
Proof.
  clear_ops.
  intros R T. unfold runIteration.
  eapply yields_trace.
  - ystep yields_log_event.
    ystep yields_modify_model; [apply harmless_set_trackingObj|].
    ystep yields_call_set_op.
    ystate.
    eapply yields_bind
      with (t1 := if py_truthy (trackAccuracyWhileFit (params (fst s)))
                  then [EvTimer StartTimeEvaluation; EvPrediction;
                        EvTimer StopTimeEvaluation]
                  else []) (Q1 := fun _ => True).
    { back_params.
      destruct T as [T|T].
      - rewrite T. apply yields_ret; auto.
      - destruct (py_truthy (trackAccuracyWhileFit (params (fst s)))).
        + apply yields_track_accuracy; [assumption|].
          back_params. exact T.
        + apply yields_ret; auto. }
    intros ? s4 X4 _. pose proof (ex_ready _ _ _ X4) as R4.
    ystep yields_call_set_op.
    ystep yields_call_set_op.
    ystate.
    eapply yields_bind
      with (t1 := if py_truthy (doCorrectSetSubsumption (params (fst s)))
                  then [EvTimer StartTimeSubsumption;
                        EvSet DoCorrectSetSubsumption;
                        EvTimer StopTimeSubsumption]
                  else []) (Q1 := fun _ => True).
    { back_params.
      destruct (py_truthy (doCorrectSetSubsumption (params (fst s)))).
      - eapply yields_trace.
        + ystep yields_call_timer.
          ystep yields_call_set_op.
          apply yields_call_timer. assumption.
        + reflexivity.
      - apply yields_ret; auto. }
    intros ? s8 X8 _. pose proof (ex_ready _ _ _ X8) as R8.
    ystep yields_call_set_op.
    ystep yields_call_timer.
    ystep yields_call_set_op.
    ystep yields_call_timer.
    ystep yields_snapshot_counters.
    apply yields_call_set_op. assumption.
  - unfold iteration_trace.
    destruct (py_truthy (trackAccuracyWhileFit _));
      destruct (py_truthy (doCorrectSetSubsumption _)); reflexivity.
Qed.

Lemma set_ops_iteration_trace (track subsume : bool) (sp : Row * pyval)
  (it : pyval) :
  set_ops (iteration_trace track subsume sp it) = protocol subsume sp it.
Proof. destruct track, subsume; reflexivity. Qed.


(** A call that [yields], followed by any continuation; the frame reached
    so far from [s0] is carried along. *)
Lemma yields_then {A B} (c : Meth A) (k : A -> Meth B) (s0 s : State)
  (t0 t1 : list event) (Q1 : A -> Prop) (P : Outcome State B -> Prop) :
  extends s0 t0 s ->
  yields c s t1 Q1 ->
  (forall a s', extends s0 (t0 ++ t1) s' -> Q1 a -> P (k a s')) ->
  P (bind c k s).
Proof.
  intros X0 (a & s' & E & X & HQ) K. unfold bind. rewrite E.
  apply K; [|exact HQ]. exact (extends_trans _ _ _ _ _ X0 X).
Qed.

Ltac ythen L :=
  eapply yields_then;
  [ eassumption
  | apply L; try (eapply ex_ready; eassumption)
  | let a := fresh "a" in
    let s' := fresh "s" in
    let X := fresh "X" in
    let HQ := fresh "HQ" in
    intros a s' X HQ; cbv beta in HQ;
    match goal with
    | X0 : extends _ _ _ |- _ => tryif constr_eq X0 X then fail else clear X0
    end ].

Lemma mean_trackingAccuracy_Val (l : list pyfloat) :
  exists a, mean_trackingAccuracy l = Val a.
Proof.
  clear_ops.
  unfold mean_trackingAccuracy.
  destruct (py_len l =? 0) eqn:E; simpl; [eauto|].
  unfold fdiv.
  assert (Z0 : Qeq_bool (inject_Z (py_len l)) 0 = false).
  { apply Z.eqb_neq in E. unfold Qeq_bool. simpl.
    apply Z.eqb_neq. lia. }
  rewrite Z0. destruct (fsum l); eauto.
Qed.

(** Solves a side condition on an attribute preserved by [extends]. *)
Ltac framed :=
  match goal with
  | X : extends _ _ _ |- env _ = _ => rewrite (ex_env _ _ _ X); assumption
  | X : extends _ _ _ |- explorIter _ = _ =>
      rewrite (ex_explorIter _ _ _ X); assumption
  end.

Lemma yields_attr_at {A} (f : Model -> option A) (a : A) (s : State) :
  ready s -> f (fst s) = Some a -> yields (attr f) s [] (fun x => x = a).
Proof. apply yields_attr. Qed.

(** Reads an attribute whose value is known. *)
Ltac yattr f v :=
  ythen (yields_attr_at f v);
  [ first [assumption | framed]
  | match goal with
    | H : ?a = v |- _ => is_var a; subst a
    end ].

Lemma bind_lift_Val {A B} (a : A) (k : A -> Meth B) (s : State) :
  bind (lift (Val a)) k s = k a s.
Proof. reflexivity. Qed.

Lemma py_mod_int_VInt (i m : Z) :
  m <> 0 -> py_mod_int (VInt i) m = Val (VInt (i mod m)).
Proof.
  intro H. unfold py_mod_int. simpl.
  apply Z.eqb_neq in H. rewrite H. reflexivity.
Qed.

Lemma yields_getAveGenerality (b : bool) (ag : pyfloat) (s : State) :
  ready s ->
  yields
    (if b
     then pop <- attr population ;;
          log_event EvGetAveGenerality ;;;
          fd <- get_formatData ;;
          s <- get_state ;;
          ret (getAveGenerality (params (fst s)) fd pop)
     else ret ag) s
    (if b then [EvGetAveGenerality] else []) (fun _ => True).
Proof.
  clear_ops.
  intro R. destruct b; [|apply yields_ret; auto].
  destruct (ready_population s R) as [pop Hp].
  eapply yields_trace.
  - ystep (yields_attr population s pop).
    ystep yields_log_event.
    ystep yields_get_formatData.
    ystate.
    apply yields_ret; auto.
  - reflexivity.
Qed.

Lemma fit_body_run (freq : Z) (ag : pyfloat) (s : State) (ev : Env) (i : Z) :
  ready s -> env (fst s) = Some ev -> explorIter (fst s) = Some (VInt i) ->
  tracking_safe (params (fst s)) -> freq <> 0 ->
  exists ag' s',
    fit_body freq ag s = Ok ag' s'
    /\ ready s'
    /\ params (fst s') = params (fst s)
    /\ hasTrained (fst s') = hasTrained (fst s)
    /\ files (snd s') = files (snd s)
    /\ env (fst s') = Some (newInstance ev)
    /\ explorIter (fst s') = Some (VInt (i + 1))
    /\ log (snd s') =
         log (snd s)
         ++ body_trace (py_truthy (trackAccuracyWhileFit (params (fst s))))
              (py_truthy (doCorrectSetSubsumption (params (fst s))))
              freq ev i.
Proof.
  intros R He Hi T Hf.
  pose proof (extends_refl s R) as X.
  unfold fit_body.
  yattr (@env Env) ev.
  ythen yields_log_event.
  yattr (@explorIter Env) (VInt i).
  match goal with
  | X : extends _ _ _ |- _ => pose proof (ex_params _ _ _ X) as Hp
  end.
  ythen yields_runIteration; [rewrite Hp; exact T|].
  rewrite Hp in *. clear Hp.
  ythen yields_call_timer.
  yattr (@explorIter Env) (VInt i).
  rewrite (py_mod_int_VInt i freq Hf), bind_lift_Val.
  simpl py_eqb.
  ythen yields_getAveGenerality.
  ythen yields_get_state. subst.
  match goal with
  | |- context [mean_trackingAccuracy ?l] =>
      destruct (mean_trackingAccuracy_Val l) as [acc ->]
  end.
  rewrite bind_lift_Val.
  ythen yields_call_timer.
  yattr (@explorIter Env) (VInt i).
  match goal with
  | X : extends _ _ ?b |- _ =>
      destruct (ready_timer b (ex_ready _ _ _ X)) as [tm Htm]
  end.
  yattr (@timer Env) tm.
  ythen yields_log_event.
  ythen yields_modify_model; [apply harmless_set_record|].
  ythen yields_call_timer.
  yattr (@explorIter Env) (VInt i).
  change (py_add (VInt i) (VInt 1)) with (Val (VInt (i + 1))).
  rewrite bind_lift_Val.
  match goal with
  | X : extends _ _ ?b |- _ => destruct X as [[Rp [Rt Re]] Xp Xe Xi Xh Xf Xl];
                               destruct b as [m w]
  end.
  simpl fst in *. simpl snd in *.
  cbv [bind modify_model modify attr get_state get ret log_event].
  simpl. rewrite Xe, He. cbv beta iota.
  eexists _, _. split; [reflexivity|]. simpl.
  repeat split; try assumption; try discriminate.
  rewrite Xl, <- app_assoc. f_equal.
  unfold body_trace.
  change (py_eqb (VInt (i mod freq)) (VInt (freq - 1)))
    with (i mod freq =? freq - 1).
  destruct (i mod freq =? freq - 1);
    destruct (py_truthy (trackAccuracyWhileFit (params (fst s))));
    destruct (py_truthy (doCorrectSetSubsumption (params (fst s))));
    reflexivity.
Qed.

(** The head of the loop: the test [explorIter < learningIterations]. *)
Lemma fit_loop_test (fuel : nat) (freq : Z) (ag : pyfloat) (s : State)
  (i n : Z) :
  explorIter (fst s) = Some (VInt i) ->
  learningIterations (params (fst s)) = VInt n ->
  fit_loop fuel freq ag s =
    if i <? n then
      match fuel with
      | O => Loops
      | S fuel' =>
          bind (fit_body freq ag) (fun ag' => fit_loop fuel' freq ag') s
      end
    else Ok tt s.
Proof.
  intros Hi Hn. destruct s as [m w]. simpl in Hi, Hn.
  destruct fuel; simpl fit_loop;
    cbv [bind attr get_state get ret lift fst];
    rewrite Hi; cbv beta iota; rewrite Hn;
    change (py_lt (VInt i) (VInt n)) with (@Val bool (i <? n));
    cbv beta iota; destruct (i <? n); reflexivity.
Qed.

Lemma fit_loop_run (k : nat) :
  forall (freq : Z) (ag : pyfloat) (s : State) (ev : Env) (i : Z),
    ready s -> env (fst s) = Some ev ->
    explorIter (fst s) = Some (VInt i) ->
    learningIterations (params (fst s)) = VInt (i + Z.of_nat k) ->
    tracking_safe (params (fst s)) -> freq <> 0 ->
    exists s',
      fit_loop k freq ag s = Ok tt s'
      /\ ready s'
      /\ params (fst s') = params (fst s)
      /\ hasTrained (fst s') = hasTrained (fst s)
      /\ files (snd s') = files (snd s)
      /\ env (fst s') = Some (advance k ev)
      /\ explorIter (fst s') = Some (VInt (i + Z.of_nat k))
      /\ log (snd s') =
           log (snd s)
           ++ loop_trace (py_truthy (trackAccuracyWhileFit (params (fst s))))
                (py_truthy (doCorrectSetSubsumption (params (fst s))))
                freq k ev i.
Proof.
  clear_ops.
  induction k as [|k IH]; intros freq ag s ev i R He Hi HL T Hf.
  - exists s. rewrite (fit_loop_test _ _ _ _ _ _ Hi HL).
    replace (i <? i + Z.of_nat 0) with false
      by (symmetry; apply Z.ltb_ge; lia).
    simpl. rewrite Z.add_0_r, app_nil_r. repeat split; auto; apply R.
  - rewrite (fit_loop_test _ _ _ _ _ _ Hi HL).
    replace (i <? i + Z.of_nat (S k)) with true
      by (symmetry; apply Z.ltb_lt; lia).
    destruct (fit_body_run freq ag s ev i R He Hi T Hf)
      as (ag' & s1 & E1 & R1 & P1 & H1 & F1 & E1' & I1 & L1).
    unfold bind. rewrite E1.
    assert (HL1 : learningIterations (params (fst s1))
                  = VInt (i + 1 + Z.of_nat k)).
    { rewrite P1, HL. f_equal. lia. }
    assert (T1 : tracking_safe (params (fst s1))) by (rewrite P1; exact T).
    destruct (IH freq ag' s1 (newInstance ev) (i + 1) R1 E1' I1 HL1 T1 Hf)
      as (s' & E2 & R2 & P2 & H2 & F2 & E2' & I2 & L2).
    exists s'. split; [exact E2|].
    split; [exact R2|]. split; [congruence|]. split; [congruence|].
    split; [congruence|]. split; [exact E2'|]. split.
    + rewrite I2. do 2 f_equal. lia.
    + rewrite L2, L1, P1, <- app_assoc. reflexivity.
Qed.

(** *** Properties of persistence *)

Lemma fold_numerosity (l : list Classifier) (acc : Z) :
  fold_left (fun microPopSize rule => microPopSize + numerosity rule) l acc
  = acc + total_numerosity l.
Proof.
  revert acc. induction l as [|c l IH]; intro acc; simpl.
  - unfold total_numerosity. simpl. lia.
  - rewrite IH. unfold total_numerosity. simpl. lia.
Qed.

Lemma sum_numerosity_total (l : list Classifier) :
  sum_numerosity l = total_numerosity l.
Proof. unfold sum_numerosity. rewrite fold_numerosity. lia. Qed.

(** The state after a reboot, attribute by attribute. *)
Lemma rebootPopulation_run (m : Model) (w : World) (f : string)
  (rawData : Snapshot) (it li' it' : pyval) :
  rebootFilename (params m) = VStr f ->
  files w f = Some rawData ->
  explorIter m = Some it ->
  py_add (learningIterations (params m)) (raw0 rawData) = Val li' ->
  py_add it (raw0 rawData) = Val it' ->
  rebootPopulation (m, w) =
    Ok tt
      (set_explorIter (Some it')
         (set_params (set_learningIterations li' (params m))
            (set_timer
               (Some (restore_timer rawData (fst (new_Timer (clock w)))))
               (set_population
                  (Some (mkClassifierSet (raw7 rawData)
                           (sum_numerosity (raw7 rawData)) [] [])) m))),
       set_clock (snd (new_Timer (clock w)))
         (set_log (log w ++ [EvReboot]) w)).
Proof.
  intros Hf Hfile Hit Hli Hit'.
  cbv [rebootPopulation bind get_state get lift load_pickle ret raise
       log_event modify modify_model attr fst snd].
  rewrite Hf, Hfile. cbv beta iota. simpl.
  destruct (new_Timer (clock w)) as [tm c]. simpl.
  rewrite Hli. cbv beta iota. simpl. rewrite Hit. cbv beta iota.
  rewrite Hit'. reflexivity.
Qed.

Lemma saveFinalMetrics_run (m : Model) (w : World) (pop : ClassifierSet)
  (tm : Timer) :
  population m = Some pop -> timer m = Some tm ->
  saveFinalMetrics (m, w) =
    Ok tt
      (set_finalMetrics
         (Some (mkSnapshot (learningIterations (params m)) (globalTime tm)
                  (globalMatching tm) (globalDeletion tm)
                  (globalSubsumption tm) (globalSelection tm)
                  (globalEvaluation tm) (popSet pop))) m, w).
Proof.
  intros Hp Ht.
  cbv [saveFinalMetrics bind get_state get ret attr modify_model modify
       fst snd].
  rewrite Ht, Hp. reflexivity.
Qed.

Lemma nonneg_integer_num_float (v : pyval) :
  nonneg_integer v ->
  exists n f, num_of v = Some n /\ num_float n = Val f.
Proof.
  destruct v as [z|b|[q| | |]|s|]; simpl; try contradiction; intro H.
  - exists (NInt z). eexists. split; [reflexivity|]. simpl.
    replace (Z.abs z <? float_int_bound) with true
      by (symmetry; apply Z.ltb_lt; lia).
    reflexivity.
  - exists (NInt (Z_of_bool b)). eexists. split; [reflexivity|].
    destruct b; reflexivity.
  - exists (NFloat (FFin q)). eexists. split; reflexivity.
Qed.

(** The sum of two valid iteration counts is defined. *)
Lemma py_add_defined (a b : pyval) :
  nonneg_integer a -> nonneg_integer b -> exists c, py_add a b = Val c.
Proof.
  clear_ops.
  intros Ha Hb.
  destruct (nonneg_integer_num_float a Ha) as (x & fx & Hx & Fx).
  destruct (nonneg_integer_num_float b Hb) as (y & fy & Hy & Fy).
  unfold py_add. rewrite Hx, Hy.
  destruct x, y; simpl in *; rewrite ?Fx, ?Fy; simpl; eauto.
Qed.


(** *** Properties of [fit] *)

Lemma iterations_left_VInt (a b : Z) :
  iterations_left (VInt a) (VInt b) = Z.to_nat (a - b).
Proof.
  unfold iterations_left. simpl. f_equal.
  assert (E : (inject_Z a - inject_Z b == inject_Z (a - b))%Q).
  { unfold Qeq. simpl. lia. }
  rewrite E. apply Qceiling_Z.
Qed.

Lemma fetches_app (t1 t2 : list event) :
  fetches (t1 ++ t2) = (fetches t1 + fetches t2)%nat.
Proof. unfold fetches. rewrite filter_app, length_app. reflexivity. Qed.

Lemma advances_app (t1 t2 : list event) :
  advances (t1 ++ t2) = (advances t1 + advances t2)%nat.
Proof. unfold advances. rewrite filter_app, length_app. reflexivity. Qed.

Lemma body_trace_once (track subsume : bool) (freq : Z) (ev : Env) (i : Z) :
  fetches (body_trace track subsume freq ev i) = 1%nat
  /\ advances (body_trace track subsume freq ev i) = 1%nat.
Proof.
  unfold body_trace.
  destruct track, subsume, (i mod freq =? freq - 1); split; reflexivity.
Qed.

(** A trace of [k] passes fetches [k] instances and advances the
    environment [k] times. *)
Lemma loop_trace_counts (track subsume : bool) (freq : Z) (k : nat) :
  forall ev i,
    fetches (loop_trace track subsume freq k ev i) = k
    /\ advances (loop_trace track subsume freq k ev i) = k.
Proof.
  induction k as [|k IH]; intros ev i; cbn [loop_trace];
    [split; reflexivity|].
  rewrite fetches_app, advances_app.
  destruct (body_trace_once track subsume freq ev i) as [-> ->].
  destruct (IH (newInstance ev) (i + 1)) as [-> ->].
  split; reflexivity.
Qed.

Lemma compute_aveGeneralityFreq_VInt (fd : FormatData) (n : Z) :
  0 <= n < float_int_bound ->
  compute_aveGeneralityFreq fd (VInt n) = Val (aveGeneralityFreq_of fd n).
Proof.
  intro H. unfold compute_aveGeneralityFreq, py_truediv_int.
  cbn [num_of]. change (20 =? 0) with false. cbv iota.
  assert (C : (Z.abs n <? float_int_bound * Z.abs 20) = true).
  { apply Z.ltb_lt. change (Z.abs 20) with 20. lia. }
  rewrite C. reflexivity.
Qed.

Lemma aveGeneralityFreq_of_pos (fd : FormatData) (n : Z) :
  0 <= n -> 0 < numTrainInstances fd -> aveGeneralityFreq_of fd n <> 0.
Proof.
  intros Hn Hfd. unfold aveGeneralityFreq_of.
  assert (0 <= Qtrunc (inject_Z n / inject_Z 20)).
  { apply Qtrunc_nonneg. apply Qle_shift_div_l; [reflexivity|].
    rewrite Qmult_0_l. unfold Qle. simpl. lia. }
  lia.
Qed.

Lemma set_learningIterations_same (p : Params) :
  set_learningIterations (learningIterations p) p = p.
Proof. destruct p; reflexivity. Qed.

Lemma fit_train_run (freq : Z) (s : State) (ev : Env) (r n : Z) :
  ready s -> env (fst s) = Some ev ->
  explorIter (fst s) = Some (VInt r) ->
  learningIterations (params (fst s)) = VInt (r + n) -> 0 <= n ->
  tracking_safe (params (fst s)) -> freq <> 0 ->
  exists s',
    fit_train freq s = Ok tt s'
    /\ hasTrained (fst s') = true
    /\ explorIter (fst s') = Some (VInt (r + n))
    /\ env (fst s') = Some (advance (Z.to_nat n) ev)
    /\ population (fst s') <> None
    /\ log (snd s') =
         log (snd s)
         ++ loop_trace (py_truthy (trackAccuracyWhileFit (params (fst s))))
              (py_truthy (doCorrectSetSubsumption (params (fst s))))
              freq (Z.to_nat n) ev r.
Proof.
  intros R He Hi HL Hn T Hf.
  assert (HL' : learningIterations (params (fst s))
                = VInt (r + Z.of_nat (Z.to_nat n))).
  { rewrite HL. do 2 f_equal. lia. }
  destruct (fit_loop_run (Z.to_nat n) freq (FFin 0) s ev r R He Hi HL' T Hf)
    as (s1 & E1 & R1 & P1 & H1 & F1 & E1' & I1 & L1).
  destruct (ready_population s1 R1) as [pop Hp].
  destruct (ready_timer s1 R1) as [tm Ht].
  destruct s as [m w], s1 as [m1 w1]. cbn [fst snd] in *.
  unfold fit_train.
  cbv [bind get_state get ret attr]. cbn [fst snd].
  rewrite Hi. cbv beta iota. rewrite HL, iterations_left_VInt.
  replace (r + n - r) with n by lia.
  rewrite E1, (saveFinalMetrics_run m1 w1 pop tm Hp Ht).
  eexists. split; [reflexivity|]. cbn.
  rewrite I1, E1', L1, Hp.
  repeat split; try discriminate.
  do 2 f_equal. lia.
Qed.


(** *** Illegal states and invalid inputs *)

Lemma if_trained_untrained {A} (body : Meth A) (msg : string) (m : Model)
  (w : World) :
  hasTrained m = false ->
  if_trained body msg (m, w) = Raise (PyException msg) (m, w).
Proof.
  intro H. cbv [if_trained bind get_state get raise]. cbn [fst].
  rewrite H. reflexivity.
Qed.

(** C4.  On a trained model [fit] raises and leaves the model, and so its
    population, as it was; on a model that has not been trained each of
    exportIterationTrackingData, exportFinalRulePopulation, getFinalAccuracy
    and getFinalInstanceCoverage raises, again leaving the state as it was. *)
Theorem illegal_state (X : list Row) (y : list pyval) (filename : pyval)
  (DCAL : bool) (m : Model) (w : World) :
  (hasTrained m = true ->
   fit X y (m, w)
   = Raise (PyException "Cannot train already trained model again") (m, w))
  /\ (hasTrained m = false ->
      exportIterationTrackingData filename (m, w)
      = Raise (PyException msg_no_tracking) (m, w)
      /\ exportFinalRulePopulation DCAL (m, w)
         = Raise (PyException msg_no_population) (m, w)
      /\ getFinalAccuracy (m, w) = Raise (PyException msg_no_accuracy) (m, w)
      /\ getFinalInstanceCoverage (m, w)
         = Raise (PyException msg_no_coverage) (m, w)).
Proof.
  split.
  - intro H. unfold fit. cbv [bind get_state get raise]. cbn [fst].
    rewrite H. reflexivity.
  - intro H. repeat split; apply if_trained_untrained; exact H.
Qed.

Lemma check_instance_bad (instance : Row) (v : pyval) :
  In v instance -> num_of v = None -> exists e, check_instance instance = Exn e.
Proof.
  clear_ops.
  induction instance as [|a rest IH]; simpl; [contradiction|].
  intros [->|Hin] Hv.
  - destruct v; simpl in Hv; try discriminate; simpl; eauto.
  - destruct (np_isnan a) as [[|]|e]; simpl; eauto.
    destruct (py_float a); simpl; eauto.
Qed.

Lemma check_X_bad (X : list Row) (instance : Row) (v : pyval) :
  In instance X -> In v instance -> num_of v = None ->
  exists e, check_X X = Exn e.
Proof.
  clear_ops.
  induction X as [|a rest IH]; simpl; [contradiction|].
  intros [->|Hin] Hv Hn.
  - destruct (check_instance_bad instance v Hv Hn) as [e ->]. simpl. eauto.
  - destruct (check_instance a) as [[]|e]; simpl; eauto.
Qed.

Lemma check_y_bad (y : list pyval) (v : pyval) (e : exn) :
  In v y -> py_float v = Exn e -> exists e', check_y y = Exn e'.
Proof.
  clear_ops.
  induction y as [|a rest IH]; simpl; [contradiction|].
  intros [->|Hin] Hv.
  - rewrite Hv. simpl. eauto.
  - destruct (py_float a); simpl; eauto.
Qed.

(** Input that the entry check does refuse: a cell of [X] that is not a
    number (a string or None), or a label that [float] refuses, makes [fit]
    raise at entry, before anything of the model or of the world has
    changed. *)
Lemma fit_rejects_invalid_input (X : list Row) (y : list pyval) (m : Model)
  (w : World) :
  hasTrained m = false ->
  (exists instance v, In instance X /\ In v instance /\ num_of v = None)
  \/ (check_X X = Val tt /\ exists v e, In v y /\ py_float v = Exn e) ->
  fit X y (m, w)
  = Raise (PyException "X and y must be fully numeric") (m, w).
Proof.
  intros H Bad. unfold fit. cbv [bind get_state get ret raise lift].
  cbn [fst]. rewrite H.
  destruct Bad as [(instance & v & H1 & H2 & H3) | (HX & v & e & H1 & H2)].
  - destruct (check_X_bad X instance v H1 H2 H3) as [e ->]. reflexivity.
  - rewrite HX. destruct (check_y_bad y v e H1 H2) as [e' ->]. reflexivity.
Qed.

(** C3, at the input where the code departs from it: a label that is NaN
    passes the entry check of [fit], alone and together with a numeric [X];
    nothing is raised for it. *)
Theorem nan_label_passes_entry_check :
  check_y [VFloat FNaN] = Val tt
  /\ try_except (check_X [[VFloat (FFin 1)]] ~;; check_y [VFloat FNaN])
       "X and y must be fully numeric" = Val tt.
Proof. split; reflexivity. Qed.

(** *** Properties of inference *)

(** A method run through [with_engine] acts on the engine of the state. *)
Lemma with_engine_run {A} (f : Engine -> A * Engine) (s : State) (e : Engine) :
  ready s -> engine_of s = Some e ->
  exists s',
    with_engine f s = Ok (fst (f e)) s'
    /\ extends s [] s'
    /\ engine_of s' = Some (snd (f e)).
Proof.
  intros (_ & _ & He) E. destruct s as [m w]. unfold engine_of in E.
  cbn [fst snd] in *.
  destruct (population m) as [pop|] eqn:Hp; [|discriminate].
  destruct (timer m) as [tm|] eqn:Ht; [|discriminate].
  inversion E; subst e. clear E.
  cbv [with_engine bind attr get_state get modify ret]. cbn [fst snd].
  rewrite Hp. cbv beta iota. cbn [fst snd]. rewrite Ht. cbv beta iota.
  destruct (f (mkEngine pop (trackingObj m) tm (clock w) (rngs w)))
    as [a e'].
  eexists. split; [reflexivity|]. split.
  - constructor; cbn; try reflexivity.
    + repeat split; cbn; congruence.
    + rewrite app_nil_r. reflexivity.
  - destruct e'. reflexivity.
Qed.

Lemma engine_of_population (s : State) (e : Engine) :
  engine_of s = Some e -> population (fst s) = Some (e_pop e).
Proof.
  unfold engine_of. destruct (population (fst s)); [|discriminate].
  destruct (timer (fst s)); [|discriminate].
  intro H. inversion H. reflexivity.
Qed.

Lemma engine_of_log (m : Model) (w : World) (l : list event) :
  engine_of (m, set_log l w) = engine_of (m, w).
Proof. reflexivity. Qed.

Lemma call_set_op_run (o : set_op) (s : State) (ev : Env) (e : Engine) :
  ready s -> env (fst s) = Some ev -> engine_of s = Some e ->
  exists s',
    call_set_op o s = Ok tt s'
    /\ extends s [EvSet o] s'
    /\ engine_of s' = Some (run_set_op (params (fst s)) (formatData ev) o e).
Proof.
  intros R He E. pose proof (engine_of_population s e E) as Hp.
  destruct s as [m w]. cbn [fst snd] in *.
  assert (R1 : ready (m, set_log (log w ++ [EvSet o]) w)) by exact R.
  destruct (with_engine_run
              (fun e => (tt, run_set_op (params m) (formatData ev) o e))
              (m, set_log (log w ++ [EvSet o]) w) e R1 E)
    as (s' & E' & X & Eng).
  exists s'.
  cbv [call_set_op bind attr get_state get ret log_event modify
       get_formatData].
  cbn [fst snd]. rewrite Hp. cbv beta iota. cbn [fst snd].
  rewrite He. cbv beta iota. cbn [fst snd].
  cbn [fst] in E'. rewrite E'.
  split; [reflexivity|]. split; [|exact Eng].
  destruct X. constructor; cbn [fst snd] in *; try assumption.
  rewrite ex_log0, app_nil_r. reflexivity.
Qed.

Lemma call_Prediction_run (s : State) (ev : Env) (e : Engine) :
  ready s -> env (fst s) = Some ev -> engine_of s = Some e ->
  exists s',
    call_Prediction s
    = Ok (fst (Prediction (params (fst s)) (formatData ev) e)) s'
    /\ extends s [EvPrediction] s'
    /\ engine_of s'
       = Some (snd (Prediction (params (fst s)) (formatData ev) e)).
Proof.
  intros R He E. pose proof (engine_of_population s e E) as Hp.
  destruct s as [m w]. cbn [fst snd] in *.
  assert (R1 : ready (m, set_log (log w ++ [EvPrediction]) w)) by exact R.
  destruct (with_engine_run (Prediction (params m) (formatData ev))
              (m, set_log (log w ++ [EvPrediction]) w) e R1 E)
    as (s' & E' & X & Eng).
  exists s'.
  cbv [call_Prediction bind attr get_state get ret log_event modify
       get_formatData].
  cbn [fst snd]. rewrite Hp. cbv beta iota. cbn [fst snd].
  rewrite He. cbv beta iota. cbn [fst snd].
  rewrite E'.
  split; [reflexivity|]. split; [|exact Eng].
  destruct X. constructor; cbn [fst snd] in *; try assumption.
  rewrite ex_log0, app_nil_r. reflexivity.
Qed.

Lemma ready_of_engine (s : State) (ev : Env) (e : Engine) :
  env (fst s) = Some ev -> engine_of s = Some e -> ready s.
Proof.
  unfold engine_of, ready. intros He E.
  destruct (population (fst s)); [|discriminate].
  destruct (timer (fst s)); [|discriminate].
  repeat split; congruence.
Qed.

(** One row of inference, for either result read from the prediction. *)
Lemma row_run {A} (read : PredictionObj -> A) (row : Row) (s : State)
  (ev : Env) (e : Engine) :
  env (fst s) = Some ev -> engine_of s = Some e ->
  exists s',
    (call_set_op (MakeEvalMatchSet row) ;;;
     prediction <- call_Prediction ;;
     call_set_op ClearSets ;;;
     ret (read prediction))%py s
    = Ok (fst (infer_row read (params (fst s)) (formatData ev) row e)) s'
    /\ extends s (row_trace row) s'
    /\ engine_of s'
       = Some (snd (infer_row read (params (fst s)) (formatData ev) row e)).
Proof.
  intros He E. pose proof (ready_of_engine s ev e He E) as R.
  destruct (call_set_op_run (MakeEvalMatchSet row) s ev e R He E)
    as (s1 & E1 & X1 & G1).
  assert (He1 : env (fst s1) = Some ev) by (rewrite (ex_env _ _ _ X1); exact He).
  destruct (call_Prediction_run s1 ev _ (ex_ready _ _ _ X1) He1 G1)
    as (s2 & E2 & X2 & G2).
  assert (He2 : env (fst s2) = Some ev)
    by (rewrite (ex_env _ _ _ X2); exact He1).
  destruct (call_set_op_run ClearSets s2 ev _ (ex_ready _ _ _ X2) He2 G2)
    as (s3 & E3 & X3 & G3).
  exists s3. unfold bind. rewrite E1, E2, E3.
  rewrite (ex_params _ _ _ X2), (ex_params _ _ _ X1) in G3.
  rewrite (ex_params _ _ _ X1) in *.
  unfold infer_row.
  destruct (Prediction (params (fst s)) (formatData ev)
              (run_set_op (params (fst s)) (formatData ev)
                 (MakeEvalMatchSet row) e)) as [pr e2].
  cbn [fst snd] in *. split; [reflexivity|]. split; [|exact G3].
  exact (extends_trans _ _ _ _ _ (extends_trans _ _ _ _ _ X1 X2) X3).
Qed.

Lemma predict_row_run (row : Row) (s : State) (ev : Env) (e : Engine) :
  env (fst s) = Some ev -> engine_of s = Some e ->
  exists s',
    predict_row row s
    = Ok (fst (infer_row getDecision (params (fst s)) (formatData ev) row e)) s'
    /\ extends s (row_trace row) s'
    /\ engine_of s'
       = Some (snd (infer_row getDecision (params (fst s)) (formatData ev)
                      row e)).
Proof. exact (row_run getDecision row s ev e). Qed.

Lemma predict_proba_row_run (row : Row) (s : State) (ev : Env) (e : Engine) :
  env (fst s) = Some ev -> engine_of s = Some e ->
  exists s',
    predict_proba_row row s
    = Ok (fst (infer_row getProbabilities (params (fst s)) (formatData ev)
                 row e)) s'
    /\ extends s (row_trace row) s'
    /\ engine_of s'
       = Some (snd (infer_row getProbabilities (params (fst s))
                      (formatData ev) row e)).
Proof. exact (row_run getProbabilities row s ev e). Qed.

Lemma for_rows_run {A} (read : PredictionObj -> A) (f : Row -> Meth A) :
  (forall row s ev e,
      env (fst s) = Some ev -> engine_of s = Some e ->
      exists s',
        f row s
        = Ok (fst (infer_row read (params (fst s)) (formatData ev) row e)) s'
        /\ extends s (row_trace row) s'
        /\ engine_of s'
           = Some (snd (infer_row read (params (fst s)) (formatData ev)
                          row e))) ->
  forall X s ev e,
    env (fst s) = Some ev -> engine_of s = Some e ->
    exists s',
      for_rows f X s
      = Ok (fst (infer_rows read (params (fst s)) (formatData ev) X e)) s'
      /\ extends s (flat_map row_trace X) s'
      /\ engine_of s'
         = Some (snd (infer_rows read (params (fst s)) (formatData ev) X e)).
Proof.
  intros Hrow. induction X as [|row rest IH]; intros s ev e He E.
  - exists s. cbn [for_rows infer_rows flat_map fst snd].
    split; [reflexivity|]. split; [|exact E].
    apply extends_refl. exact (ready_of_engine s ev e He E).
  - destruct (Hrow row s ev e He E) as (s1 & E1 & X1 & G1).
    assert (He1 : env (fst s1) = Some ev)
      by (rewrite (ex_env _ _ _ X1); exact He).
    destruct (IH s1 ev _ He1 G1) as (s2 & E2 & X2 & G2).
    rewrite (ex_params _ _ _ X1) in E2, G2.
    exists s2. cbn [for_rows infer_rows flat_map]. unfold bind.
    rewrite E1, E2.
    destruct (infer_row read (params (fst s)) (formatData ev) row e)
      as [a e1].
    cbn [fst snd] in *.
    destruct (infer_rows read (params (fst s)) (formatData ev) rest e1)
      as [l e2].
    cbn [fst snd] in *. split; [reflexivity|]. split; [|exact G2].
    exact (extends_trans _ _ _ _ _ X1 X2).
Qed.

Lemma infer_rows_length {A} (read : PredictionObj -> A) (p : Params)
  (fd : FormatData) (X : list Row) :
  forall e, List.length (fst (infer_rows read p fd X e)) = List.length X.
Proof.
  induction X as [|row rest IH]; intro e; cbn [infer_rows]; [reflexivity|].
  destruct (infer_row read p fd row e) as [a e1].
  specialize (IH e1).
  destruct (infer_rows read p fd rest e1) as [l e2].
  cbn [fst] in *. cbn. rewrite IH. reflexivity.
Qed.

Lemma set_ops_rows (X : list Row) :
  set_ops (flat_map row_trace X)
  = flat_map (fun row => [MakeEvalMatchSet row; ClearSets]) X.
Proof.
  induction X as [|row rest IH]; [reflexivity|].
  cbn. rewrite IH. reflexivity.
Qed.

Lemma predict_run (X : list Row) (s : State) (ev : Env) (e : Engine) :
  env (fst s) = Some ev -> engine_of s = Some e -> check_X X = Val tt ->
  exists s1,
    predict X s
    = Ok (fst (infer_rows getDecision (params (fst s)) (formatData ev) X e)) s1
    /\ extends s (flat_map row_trace X) s1.
Proof.
  intros He E HX.
  destruct (for_rows_run getDecision predict_row predict_row_run X s ev e He E)
    as (s1 & E1 & X1 & _).
  exists s1. unfold predict. rewrite HX.
  change (try_except (Val tt) "X must be fully numeric") with (Val tt).
  cbv [lift bind ret]. split; [exact E1 | exact X1].
Qed.

(** C6.  On a model with a population and an environment, and for numeric
    [X], [predict] and [predict_proba] return.  Their calls are, row after
    row: makeEvalMatchSet on that row, the prediction, clearSets; of the
    population's methods only makeEvalMatchSet and clearSets are called, so
    nothing is covered.  The result for a row is read from the prediction
    made right after the evaluation match set of that row was built, and
    [predict] returns one decision per row. *)
Theorem predict_row_by_row (X : list Row) (s : State) (ev : Env) (e : Engine) :
  env (fst s) = Some ev -> engine_of s = Some e -> check_X X = Val tt ->
  let p := params (fst s) in
  let fd := formatData ev in
  exists s1 s2,
    predict X s = Ok (fst (infer_rows getDecision p fd X e)) s1
    /\ List.length (fst (infer_rows getDecision p fd X e)) = List.length X
    /\ log (snd s1) = log (snd s) ++ flat_map row_trace X
    /\ predict_proba X s = Ok (fst (infer_rows getProbabilities p fd X e)) s2
    /\ log (snd s2) = log (snd s) ++ flat_map row_trace X
    /\ set_ops (flat_map row_trace X)
       = flat_map (fun row => [MakeEvalMatchSet row; ClearSets]) X.
Proof.
  intros He E HX p fd.
  destruct (for_rows_run getDecision predict_row predict_row_run X s ev e He E)
    as (s1 & E1 & X1 & _).
  destruct (for_rows_run getProbabilities predict_proba_row
              predict_proba_row_run X s ev e He E)
    as (s2 & E2 & X2 & _).
  exists s1, s2.
  unfold predict, predict_proba. rewrite HX.
  change (try_except (Val tt) "X must be fully numeric") with (Val tt).
  cbv [lift bind ret]. 
  split; [exact E1|]. split; [apply infer_rows_length|].
  split; [exact (ex_log _ _ _ X1)|]. split; [exact E2|].
  split; [exact (ex_log _ _ _ X2) | apply set_ops_rows].
Qed.

(** Equality of class labels is equality of the integers they stand for. *)
Lemma exact_int_float (z : Z) :
  exact_int z = true -> (Z.abs z <? float_int_bound) = true.
Proof.
  clear_ops. unfold exact_int. intros H.
  apply andb_true_iff in H. destruct H as [A B].
  apply Z.leb_le in A. apply Z.leb_le in B. apply Z.ltb_lt.
  assert (C : 2 ^ 53 < float_int_bound) by reflexivity. lia.
Qed.

Lemma Qeq_bool_keys (q1 q2 : Q) (k1 k2 : Z) :
  (q1 == inject_Z k1)%Q -> (q2 == inject_Z k2)%Q ->
  Qeq_bool q1 q2 = (k1 =? k2).
Proof.
  clear_ops. intros H1 H2. destruct (Z.eqb_spec k1 k2) as [->|N].
  - apply Qeq_bool_iff. rewrite H1, H2. reflexivity.
  - destruct (Qeq_bool q1 q2) eqn:E; [|reflexivity].
    apply Qeq_bool_iff in E. rewrite H1, H2 in E.
    apply (proj1 (inject_Z_injective _ _)) in E. contradiction.
Qed.

Lemma class_label_num (v : pyval) :
  class_label v = true ->
  (num_of v = Some (NInt (label_key v))
   /\ (Z.abs (label_key v) <? float_int_bound) = true)
  \/ exists q, num_of v = Some (NFloat (FFin q))
               /\ (q == inject_Z (label_key v))%Q.
Proof.
  clear_ops. destruct v as [z|b|f|t|]; cbn [class_label]; intro H;
    try discriminate.
  - left. split; [reflexivity | exact (exact_int_float z H)].
  - left. split; [reflexivity | destruct b; reflexivity].
  - destruct f as [q| | |]; try discriminate.
    right. exists q. split; [reflexivity|].
    apply andb_true_iff in H. destruct H as [H _].
    apply Qeq_bool_iff in H. exact H.
Qed.

Lemma py_eqb_key (a b : pyval) :
  class_label a = true -> class_label b = true ->
  py_eqb a b = (label_key a =? label_key b).
Proof.
  clear_ops. intros Ha Hb. unfold py_eqb.
  destruct (class_label_num a Ha) as [[Na Ba]|(qa & Na & Qa)];
    destruct (class_label_num b Hb) as [[Nb Bb]|(qb & Nb & Qb)];
    rewrite Na, Nb; cbn [num_float]; rewrite ?Ba, ?Bb; cbn [feqb].
  - reflexivity.
  - apply Qeq_bool_keys; [reflexivity | exact Qb].
  - apply Qeq_bool_keys; [exact Qa | reflexivity].
  - apply Qeq_bool_keys; assumption.
Qed.

Lemma distinct_labels_in (y : list pyval) (c : pyval) :
  In c (distinct_labels y) -> In c y.
Proof.
  clear_ops. induction y as [|a rest IH]; cbn [distinct_labels];
    [intros []|].
  intros [->|H]; [left; reflexivity|].
  apply filter_In in H. right. apply IH, H.
Qed.

Lemma distinct_labels_cover (y : list pyval) :
  forallb class_label y = true ->
  forall v, In v y ->
    exists c, In c (distinct_labels y) /\ py_eqb v c = true.
Proof.
  clear_ops. induction y as [|a rest IH]; intros Hy v Hv; [destruct Hv|].
  cbn [forallb] in Hy. apply andb_true_iff in Hy. destruct Hy as [Ha Hr].
  assert (Rf : py_eqb a a = true)
    by (rewrite (py_eqb_key a a Ha Ha); apply Z.eqb_refl).
  cbn [distinct_labels]. destruct Hv as [->|Hv].
  - exists v. split; [left; reflexivity | exact Rf].
  - destruct (IH Hr v Hv) as (c & Hc & E).
    pose proof (proj1 (forallb_forall class_label rest) Hr) as L.
    pose proof (L v Hv) as Lv.
    pose proof (L c (distinct_labels_in rest c Hc)) as Lc.
    destruct (py_eqb c a) eqn:Eca.
    + exists a. split; [left; reflexivity|].
      rewrite (py_eqb_key v c Lv Lc) in E.
      rewrite (py_eqb_key c a Lc Ha) in Eca.
      rewrite (py_eqb_key v a Lv Ha).
      apply Z.eqb_eq in E. apply Z.eqb_eq in Eca. apply Z.eqb_eq. lia.
    + exists c. split; [|exact E].
      right. apply filter_In. split; [exact Hc|]. rewrite Eca. reflexivity.
Qed.

Lemma ForallOrdPairs_filter {A} (R : A -> A -> Prop) (f : A -> bool)
  (l : list A) :
  ForallOrdPairs R l -> ForallOrdPairs R (filter f l).
Proof.
  clear_ops. induction 1 as [|a l Ha Hl IH]; cbn [filter]; [constructor|].
  destruct (f a); [|exact IH].
  constructor; [|exact IH].
  apply Forall_forall. intros x Hx. apply filter_In in Hx.
  exact (proj1 (Forall_forall _ _) Ha x (proj1 Hx)).
Qed.

Lemma distinct_labels_apart (y : list pyval) :
  ForallOrdPairs (fun c d => py_eqb d c = false) (distinct_labels y).
Proof.
  clear_ops. induction y as [|a rest IH]; cbn [distinct_labels];
    constructor.
  - apply Forall_forall. intros d Hd. apply filter_In in Hd.
    apply negb_true_iff. exact (proj2 Hd).
  - apply ForallOrdPairs_filter, IH.
Qed.

Lemma filter_combine_fst {A B} (f : A -> bool) (l : list A) :
  forall l' : list B, List.length l = List.length l' ->
    List.length (filter (fun tp => f (fst tp)) (combine l l'))
    = List.length (filter f l).
Proof.
  clear_ops. induction l as [|a l IH]; intros [|b l'] H; try discriminate;
    [reflexivity|].
  cbn [combine filter fst]. injection H as H.
  destruct (f a); cbn [List.length]; rewrite (IH l' H); reflexivity.
Qed.

Lemma filter_inhabited {A} (f : A -> bool) (l : list A) (a : A) :
  In a l -> f a = true -> (0 < List.length (filter f l))%nat.
Proof.
  clear_ops. intros Hin Hf.
  assert (H : In a (filter f l)) by (apply filter_In; split; assumption).
  destruct (filter f l); [destruct H | cbn; lia].
Qed.

Lemma Qsum_map_ext {A} (f g : A -> Q) (l : list A) :
  (forall c, In c l -> (f c == g c)%Q) ->
  (fold_right Qplus 0 (map f l) == fold_right Qplus 0 (map g l))%Q.
Proof.
  clear_ops. induction l as [|a l IH]; intros H; cbn [map fold_right];
    [reflexivity|].
  rewrite (H a (or_introl eq_refl)), IH; [reflexivity|].
  intros c Hc. apply H. right. exact Hc.
Qed.

Lemma recall_as_counts (c : pyval) (y preds : list pyval) :
  List.length y = List.length preds -> In c y -> py_eqb c c = true ->
  (recall c (combine y preds)
   == inject_Z
        (Z.of_nat
           (List.length
              (filter (fun tp => py_eqb (fst tp) c && py_eqb (snd tp) c)
                 (combine y preds))))
      / inject_Z (Z.of_nat (List.length (filter (fun v => py_eqb v c) y))))%Q.
Proof.
  clear_ops. intros Hlen Hin Hc. unfold recall, count_where.
  rewrite (filter_combine_fst (fun v => py_eqb v c) y preds Hlen).
  pose proof (filter_inhabited (fun v => py_eqb v c) y c Hin Hc) as Hpos.
  rewrite Qmake_Qdiv, Z2Pos.id by lia. reflexivity.
Qed.

(** Among labels 0, 0, 0, 1 all predicted as class 0, the balanced accuracy
    is 1/2. *)
Lemma balanced_on_one_class (p1 p2 p3 p4 : pyval) :
  Forall (fun v => class_label v = true /\ label_key v = 0) [p1; p2; p3; p4] ->
  exists a,
    balanced_accuracy_score other_targets [VInt 0; VInt 0; VInt 0; VInt 1]
      [p1; p2; p3; p4] = Val (FFin a)
    /\ (a == 1 # 2)%Q
    /\ List.length
         (filter (fun tp => py_eqb (fst tp) (snd tp))
            (combine [VInt 0; VInt 0; VInt 0; VInt 1] [p1; p2; p3; p4]))
       = 3%nat.
Proof.
  intros H.
  assert (K : forall p, class_label p = true /\ label_key p = 0 ->
            class_label p = true /\ py_eqb p (VInt 0) = true
            /\ py_eqb p (VInt 1) = false /\ py_eqb (VInt 0) p = true
            /\ py_eqb (VInt 1) p = false).
  { intros p [C L]. split; [exact C|].
    rewrite (py_eqb_key p (VInt 0) C eq_refl),
      (py_eqb_key p (VInt 1) C eq_refl),
      (py_eqb_key (VInt 0) p eq_refl C),
      (py_eqb_key (VInt 1) p eq_refl C), L.
    repeat split; reflexivity. }
  inversion H as [|? ? H1 T1]; subst. inversion T1 as [|? ? H2 T2]; subst.
  inversion T2 as [|? ? H3 T3]; subst. inversion T3 as [|? ? H4 _]; subst.
  destruct (K p1 H1) as (C1 & A1 & B1 & A1' & B1').
  destruct (K p2 H2) as (C2 & A2 & B2 & A2' & B2').
  destruct (K p3 H3) as (C3 & A3 & B3 & A3' & B3').
  destruct (K p4 H4) as (C4 & A4 & B4 & A4' & B4').
  assert (R0 : recall (VInt 0)
                 (combine [VInt 0; VInt 0; VInt 0; VInt 1] [p1; p2; p3; p4])
               = 3 # 3).
  { unfold recall, count_where. cbn [combine filter fst snd].
    rewrite A1, A2, A3. reflexivity. }
  assert (R1 : recall (VInt 1)
                 (combine [VInt 0; VInt 0; VInt 0; VInt 1] [p1; p2; p3; p4])
               = 0 # 1).
  { unfold recall, count_where. cbn [combine filter fst snd].
    rewrite B4. reflexivity. }
  unfold balanced_accuracy_score.
  cbn [List.length Nat.eqb negb forallb]. rewrite C1, C2, C3, C4.
  change (distinct_labels [VInt 0; VInt 0; VInt 0; VInt 1])
    with [VInt 0; VInt 1].
  cbn [map]. rewrite R0, R1.
  eexists. split; [reflexivity|]. split; [reflexivity|].
  cbn [combine filter fst snd]. rewrite A1', A2', A3', B4'. reflexivity.
Qed.


(** *** Determinism of training *)

Lemma related_ret {A} (R : A -> A -> Prop) (a1 a2 : A) :
  R a1 a2 -> related R (ret a1) (ret a2).
Proof. intros H s1 s2 S. split; assumption. Qed.

Lemma related_raise {A} (R : A -> A -> Prop) (e : exn) :
  related R (raise e) (raise e).
Proof. intros s1 s2 S. split; [reflexivity | assumption]. Qed.

Lemma related_lift {A} (R : A -> A -> Prop) (r : res A) :
  (forall a, R a a) -> related R (lift r) (lift r).
Proof.
  intro H. destruct r; [apply related_ret, H | apply related_raise].
Qed.

Lemma related_bind {A B} (R : A -> A -> Prop) (Q : B -> B -> Prop)
  (c1 c2 : Meth A) (k1 k2 : A -> Meth B) :
  related R c1 c2 ->
  (forall a1 a2, R a1 a2 -> related Q (k1 a1) (k2 a2)) ->
  related Q (bind c1 k1) (bind c2 k2).
Proof.
  clear_ops.
  intros Hc Hk s1 s2 S. specialize (Hc s1 s2 S). unfold bind.
  destruct (c1 s1), (c2 s2); simpl in Hc; try contradiction; auto.
  destruct Hc as [HR S']. exact (Hk _ _ HR _ _ S').
Qed.

Lemma related_weaken {A} (R R' : A -> A -> Prop) (c1 c2 : Meth A) :
  related R c1 c2 -> (forall a1 a2, R a1 a2 -> R' a1 a2) -> related R' c1 c2.
Proof.
  clear_ops.
  intros H W s1 s2 S. specialize (H s1 s2 S).
  destruct (c1 s1), (c2 s2); simpl in *; intuition.
Qed.

Lemma related_get_state : related sim get_state get_state.
Proof. intros s1 s2 S. split; assumption. Qed.

Lemma related_log_event (e1 e2 : event) :
  related any (log_event e1) (log_event e2).
Proof.
  intros [m1 w1] [m2 w2] []. split; [exact I|].
  constructor; assumption.
Qed.

Lemma related_attr {A} (f : Model -> option A) :
  (forall s1 s2, sim s1 s2 -> f (fst s1) = f (fst s2)) ->
  related eq (attr f) (attr f).
Proof.
  clear_ops.
  intros H s1 s2 S. cbv [attr bind get_state get ret raise].
  rewrite (H s1 s2 S). destruct (f (fst s2)); split; auto.
Qed.

Lemma related_attr_timer : related any (attr timer) (attr timer).
Proof.
  intros s1 s2 S. cbv [attr bind get_state get ret raise].
  pose proof (sim_timer _ _ S) as [H1 H2].
  destruct (timer (fst s1)), (timer (fst s2)); simpl;
    try (split; [exact I | assumption]);
    try (split; [reflexivity | assumption]).
  - discriminate (H2 eq_refl).
  - discriminate (H1 eq_refl).
Qed.

Lemma related_modify_model (f g : Model -> Model) :
  (forall s1 s2, sim s1 s2 -> sim (f (fst s1), snd s1) (g (fst s2), snd s2)) ->
  related any (modify_model f) (modify_model g).
Proof. intros H s1 s2 S. split; [exact I | exact (H s1 s2 S)]. Qed.

Lemma core_inv (e1 e2 : Engine) :
  core e1 = core e2 ->
  e_pop e1 = e_pop e2 /\ e_track e1 = e_track e2 /\ e_rngs e1 = e_rngs e2.
Proof. clear_ops. unfold core. intro H. inversion H. auto. Qed.

Lemma related_with_engine {A} (R : A -> A -> Prop)
  (f1 f2 : Engine -> A * Engine) :
  (forall e1 e2, core e1 = core e2 ->
                 R (fst (f1 e1)) (fst (f2 e2))
                 /\ core (snd (f1 e1)) = core (snd (f2 e2))) ->
  related R (with_engine f1) (with_engine f2).
Proof.
  clear_ops.
  intros H [m1 w1] [m2 w2] S.
  pose proof S as [Sp Sto Sh Se Si Sta Sm Spop [St1 St2] Sr Sf].
  cbn [fst snd] in *.
  cbv [with_engine bind attr get_state get modify ret raise]. cbn [fst snd].
  rewrite Spop. destruct (population m2) as [pop|]; [|split; auto].
  cbv beta iota. cbn [fst snd].
  destruct (timer m1) as [tm1|], (timer m2) as [tm2|];
    try (discriminate (St1 eq_refl)); try (discriminate (St2 eq_refl));
    [|split; auto].
  cbv beta iota.
  destruct (H (mkEngine pop (trackingObj m1) tm1 (clock w1) (rngs w1))
              (mkEngine pop (trackingObj m2) tm2 (clock w2) (rngs w2)))
    as [HR HC].
  { unfold core. cbn. congruence. }
  destruct (f1 _) as [a1 e1], (f2 _) as [a2 e2]. cbn [fst snd] in *.
  apply core_inv in HC. destruct HC as (C1 & C2 & C3).
  split; [exact HR|].
  constructor; cbn; try assumption; try congruence.
  split; discriminate.
Qed.

Lemma related_get_formatData : related eq get_formatData get_formatData.
Proof.
  unfold get_formatData. eapply related_bind.
  - apply related_attr. intros s1 s2 S. exact (sim_env _ _ S).
  - intros a1 a2 ->. apply related_ret. reflexivity.
Qed.

Section TimeBlind.

Hypothesis blind : time_blind.

Lemma related_call_set_op (o : set_op) :
  related any (call_set_op o) (call_set_op o).
Proof.
  unfold call_set_op.
  eapply related_bind.
  { apply related_attr. intros s1 s2 S. exact (sim_population _ _ S). }
  intros pop1 pop2 _.
  eapply related_bind; [apply related_log_event|]. intros _ _ _.
  eapply related_bind; [apply related_get_formatData|]. intros fd ? <-.
  eapply related_bind; [apply related_get_state|]. intros s1 s2 S.
  apply related_with_engine. intros e1 e2 C. split; [exact I|].
  cbn [snd]. rewrite (sim_params _ _ S). apply (proj1 blind). exact C.
Qed.

Lemma related_call_Prediction : related eq call_Prediction call_Prediction.
Proof.
  unfold call_Prediction.
  eapply related_bind.
  { apply related_attr. intros s1 s2 S. exact (sim_population _ _ S). }
  intros pop1 pop2 _.
  eapply related_bind; [apply related_log_event|]. intros _ _ _.
  eapply related_bind; [apply related_get_formatData|]. intros fd ? <-.
  eapply related_bind; [apply related_get_state|]. intros s1 s2 S.
  apply related_with_engine. intros e1 e2 C.
  rewrite (sim_params _ _ S). apply (proj2 blind). exact C.
Qed.

Lemma related_call_timer (o : timer_op) :
  related any (call_timer o) (call_timer o).
Proof.
  clear_ops.
  intros [m1 w1] [m2 w2] S.
  pose proof S as [Sp Sto Sh Se Si Sta Sm Spop [St1 St2] Sr Sf].
  cbn [fst snd] in *.
  cbv [call_timer bind attr get_state get modify ret raise log_event].
  cbn [fst snd].
  destruct (timer m1) as [tm1|], (timer m2) as [tm2|];
    try (discriminate (St1 eq_refl)); try (discriminate (St2 eq_refl));
    [|split; auto].
  cbv beta iota. cbn [fst snd clock set_log].
  destruct (timer_step o tm1 (clock w1)) as [tm1' c1].
  destruct (timer_step o tm2 (clock w2)) as [tm2' c2].
  split; [exact I|].
  constructor; cbn; try assumption. split; discriminate.
Qed.

Lemma related_push_tracking (x : pyfloat) :
  related any (push_tracking x) (push_tracking x).
Proof.
  apply related_modify_model.
  intros [m1 w1] [m2 w2] [Sp Sto Sh Se Si Sta Sm Spop St Sr Sf].
  cbn [fst snd] in *. constructor; cbn; try assumption.
  rewrite Sta, Sm. reflexivity.
Qed.

(** Binds with a known relation between the two results. *)
Ltac rbind L := eapply related_bind; [apply L|].

Lemma related_track_accuracy (sp : Row * pyval) :
  related any (track_accuracy sp) (track_accuracy sp).
Proof.
  unfold track_accuracy.
  rbind related_call_timer. intros _ _ _.
  rbind related_call_Prediction. intros pr ? <-.
  rbind related_get_formatData. intros fd ? <-.
  eapply related_bind with (R := any).
  - destruct (discretePhenotype fd).
    + destruct (py_eqb _ _); apply related_push_tracking.
    + eapply related_bind with (R := eq).
      * apply related_lift. reflexivity.
      * intros a ? <-. apply related_push_tracking.
  - intros _ _ _. apply related_call_timer.
Qed.

Lemma related_snapshot_counters :
  related any snapshot_counters snapshot_counters.
Proof.
  unfold snapshot_counters.
  eapply related_bind.
  { apply related_attr. intros s1 s2 S. exact (sim_population _ _ S). }
  intros pop ? <-.
  rbind related_log_event. intros _ _ _.
  apply related_modify_model.
  intros [m1 w1] [m2 w2] [Sp Sto Sh Se Si Sta Sm Spop St Sr Sf].
  cbn [fst snd] in *. constructor; cbn; try assumption.
  rewrite Sto. reflexivity.
Qed.

Lemma related_runIteration (sp : Row * pyval) (it : pyval) :
  related any (runIteration sp it) (runIteration sp it).
Proof.
  unfold runIteration.
  rbind related_log_event. intros _ _ _.
  eapply related_bind.
  { apply related_modify_model.
    intros [m1 w1] [m2 w2] [Sp Sto Sh Se Si Sta Sm Spop St Sr Sf].
    cbn [fst snd] in *. constructor; cbn; try assumption. reflexivity. }
  intros _ _ _.
  rbind related_call_set_op. intros _ _ _.
  rbind related_get_state. intros s1 s2 S.
  eapply related_bind with (R := any).
  { rewrite (sim_params _ _ S).
    destruct (py_truthy _); [apply related_track_accuracy|].
    apply related_ret. exact I. }
  intros _ _ _.
  rbind related_call_set_op. intros _ _ _.
  rbind related_call_set_op. intros _ _ _.
  rbind related_get_state. intros s3 s4 S'.
  eapply related_bind with (R := any).
  { rewrite (sim_params _ _ S').
    destruct (py_truthy _); [|apply related_ret; exact I].
    rbind related_call_timer. intros _ _ _.
    rbind related_call_set_op. intros _ _ _.
    apply related_call_timer. }
  intros _ _ _.
  rbind related_call_set_op. intros _ _ _.
  rbind related_call_timer. intros _ _ _.
  rbind related_call_set_op. intros _ _ _.
  rbind related_call_timer. intros _ _ _.
  rbind related_snapshot_counters. intros _ _ _.
  apply related_call_set_op.
Qed.

Lemma related_attr_env : related eq (attr env) (attr env).
Proof. apply related_attr. intros s1 s2 S. exact (sim_env _ _ S). Qed.

Lemma related_attr_explorIter : related eq (attr explorIter) (attr explorIter).
Proof. apply related_attr. intros s1 s2 S. exact (sim_explorIter _ _ S). Qed.

Lemma related_attr_population :
  related eq (attr population) (attr population).
Proof. apply related_attr. intros s1 s2 S. exact (sim_population _ _ S). Qed.

Lemma related_fit_body (freq : Z) (ag : pyfloat) :
  related eq (fit_body freq ag) (fit_body freq ag).
Proof.
  unfold fit_body.
  rbind related_attr_env. intros ev ? <-.
  rbind related_log_event. intros _ _ _.
  rbind related_attr_explorIter. intros it ? <-.
  rbind related_runIteration. intros _ _ _.
  rbind related_call_timer. intros _ _ _.
  rbind related_attr_explorIter. intros it' ? <-.
  eapply related_bind with (R := eq); [apply related_lift; reflexivity|].
  intros r ? <-.
  eapply related_bind with (R := eq).
  { destruct (py_eqb r (VInt (freq - 1))); [|apply related_ret; reflexivity].
    rbind related_attr_population. intros pop ? <-.
    rbind related_log_event. intros _ _ _.
    rbind related_get_formatData. intros fd ? <-.
    rbind related_get_state. intros s1 s2 S.
    apply related_ret. rewrite (sim_params _ _ S). reflexivity. }
  intros ag' ? <-.
  rbind related_get_state. intros s1 s2 S.
  rewrite (sim_trackingAccuracy _ _ S).
  eapply related_bind with (R := eq); [apply related_lift; reflexivity|].
  intros acc ? <-.
  rbind related_call_timer. intros _ _ _.
  rbind related_attr_explorIter. intros it'' ? <-.
  rbind related_attr_timer. intros tm1 tm2 _.
  rbind related_log_event. intros _ _ _.
  eapply related_bind.
  { apply related_modify_model.
    intros [m1 w1] [m2 w2] [Sp Sto Sh Se Si Sta Sm Spop St Sr Sf].
    cbn [fst snd] in *. constructor; cbn; assumption. }
  intros _ _ _.
  rbind related_call_timer. intros _ _ _.
  rbind related_attr_explorIter. intros it3 ? <-.
  eapply related_bind with (R := eq); [apply related_lift; reflexivity|].
  intros it4 ? <-.
  eapply related_bind.
  { apply related_modify_model.
    intros [m1 w1] [m2 w2] [Sp Sto Sh Se Si Sta Sm Spop St Sr Sf].
    cbn [fst snd] in *. constructor; cbn; try assumption. reflexivity. }
  intros _ _ _.
  rbind related_attr_env. intros ev' ? <-.
  rbind related_log_event. intros _ _ _.
  eapply related_bind.
  { apply related_modify_model.
    intros [m1 w1] [m2 w2] [Sp Sto Sh Se Si Sta Sm Spop St Sr Sf].
    cbn [fst snd] in *. constructor; cbn; try assumption. reflexivity. }
  intros _ _ _. apply related_ret. reflexivity.
Qed.

Lemma related_fit_loop (fuel : nat) :
  forall freq ag,
    related any (fit_loop fuel freq ag) (fit_loop fuel freq ag).
Proof.
  induction fuel as [|fuel IH]; intros freq ag; cbn [fit_loop].
  - rbind related_attr_explorIter. intros it ? <-.
    rbind related_get_state. intros s1 s2 S.
    rewrite (sim_params _ _ S).
    eapply related_bind with (R := eq); [apply related_lift; reflexivity|].
    intros c ? <-. destruct c; [|apply related_ret; exact I].
    intros t1 t2 _. exact I.
  - rbind related_attr_explorIter. intros it ? <-.
    rbind related_get_state. intros s1 s2 S.
    rewrite (sim_params _ _ S).
    eapply related_bind with (R := eq); [apply related_lift; reflexivity|].
    intros c ? <-. destruct c; [|apply related_ret; exact I].
    rbind related_fit_body. intros ag' ? <-. apply IH.
Qed.

Lemma related_new_training_state :
  related any new_training_state new_training_state.
Proof.
  intros [m1 w1] [m2 w2] [Sp Sto Sh Se Si Sta Sm Spop St Sr Sf].
  cbn [fst snd] in *.
  cbv [new_training_state bind get_state get log_event modify].
  cbn [fst snd].
  destruct (new_Timer (clock w1)) as [tm1 c1].
  destruct (new_Timer (clock w2)) as [tm2 c2].
  split; [exact I|].
  constructor; cbn; try assumption; try reflexivity.
  split; discriminate.
Qed.

Lemma related_saveFinalMetrics :
  related any saveFinalMetrics saveFinalMetrics.
Proof.
  unfold saveFinalMetrics.
  rbind related_get_state. intros s1 s2 S.
  rbind related_attr_timer. intros tm1 tm2 _.
  rbind related_attr_population. intros pop ? <-.
  apply related_modify_model.
  intros [m1 w1] [m2 w2] [Sp Sto Sh Se Si Sta Sm Spop St Sr Sf].
  cbn [fst snd] in *. constructor; cbn; assumption.
Qed.

Lemma related_load_pickle (s1 s2 : State) :
  sim s1 s2 ->
  load_pickle (rebootFilename (params (fst s1))) (snd s1)
  = load_pickle (rebootFilename (params (fst s2))) (snd s2).
Proof.
  intro S. rewrite (sim_params _ _ S). unfold load_pickle.
  destruct (rebootFilename (params (fst s2))); try reflexivity.
  rewrite (sim_files _ _ S). reflexivity.
Qed.

Lemma related_rebootPopulation :
  related any rebootPopulation rebootPopulation.
Proof.
  unfold rebootPopulation.
  rbind related_get_state. intros s1 s2 S.
  rewrite (related_load_pickle s1 s2 S).
  eapply related_bind with (R := eq); [apply related_lift; reflexivity|].
  intros rawData ? <-.
  rbind related_log_event. intros _ _ _.
  eapply related_bind.
  { apply related_modify_model.
    intros [m1 w1] [m2 w2] [Sp Sto Sh Se Si Sta Sm Spop St Sr Sf].
    cbn [fst snd] in *. constructor; cbn; try assumption. reflexivity. }
  intros _ _ _.
  rbind related_get_state. intros s3 s4 S'.
  destruct (new_Timer (clock (snd s3))) as [tm1 c1].
  destruct (new_Timer (clock (snd s4))) as [tm2 c2].
  eapply related_bind with (R := any).
  { intros [m1 w1] [m2 w2] [Sp Sto Sh Se Si Sta Sm Spop St Sr Sf].
    cbn [fst snd] in *. split; [exact I|].
    constructor; cbn; try assumption. split; discriminate. }
  intros _ _ _.
  rbind related_get_state. intros s5 s6 S''.
  rewrite (sim_params _ _ S'').
  eapply related_bind with (R := eq); [apply related_lift; reflexivity|].
  intros li ? <-.
  eapply related_bind.
  { apply related_modify_model.
    intros [m1 w1] [m2 w2] [Sp Sto Sh Se Si Sta Sm Spop St Sr Sf].
    cbn [fst snd] in *. constructor; cbn; try assumption.
    rewrite Sp. reflexivity. }
  intros _ _ _.
  rbind related_attr_explorIter. intros it ? <-.
  eapply related_bind with (R := eq); [apply related_lift; reflexivity|].
  intros it' ? <-.
  apply related_modify_model.
  intros [m1 w1] [m2 w2] [Sp Sto Sh Se Si Sta Sm Spop St Sr Sf].
  cbn [fst snd] in *. constructor; cbn; try assumption. reflexivity.
Qed.

Lemma related_fit_train (freq : Z) :
  related any (fit_train freq) (fit_train freq).
Proof.
  unfold fit_train.
  rbind related_get_state. intros s1 s2 S.
  rbind related_attr_explorIter. intros it ? <-.
  rewrite (sim_params _ _ S).
  rbind related_fit_loop. intros _ _ _.
  rbind related_saveFinalMetrics. intros _ _ _.
  apply related_modify_model.
  intros [m1 w1] [m2 w2] [Sp Sto Sh Se Si Sta Sm Spop St Sr Sf].
  cbn [fst snd] in *. constructor; cbn; try assumption. reflexivity.
Qed.

Lemma related_fit (X : list Row) (y : list pyval) :
  related any (fit X y) (fit X y).
Proof.
  unfold fit.
  rbind related_get_state. intros s1 s2 S.
  eapply related_bind with (R := any).
  { rewrite (sim_hasTrained _ _ S).
    destruct (hasTrained (fst s2));
      [apply related_raise | apply related_ret; exact I]. }
  intros _ _ _.
  eapply related_bind with (R := any).
  { apply related_lift. intro. exact I. }
  intros _ _ _.
  rbind related_log_event. intros _ _ _.
  rbind related_get_state. intros s3 s4 S'.
  rewrite (sim_params _ _ S'), (sim_rngs _ _ S').
  destruct (OfflineEnvironment X y (params (fst s4)) (rngs (snd s4)))
    as [ev g].
  eapply related_bind with (R := any).
  { intros [m1 w1] [m2 w2] [Sp Sto Sh Se Si Sta Sm Spop St Sr Sf].
    cbn [fst snd] in *. split; [exact I|].
    constructor; cbn; try assumption; reflexivity. }
  intros _ _ _.
  eapply related_bind.
  { apply related_modify_model.
    intros [m1 w1] [m2 w2] [Sp Sto Sh Se Si Sta Sm Spop St Sr Sf].
    cbn [fst snd] in *. constructor; cbn; try assumption; reflexivity. }
  intros _ _ _.
  rbind related_get_formatData. intros fd ? <-.
  rbind related_get_state. intros s5 s6 S''.
  rewrite (sim_params _ _ S'').
  eapply related_bind with (R := eq); [apply related_lift; reflexivity|].
  intros freq ? <-.
  eapply related_bind with (R := any).
  { destruct (py_eqb _ _);
      [apply related_new_training_state | apply related_rebootPopulation]. }
  intros _ _ _. apply related_fit_train.
Qed.

(** With a seed, the generators after construction do not depend on what
    they were before. *)
Lemma seed_step_overwrites (v : pyval) (g1 g2 : Rngs) :
  v <> VStr "none" ->
  fst (seed_step v g1) = Val tt ->
  fst (seed_step v g2) = Val tt /\ snd (seed_step v g1) = snd (seed_step v g2).
Proof.
  intros Hv. unfold seed_step.
  destruct (py_ne_str v "none") eqn:E.
  - destruct (checkIsInt v); [|discriminate].
    destruct (py_int v) as [i|]; [|discriminate].
    destruct (np_seed_ok i); [|discriminate].
    intros _. split; reflexivity.
  - apply py_ne_str_false in E. contradiction.
Qed.

Lemma init_sim (p : Params) (w1 w2 w1' w2' : World) (m1 m2 : Model) :
  randomSeed p <> VStr "none" ->
  (forall f, files w1 f = files w2 f) ->
  init p w1 = Ok m1 w1' -> init p w2 = Ok m2 w2' ->
  sim (m1, w1') (m2, w2').
Proof.
  clear_ops.
  intros Hseed Hf. unfold init.
  destruct (checks_before_seed p) as [[]|]; [|discriminate].
  destruct (seed_step (randomSeed p) (rngs w1)) as [r1 g1] eqn:E1.
  destruct (seed_step (randomSeed p) (rngs w2)) as [r2 g2] eqn:E2.
  destruct r1 as [[]|]; [|discriminate].
  destruct (seed_step_overwrites (randomSeed p) (rngs w1) (rngs w2) Hseed)
    as [H2 Hg].
  { rewrite E1. reflexivity. }
  rewrite E1, E2 in Hg. rewrite E2 in H2. cbn [fst snd] in *. subst r2 g2.
  cbn [res_bind].
  destruct (checks_after_seed p) as [[]|]; [|discriminate].
  intros H1 H2. inversion H1; inversion H2; subst.
  constructor; cbn; try reflexivity; try tauto.
Qed.

(** C7.  For collaborators that keep time out of their decisions, a seed
    given to the constructor and the same files on disk: two independent
    runs of construct-then-fit on the same [X], [y] and hyperparameters,
    started in worlds whose generators and clocks differ, end alike (both
    return, both raise the same exception, or both loop), and when they
    return their populations, and so their popSet, are identical. *)
Theorem training_deterministic (p : Params) (X : list Row) (y : list pyval)
  (w1 w2 w1' w2' : World) (m1 m2 : Model) :
  randomSeed p <> VStr "none" ->
  (forall f, files w1 f = files w2 f) ->
  init p w1 = Ok m1 w1' -> init p w2 = Ok m2 w2' ->
  sim_outcome any (fit X y (m1, w1')) (fit X y (m2, w2'))
  /\ (forall s1 s2,
        fit X y (m1, w1') = Ok tt s1 -> fit X y (m2, w2') = Ok tt s2 ->
        population (fst s1) = population (fst s2)
        /\ option_map popSet (population (fst s1))
           = option_map popSet (population (fst s2))).
Proof.
  intros Hseed Hf I1 I2.
  pose proof (related_fit X y _ _ (init_sim p w1 w2 w1' w2' m1 m2 Hseed Hf I1 I2))
    as H.
  split; [exact H|].
  intros s1 s2 E1 E2. rewrite E1, E2 in H. destruct H as [_ S].
  rewrite (sim_population _ _ S). split; reflexivity.
Qed.

End TimeBlind.

(** *** Further properties of the constructor and of its two helpers *)

(** The values that [checkIsInt] takes for integers. *)
Lemma checkIsInt_whole (v : pyval) :
  checkIsInt v = true <-> whole_number v.
Proof.
  clear_ops.
  destruct v as [z|b|[q| | |]|s|]; simpl whole_number.
  - rewrite checkIsInt_VInt. apply Z.ltb_lt.
  - rewrite checkIsInt_VBool. tauto.
  - apply checkIsInt_VFloat.
  - split; [discriminate|contradiction].
  - split; [discriminate|contradiction].
  - split; [discriminate|contradiction].
  - split; [|contradiction].
    unfold Py.checkIsInt. simpl.
    destruct (float_of_string s); [|discriminate].
    destruct (int_of_string s); discriminate.
  - split; [discriminate|contradiction].
Qed.

(** The values that [checkIsFloat] takes for floats. *)
Lemma checkIsFloat_numeric (v : pyval) :
  checkIsFloat v = true <-> a_number v \/ numeric_string v.
Proof.
  clear_ops.
  unfold Py.checkIsFloat, numeric_string.
  destruct v as [z|b|f|s|]; simpl.
  - destruct (Z.ltb_spec (Z.abs z) float_int_bound); simpl.
    + tauto.
    + split; [discriminate|].
      intros [H'|(s & f & H' & _)]; [lia|discriminate].
  - tauto.
  - tauto.
  - destruct (float_of_string s) as [f|] eqn:E; simpl.
    + split; [|reflexivity]. intros _. right. exists s, f. auto.
    + split; [discriminate|].
      intros [[]|(s' & f & H' & Hf)]. inversion H'; subst. congruence.
  - split; [discriminate|].
    intros [[]|(s & f & H' & _)]. discriminate.
Qed.

(** X1.  [checkIsInt] answers True exactly for an int that [float] can
    convert, for a bool, and for a finite float with zero fractional part;
    never for a string (not even one of digits), None, NaN or an infinity.
    Whatever passes [checkIsInt] passes [checkIsFloat]. *)
Theorem checkIsInt_characterised :
  (forall v, checkIsInt v = true <-> whole_number v)
  /\ (forall s, checkIsInt (VStr s) = false)
  /\ (forall v, checkIsInt v = true -> checkIsFloat v = true).
Proof.
  clear_ops.
  split; [exact checkIsInt_whole|]. split.
  - intros s. destruct (checkIsInt (VStr s)) eqn:E; [|reflexivity].
    apply checkIsInt_whole in E. contradiction.
  - intros v H. apply checkIsInt_whole in H. apply checkIsFloat_numeric.
    left. destruct v as [z|b|[q| | |]|s|]; simpl in *; auto.
Qed.

(** X2.  [checkIsFloat] answers True exactly for a number (an int that
    [float] can convert, a bool, any float including NaN and the infinities)
    and for a string that [float] converts; such a string passes
    [checkIsFloat] though it never passes [checkIsInt]. *)
Theorem checkIsFloat_characterised :
  (forall v, checkIsFloat v = true <-> a_number v \/ numeric_string v)
  /\ (forall f, checkIsFloat (VFloat f) = true)
  /\ (forall v, numeric_string v ->
        checkIsFloat v = true /\ checkIsInt v = false).
Proof.
  clear_ops.
  split; [exact checkIsFloat_numeric|]. split.
  - intros f. reflexivity.
  - intros v H. split; [apply checkIsFloat_numeric; auto|].
    destruct H as (s & f & -> & _).
    destruct (checkIsInt (VStr s)) eqn:E; [|reflexivity].
    apply checkIsInt_whole in E. contradiction.
Qed.

(** Reads the fields of a configuration changed by the setter [f]. *)
Ltac params_of f :=
  cbn [f learningIterations trackAccuracyWhileFit N p_spec
       discreteAttributeLimit specifiedAttributes nu chi upsilon theta_GA
       theta_del theta_sub acc_sub beta delta init_fit fitnessReduction
       doCorrectSetSubsumption doGASubsumption selectionMethod theta_sel
       randomSeed matchForMissingness rebootFilename].

Lemma set_rngs_same (w : World) : set_rngs (rngs w) w = w.
Proof. destruct w; reflexivity. Qed.

Lemma whole_number_not_none (v : pyval) :
  whole_number v -> py_ne_str v "none" = true.
Proof. destruct v; simpl; try reflexivity; contradiction. Qed.

(** X3.  What a successful construction does to the two global generators:
    with randomSeed = "none" the world is left exactly as it was; otherwise
    the seed is an integer value within 0 .. 2**32 - 1 and both [random] and
    [np.random] are reseeded with it.  Nothing else of the world changes. *)
Theorem init_seeds_generators (p : Params) (w w' : World) (m : Model) :
  init p w = Ok m w' ->
  (randomSeed p = VStr "none" /\ w' = w)
  \/ (exists i, whole_number (randomSeed p)
                /\ py_int (randomSeed p) = Val i /\ 0 <= i < 2 ^ 32
                /\ w' = set_rngs (random_seed i, np_random_seed i) w).
Proof.
  clear_ops.
  unfold init.
  destruct (checks_before_seed p) as [[]|e]; [|discriminate].
  unfold seed_step.
  destruct (py_ne_str (randomSeed p) "none") eqn:Hn.
  - destruct (checkIsInt (randomSeed p)) eqn:Hc.
    2: simpl; discriminate.
    destruct (py_int (randomSeed p)) as [i|e] eqn:Hi.
    2: simpl; discriminate.
    destruct (np_seed_ok i) eqn:Hok.
    2: simpl; discriminate.
    simpl. destruct (checks_after_seed p); [|discriminate].
    intros H. inversion H; subst. right. exists i.
    apply checkIsInt_whole in Hc. unfold np_seed_ok in Hok.
    apply andb_true_iff in Hok. destruct Hok as [H0 H1].
    apply Z.leb_le in H0. apply Z.ltb_lt in H1. auto.
  - apply py_ne_str_false in Hn. simpl.
    destruct (checks_after_seed p); [|discriminate].
    intros H. inversion H; subst. left. split; [assumption|].
    apply set_rngs_same.
Qed.

(** X4.  A seed that is not "none" and is refused: when [checkIsInt]
    rejects it, the constructor raises with both generators untouched; when
    it is an integer value outside 0 .. 2**32 - 1, so that only
    [np.random.seed] refuses it, the constructor raises after [random] has
    already been reseeded with it. *)
Theorem init_refused_seed (p : Params) (w : World) :
  checks_before_seed p = Val tt ->
  randomSeed p <> VStr "none" ->
  (~ whole_number (randomSeed p) ->
   init p w = Raise (PyException msg_seed) w)
  /\ (forall i, whole_number (randomSeed p) ->
        py_int (randomSeed p) = Val i -> ~ 0 <= i < 2 ^ 32 ->
        init p w = Raise (PyException msg_seed)
                     (set_rngs (random_seed i, snd (rngs w)) w)).
Proof.
  clear_ops.
  intros B Hn. unfold init. rewrite B. unfold seed_step.
  destruct (py_ne_str (randomSeed p) "none") eqn:E.
  2: apply py_ne_str_false in E; contradiction.
  split.
  - intros Hw.
    destruct (checkIsInt (randomSeed p)) eqn:Hc.
    + apply checkIsInt_whole in Hc. contradiction.
    + simpl. rewrite set_rngs_same. reflexivity.
  - intros i Hw Hi Hr.
    apply checkIsInt_whole in Hw. rewrite Hw, Hi.
    replace (np_seed_ok i) with false; [reflexivity|].
    symmetry. unfold np_seed_ok. apply andb_false_iff.
    destruct (Z.leb_spec 0 i); [right|left; reflexivity].
    apply Z.ltb_ge. lia.
Qed.

(** X5.  A numeric string such as "0.5" passes [checkIsFloat].  Given as
    nu, which is only checked by [checkIsFloat], it is accepted by the
    constructor; given as p_spec it passes [checkIsFloat] and the comparison
    with 0 that follows raises TypeError, not the Exception of the
    validity checks. *)
Theorem numeric_string_parameter (p : Params) (w : World) (s : string)
  (f : pyfloat) :
  in_range p -> float_of_string s = Some f ->
  returns (init (set_nu (VStr s) p) w)
  /\ init (set_p_spec (VStr s) p) w = Raise TypeError w.
Proof.
  clear_ops.
  intros R Hf.
  assert (F : checkIsFloat (VStr s) = true).
  { apply checkIsFloat_numeric. right. exists s, f. auto. }
  destruct R. split.
  - apply init_returns. split; [|split].
    + apply checks_before_seed_Val. params_of set_nu.
      repeat split;
        auto using check_int_nonneg_intro, check_unit_interval_intro,
          check_float_intro, check_float_nonneg_intro,
          check_discreteAttributeLimit_intro;
        try (apply check_bool_iff, a_bool_isinstance; assumption);
        try (apply check_selectionMethod_iff; assumption).
      * destruct ir_specifiedAttributes0 as (l & -> & Hl).
        apply check_spAttrs_intro, Hl.
      * unfold check_float. rewrite F. reflexivity.
    + apply seed_step_intro. assumption.
    + apply checks_after_seed_Val. params_of set_nu. split.
      * apply check_bool_iff, a_bool_isinstance; assumption.
      * apply check_rebootFilename_intro; assumption.
  - unfold init, checks_before_seed.
    params_of set_p_spec.
    rewrite (check_int_nonneg_intro "learningIterations" _ ir_learningIterations0).
    rewrite (check_int_nonneg_intro "N" _ ir_N0).
    replace (check_bool "trackAccuracyWhileFit" (trackAccuracyWhileFit p))
      with (Val tt)
      by (symmetry; apply check_bool_iff, a_bool_isinstance; assumption).
    unfold check_unit_interval at 1. rewrite F. reflexivity.
Qed.

Lemma py_int_negative (v : pyval) (i : Z) :
  whole_number v -> py_int v = Val i -> (i < 0 <-> negative v).
Proof.
  clear_ops.
  destruct v as [z|b|[q| | |]|s|]; simpl; try contradiction;
    intros Hw Hi; inversion Hi; subst; try tauto.
  unfold negative, value_lt, integral in *.
  rewrite Hw at 2. rewrite <- Zlt_Qlt. tauto.
Qed.

(** X6.  The check of discreteAttributeLimit passes exactly for "c", for
    "d", and for an integer value ([checkIsInt]) that is not negative; every
    other value, whatever goes wrong inside the [try], ends in the one
    Exception of this parameter. *)
Theorem check_discreteAttributeLimit_iff (v : pyval) :
  (check_discreteAttributeLimit v = Val tt <->
   v = VStr "c" \/ v = VStr "d" \/ (whole_number v /\ ~ negative v))
  /\ (check_discreteAttributeLimit v = Val tt
      \/ check_discreteAttributeLimit v = Exn (PyException msg_dal)).
Proof.
  clear_ops.
  unfold check_discreteAttributeLimit.
  destruct (py_ne_str v "c") eqn:Hc.
  2: { apply py_ne_str_false in Hc. simpl. tauto. }
  destruct (py_ne_str v "d") eqn:Hd.
  2: { apply py_ne_str_false in Hd. simpl. tauto. }
  assert (Nc : v <> VStr "c").
  { intros E. apply py_ne_str_false in E. congruence. }
  assert (Nd : v <> VStr "d").
  { intros E. apply py_ne_str_false in E. congruence. }
  cbn [andb].
  destruct (checkIsInt v) eqn:Hi.
  - apply checkIsInt_whole in Hi.
    destruct (py_int v) as [i|e] eqn:Hp.
    2: { destruct v as [z|b|[q| | |]|s|]; simpl in Hi, Hp;
         try contradiction; discriminate. }
    pose proof (py_int_negative v i Hi Hp) as Hneg. simpl.
    destruct (Z.ltb_spec i 0); simpl.
    + split; [|tauto]. split; [discriminate|].
      intros [?|[?|[_ Hn]]]; try contradiction. tauto.
    + split; [|tauto]. split; [|reflexivity].
      intros _. right; right. split; [assumption|].
      intros Hn. apply Hneg in Hn. lia.
  - assert (Hw : ~ whole_number v).
    { intros Hw. apply checkIsInt_whole in Hw. congruence. }
    destruct (py_int v) as [i|e]; simpl.
    + split; [|tauto]. split; [discriminate|]. tauto.
    + split; [|tauto]. split; [discriminate|]. tauto.
Qed.

Lemma int64_below_float_bound (z : Z) :
  - 2 ^ 63 <= z < 2 ^ 64 -> Z.abs z < float_int_bound.
Proof.
  clear_ops.
  intros H. assert (B : 2 ^ 64 < float_int_bound) by reflexivity.
  assert (C : 2 ^ 63 < 2 ^ 64) by reflexivity. lia.
Qed.

Lemma check_instance_iff (instance : Row) :
  check_instance instance = Val tt <-> Forall a_cell instance.
Proof.
  clear_ops.
  induction instance as [|v rest IH]; cbn [check_instance].
  - split; auto.
  - rewrite Forall_cons_iff, <- IH.
    destruct v as [z|b|[q| | |]|s|]; cbn [np_isnan a_cell];
      try (simpl; tauto).
    + destruct (Z.leb_spec (- 2 ^ 63) z) as [L|L];
        destruct (Z.ltb_spec z (2 ^ 64)) as [U|U]; cbn [andb res_bind];
        try (split; [discriminate | intros [H' _]; lia]).
      cbn [py_float Py.py_float].
      destruct (Z.ltb_spec (Z.abs z) float_int_bound) as [Bd|Bd].
      * simpl. tauto.
      * pose proof (int64_below_float_bound z (conj L U)). lia.
    + simpl. split; [discriminate|tauto].
    + simpl. split; [discriminate|tauto].
Qed.

(** X7.  The entry check of [fit] and [predict] accepts [X] exactly when
    every cell is an int that numpy can hold in 64 bits, a bool, or a float
    (NaN included): a string in [X] is refused even when it spells a number,
    and so is an int beyond 64 bits, on which [np.isnan] raises.  It accepts
    [y] exactly when [checkIsFloat] holds of every label, so NaN and numeric
    strings pass as labels. *)
Theorem entry_check_iff (X : list Row) (y : list pyval) :
  (check_X X = Val tt <-> Forall (Forall a_cell) X)
  /\ (check_y y = Val tt <-> Forall (fun v => checkIsFloat v = true) y).
Proof.
  clear_ops.
  split.
  - induction X as [|instance rest IH]; simpl.
    + split; auto.
    + rewrite Forall_cons_iff, <- IH, <- check_instance_iff.
      destruct (check_instance instance) as [[]|e]; simpl; [tauto|].
      split; [discriminate|]. intros [H' _]. discriminate.
  - induction y as [|v rest IH]; simpl.
    + split; auto.
    + rewrite Forall_cons_iff, <- IH. unfold Py.checkIsFloat.
      destruct (py_float v) as [f|e]; simpl; [tauto|].
      split; [discriminate|]. intros [H' _]. discriminate.
Qed.

(** *** Further properties of inference *)

Lemma call_set_op_no_population (o : set_op) (s : State) :
  population (fst s) = None -> call_set_op o s = Raise AttributeError s.
Proof.
  intros H. cbv [call_set_op bind attr get_state get ret raise].
  rewrite H. reflexivity.
Qed.

(** X8.  [predict] and [predict_proba] do not test hasTrained.  An [X] that
    fails the entry check raises the Exception of that check and changes
    nothing; an empty [X] returns the empty array, even on a model that was
    never fitted; a checked, non-empty [X] on a model that has no population
    yet raises AttributeError at the first row, not the Exception that the
    export routines raise before [fit]. *)
Theorem predict_edge_cases (X : list Row) (s : State) :
  (check_X X <> Val tt ->
   predict X s = Raise (PyException "X must be fully numeric") s
   /\ predict_proba X s = Raise (PyException "X must be fully numeric") s)
  /\ (predict [] s = Ok [] s /\ predict_proba [] s = Ok [] s)
  /\ (population (fst s) = None -> check_X X = Val tt -> X <> [] ->
      predict X s = Raise AttributeError s
      /\ predict_proba X s = Raise AttributeError s).
Proof.
  split; [|split].
  - intros H. unfold predict, predict_proba, bind.
    destruct (check_X X) as [[]|e]; [congruence|]. split; reflexivity.
  - split; reflexivity.
  - intros Hp HX Hne. unfold predict, predict_proba, bind. rewrite HX.
    destruct X as [|row rest]; [congruence|].
    cbn [try_except lift ret for_rows].
    unfold predict_row, predict_proba_row, bind.
    rewrite (call_set_op_no_population _ s Hp). split; reflexivity.
Qed.

(** X9.  [score] with a [y] whose length differs from that of [X] raises
    the ValueError of [balanced_accuracy_score], and only after [predict] has
    run on every row: the calls of inference have all been made. *)
Theorem score_length_mismatch (X : list Row) (y : list pyval) (s : State)
  (ev : Env) (e : Engine) :
  env (fst s) = Some ev -> engine_of s = Some e -> check_X X = Val tt ->
  List.length y <> List.length X ->
  exists s1,
    score X y s = Raise ValueError s1
    /\ extends s (flat_map row_trace X) s1.
Proof.
  intros He E HX Hlen.
  destruct (predict_run X s ev e He E HX) as (s1 & E1 & X1).
  exists s1. split; [|exact X1].
  unfold score, bind. rewrite E1. unfold balanced_accuracy_score.
  rewrite infer_rows_length.
  apply Nat.eqb_neq in Hlen. rewrite Hlen. reflexivity.
Qed.

Lemma infer_row_covered (p : Params) (fd : FormatData) (row : Row)
  (e : Engine) (n : Z) :
  infer_row (fun pr => if hasMatch pr then n + 1 else n) p fd row e
  = (if fst (infer_row hasMatch p fd row e) then n + 1 else n,
     snd (infer_row hasMatch p fd row e)).
Proof.
  unfold infer_row.
  destruct (Prediction p fd (run_set_op p fd (MakeEvalMatchSet row) e)).
  reflexivity.
Qed.

Lemma count_where_cons {A} (f : A -> bool) (a : A) (l : list A) :
  count_where f (a :: l) = (if f a then 1 else 0) + count_where f l.
Proof.
  clear_ops. unfold count_where. cbn [filter].
  destruct (f a); cbn [List.length]; rewrite ?Nat2Z.inj_succ; lia.
Qed.

Lemma count_where_bounds {A} (f : A -> bool) (l : list A) :
  0 <= count_where f l <= py_len l.
Proof.
  clear_ops. unfold count_where, py_len.
  pose proof (filter_length_le f l). lia.
Qed.

(** The coverage loop counts the rows for which the prediction has a
    match. *)
Lemma coverage_rows_run (X : list Row) :
  forall (n : Z) (s : State) (ev : Env) (e : Engine),
    env (fst s) = Some ev -> engine_of s = Some e ->
    exists s',
      coverage_rows n X s
      = Ok (n + count_where (fun b : bool => b)
                  (fst (infer_rows hasMatch (params (fst s)) (formatData ev)
                          X e))) s'
      /\ extends s (flat_map row_trace X) s'.
Proof.
  induction X as [|row rest IH]; intros n s ev e He E.
  - exists s. split.
    + simpl. unfold ret. f_equal. unfold count_where. simpl. lia.
    + apply extends_refl. exact (ready_of_engine s ev e He E).
  - destruct (row_run (fun pr => if hasMatch pr then n + 1 else n) row s ev e
                He E) as (s1 & E1 & X1 & G1).
    rewrite infer_row_covered in E1, G1. cbn [fst snd] in E1, G1.
    assert (He1 : env (fst s1) = Some ev)
      by (rewrite (ex_env _ _ _ X1); exact He).
    destruct (IH (if fst (infer_row hasMatch (params (fst s)) (formatData ev)
                            row e) then n + 1 else n) s1 ev _ He1 G1)
      as (s2 & E2 & X2).
    exists s2. split.
    + cbn [coverage_rows]. unfold bind at 1.
      unfold coverage_row. rewrite E1. rewrite E2.
      rewrite (ex_params _ _ _ X1). f_equal.
      cbn [infer_rows].
      destruct (infer_row hasMatch (params (fst s)) (formatData ev) row e)
        as [b e1].
      cbn [fst snd].
      destruct (infer_rows hasMatch (params (fst s)) (formatData ev) rest e1)
        as [l e2].
      cbn [fst snd]. rewrite count_where_cons. destruct b; lia.
    + cbn [flat_map]. exact (extends_trans _ _ _ _ _ X1 X2).
Qed.

Lemma float_int_bound_gt_1 : 1 < float_int_bound.
Proof. reflexivity. Qed.

(** X10.  On a trained model [getFinalInstanceCoverage] runs inference on
    every row of the saved training data and returns the number of rows whose
    prediction has a match divided by the number of rows: a fraction of
    counts that lie between 0 and the number of rows.  On empty training data
    the division raises ZeroDivisionError. *)
Theorem coverage_is_matched_fraction (s : State) (ev : Env) (e : Engine) :
  hasTrained (fst s) = true -> env (fst s) = Some ev ->
  engine_of s = Some e ->
  let X := fst (savedRawTrainingData (formatData ev)) in
  let covered :=
    count_where (fun b : bool => b)
      (fst (infer_rows hasMatch (params (fst s)) (formatData ev) X e)) in
  exists s',
    extends s (flat_map row_trace X) s'
    /\ 0 <= covered <= py_len X
    /\ getFinalInstanceCoverage s
       = if py_len X =? 0 then Raise ZeroDivisionError s'
         else Ok (FFin (inject_Z covered / inject_Z (py_len X))) s'.
Proof.
  intros Ht He E X covered.
  destruct (coverage_rows_run X 0 s ev e He E) as (s' & E1 & X1).
  fold covered in E1. rewrite Z.add_0_l in E1.
  assert (B : 0 <= covered <= py_len X).
  { pose proof (count_where_bounds (fun b : bool => b)
                  (fst (infer_rows hasMatch (params (fst s)) (formatData ev)
                          X e))) as B.
    unfold py_len in B. rewrite infer_rows_length in B. exact B. }
  exists s'. split; [exact X1|]. split; [exact B|].
  unfold getFinalInstanceCoverage, if_trained.
  cbv [bind get_state get get_formatData attr ret]. rewrite Ht, He.
  cbv beta iota. fold X. rewrite E1.
  unfold py_truediv_int. cbn [num_of].
  destruct (Z.eqb_spec (py_len X) 0) as [Z0|NZ]; [reflexivity|].
  replace (Z.abs covered <? float_int_bound * Z.abs (py_len X)) with true;
    [reflexivity|].
  symmetry. apply Z.ltb_lt.
  pose proof float_int_bound_gt_1 as G. clear - B NZ G.
  rewrite !Z.abs_eq by lia. nia.
Qed.

(** *** Properties of [pickleModel] *)

(** X11.  On a trained model [pickleModel] writes the final metrics to the
    file it was given, or to 'pickled' followed by the whole seconds of the
    clock when it was given none, and touches no other file, nothing of the
    model and no generator.  What [rebootPopulation] of a model named after
    that file then loads is this snapshot: its population gets the pickled
    popSet, with microPopSize recounted from it. *)
Theorem pickle_then_reboot (filename : option string) (m : Model) (w : World)
  (rawData : Snapshot) :
  hasTrained m = true -> finalMetrics m = Some rawData ->
  open_wb (pickle_name filename w) = None ->
  exists w1,
    pickleModel filename (m, w) = Ok tt (m, w1)
    /\ load_pickle (VStr (pickle_name filename w)) w1 = Val rawData
    /\ (forall g, g <> pickle_name filename w -> files w1 g = files w g)
    /\ rngs w1 = rngs w /\ log w1 = log w
    /\ forall (m2 : Model) (it li' it' : pyval),
         rebootFilename (params m2) = VStr (pickle_name filename w) ->
         explorIter m2 = Some it ->
         py_add (learningIterations (params m2)) (raw0 rawData) = Val li' ->
         py_add it (raw0 rawData) = Val it' ->
         exists s2 cs,
           rebootPopulation (m2, w1) = Ok tt s2
           /\ population (fst s2) = Some cs
           /\ popSet cs = raw7 rawData
           /\ micro_invariant cs.
Proof.
  intros Ht Hfm Hopen.
  assert (exists w1,
             pickleModel filename (m, w) = Ok tt (m, w1)
             /\ files w1 (pickle_name filename w) = Some rawData
             /\ (forall g, g <> pickle_name filename w ->
                   files w1 g = files w g)
             /\ rngs w1 = rngs w /\ log w1 = log w) as (w1 & E & F & G & R & L).
  { unfold pickleModel, if_trained.
    cbv [bind get_state get fst]. rewrite Ht.
    destruct filename as [f|]; cbn [pickle_name] in *.
    - cbv [ret]. rewrite Hopen.
      cbv [bind write_file modify attr get_state get ret fst snd].
      rewrite Hfm. eexists. split; [reflexivity|].
      cbn [files set_files rngs log]. rewrite String.eqb_refl.
      repeat split; try reflexivity.
      intros g Hg. apply String.eqb_neq in Hg. rewrite Hg. reflexivity.
    - unfold default_pickle_name. cbv [bind get_state get snd].
      destruct (time_time (clock w)) as [t c]. cbn [fst] in *.
      cbv [bind modify ret fst snd]. rewrite Hopen.
      cbv [bind write_file modify attr get_state get ret fst snd].
      rewrite Hfm. eexists. split; [reflexivity|].
      cbn [files set_files set_clock rngs log]. rewrite String.eqb_refl.
      repeat split; try reflexivity.
      intros g Hg. apply String.eqb_neq in Hg. rewrite Hg. reflexivity. }
  exists w1. split; [exact E|]. split.
  { unfold load_pickle. rewrite F. reflexivity. }
  split; [exact G|]. split; [exact R|]. split; [exact L|].
  intros m2 it li' it' Hname Hit Hli Hit'.
  eexists _, _. split.
  - apply (rebootPopulation_run m2 w1 (pickle_name filename w) rawData it li'
             it'); assumption.
  - cbn [fst]. split; [reflexivity|]. split; [reflexivity|].
    unfold micro_invariant. cbn [microPopSize popSet].
    apply sum_numerosity_total.
Qed.

(** *** What training leaves alone *)

Lemma outcome_sat_bind {A B} (c : Meth A) (k : A -> Meth B) (s : State)
  (Q : B -> State -> Prop) (E : State -> Prop) :
  outcome_sat (c s) (fun a s1 => outcome_sat (k a s1) Q E) E ->
  outcome_sat (bind c k s) Q E.
Proof. unfold bind. destruct (c s); auto. Qed.

Lemma outcome_sat_weaken {A} (o : Outcome State A)
  (Q Q' : A -> State -> Prop) (E E' : State -> Prop) :
  outcome_sat o Q E ->
  (forall a s, Q a s -> Q' a s) -> (forall s, E s -> E' s) ->
  outcome_sat o Q' E'.
Proof. destruct o; simpl; auto. Qed.

Lemma keeps_weaken {A} (P P' : State -> State -> Prop) (c : Meth A) :
  (forall s s', P s s' -> P' s s') -> keeps P c -> keeps P' c.
Proof.
  intros H K s. apply (outcome_sat_weaken _ _ _ _ _ (K s)); auto.
Qed.

Section Frames.

Variable P : State -> State -> Prop.
Hypothesis F : Frame P.

Lemma keeps_ret {A} (a : A) : keeps P (ret a).
Proof. intros s. apply (fr_refl P F). Qed.

Lemma keeps_raise {A} (e : exn) : keeps P (@raise State A e).
Proof. intros s. apply (fr_refl P F). Qed.

Lemma keeps_lift {A} (r : res A) : keeps P (lift r).
Proof. destruct r; [apply keeps_ret | apply keeps_raise]. Qed.

Lemma keeps_get_state : keeps P get_state.
Proof. intros s. apply (fr_refl P F). Qed.

Lemma keeps_bind {A B} (c : Meth A) (k : A -> Meth B) :
  keeps P c -> (forall a, keeps P (k a)) -> keeps P (bind c k).
Proof.
  intros Hc Hk s. apply outcome_sat_bind.
  apply (outcome_sat_weaken _ _ _ _ _ (Hc s)); [|auto].
  intros a s1 H1.
  apply (outcome_sat_weaken _ _ _ _ _ (Hk a s1));
    intros; eapply (fr_trans P F); eassumption.
Qed.

Lemma keeps_attr {A} (f : Model -> option A) : keeps P (attr f).
Proof.
  intros s. cbv [attr bind get_state get].
  destruct (f (fst s)); apply (fr_refl P F).
Qed.

Lemma keeps_log_event (e : event) : keeps P (log_event e).
Proof. intros s. apply (fr_log P F). Qed.

Lemma keeps_modify_model (f : Model -> Model) :
  (forall s, P s (f (fst s), snd s)) -> keeps P (modify_model f).
Proof. intros H s. apply H. Qed.

Lemma keeps_with_engine {A} (f : Engine -> A * Engine) :
  keeps P (with_engine f).
Proof.
  intros s. cbv [with_engine bind attr get_state get ret raise modify].
  destruct (population (fst s)) as [pop|]; [|apply (fr_refl P F)].
  destruct (timer (fst s)) as [tm|]; [|apply (fr_refl P F)].
  destruct s as [m w].
  destruct (f (mkEngine pop (trackingObj m) tm (clock w) (rngs w))) as [a e].
  apply (fr_engine P F (m, w)).
Qed.

Lemma keeps_get_formatData : keeps P get_formatData.
Proof.
  apply keeps_bind; [apply keeps_attr | intro; apply keeps_ret].
Qed.

Lemma keeps_call_set_op (o : set_op) : keeps P (call_set_op o).
Proof.
  unfold call_set_op.
  apply keeps_bind; [apply keeps_attr | intro].
  apply keeps_bind; [apply keeps_log_event | intro].
  apply keeps_bind; [apply keeps_get_formatData | intro].
  apply keeps_bind; [apply keeps_get_state | intro].
  apply keeps_with_engine.
Qed.

Lemma keeps_call_Prediction : keeps P call_Prediction.
Proof.
  unfold call_Prediction.
  apply keeps_bind; [apply keeps_attr | intro].
  apply keeps_bind; [apply keeps_log_event | intro].
  apply keeps_bind; [apply keeps_get_formatData | intro].
  apply keeps_bind; [apply keeps_get_state | intro].
  apply keeps_with_engine.
Qed.

Lemma keeps_call_timer (o : timer_op) : keeps P (call_timer o).
Proof.
  unfold call_timer.
  apply keeps_bind; [apply keeps_attr | intro tm].
  apply keeps_bind; [apply keeps_log_event | intro].
  intros s. cbv [bind get_state get modify].
  destruct (timer_step o tm (clock (snd s))) as [tm' c'].
  apply (fr_timer P F).
Qed.

Lemma keeps_snapshot_counters : keeps P snapshot_counters.
Proof.
  unfold snapshot_counters.
  apply keeps_bind; [apply keeps_attr | intro pop].
  apply keeps_bind; [apply keeps_log_event | intro].
  apply keeps_modify_model. intros s. apply (fr_track P F).
Qed.

Lemma keeps_bind_at {A B} (c : Meth A) (k : A -> Meth B) (s : State) :
  outcome_sat (c s) (fun _ s' => P s s') (P s) ->
  (forall a, keeps P (k a)) ->
  outcome_sat (bind c k s) (fun _ s' => P s s') (P s).
Proof.
  intros Hc Hk. apply outcome_sat_bind.
  apply (outcome_sat_weaken _ _ _ _ _ Hc); [|auto].
  intros a s1 H1.
  apply (outcome_sat_weaken _ _ _ _ _ (Hk a s1));
    intros; eapply (fr_trans P F); eassumption.
Qed.

(** The block that tracks accuracy, for a relation that allows the moving
    window to change. *)
Lemma keeps_track_accuracy (state_phenotype : Row * pyval) :
  (forall x, keeps P (push_tracking x)) ->
  keeps P (track_accuracy state_phenotype).
Proof.
  intros Hpush. unfold track_accuracy.
  apply keeps_bind; [apply keeps_call_timer | intro].
  apply keeps_bind; [apply keeps_call_Prediction | intro prediction].
  apply keeps_bind; [apply keeps_get_formatData | intro fd].
  apply keeps_bind; [|intro; apply keeps_call_timer].
  destruct (discretePhenotype fd).
  - destruct (py_eqb _ _); apply Hpush.
  - apply keeps_bind; [apply keeps_lift | intro; apply Hpush].
Qed.

(** One iteration, for a relation that holds across the tracking block
    whenever tracking is on. *)
Lemma keeps_runIteration (state_phenotype : Row * pyval) (exploreIter : pyval) :
  (forall s,
      py_truthy (trackAccuracyWhileFit (params (fst s))) = true ->
      outcome_sat (track_accuracy state_phenotype s) (fun _ s' => P s s')
        (P s)) ->
  keeps P (runIteration state_phenotype exploreIter).
Proof.
  intros Htrack. unfold runIteration.
  apply keeps_bind; [apply keeps_log_event | intro].
  apply keeps_bind;
    [apply keeps_modify_model; intros s; apply (fr_track P F) | intro].
  apply keeps_bind; [apply keeps_call_set_op | intro].
  intros s. unfold bind at 1. cbv [get_state get].
  apply keeps_bind_at.
  { destruct (py_truthy (trackAccuracyWhileFit (params (fst s)))) eqn:E.
    - apply Htrack, E.
    - apply (fr_refl P F). }
  intro.
  apply keeps_bind; [apply keeps_call_set_op | intro].
  apply keeps_bind; [apply keeps_call_set_op | intro].
  apply keeps_bind; [apply keeps_get_state | intro s0].
  apply keeps_bind.
  { destruct (py_truthy (doCorrectSetSubsumption (params (fst s0)))).
    - apply keeps_bind; [apply keeps_call_timer | intro].
      apply keeps_bind; [apply keeps_call_set_op | intro].
      apply keeps_call_timer.
    - apply keeps_ret. }
  intro.
  apply keeps_bind; [apply keeps_call_set_op | intro].
  apply keeps_bind; [apply keeps_call_timer | intro].
  apply keeps_bind; [apply keeps_call_set_op | intro].
  apply keeps_bind; [apply keeps_call_timer | intro].
  apply keeps_bind; [apply keeps_snapshot_counters | intro].
  apply keeps_call_set_op.
Qed.

End Frames.

Lemma Frame_settled : Frame settled.
Proof.
  split.
  - intros s. split; reflexivity.
  - intros s1 s2 s3 [A1 A2 A3] [B1 B2 B3].
    split; etransitivity; eassumption.
  - intros s l. split; reflexivity.
  - intros s pop tk tm c g. split; reflexivity.
  - intros s tm c. split; reflexivity.
  - intros s t. split; reflexivity.
Qed.

Lemma Frame_steady : Frame steady.
Proof.
  split.
  - intros s. split; try reflexivity. apply (fr_refl _ Frame_settled).
  - intros s1 s2 s3 [A1 A2 A3 A4 A5 A6] [B1 B2 B3 B4 B5 B6].
    split; try (etransitivity; eassumption).
    exact (fr_trans _ Frame_settled _ _ _ A6 B6).
  - intros s l. split; try reflexivity. apply (fr_log _ Frame_settled).
  - intros s pop tk tm c g. split; try reflexivity.
    apply (fr_engine _ Frame_settled).
  - intros s tm c. split; try reflexivity. apply (fr_timer _ Frame_settled).
  - intros s t. split; try reflexivity. apply (fr_track _ Frame_settled).
Qed.

Lemma Frame_calm : Frame calm.
Proof.
  split.
  - intros s. split; [apply (fr_refl _ Frame_steady) | reflexivity].
  - intros s1 s2 s3 [A1 A2] [B1 B2]. split.
    + exact (fr_trans _ Frame_steady _ _ _ A1 B1).
    + intros T. rewrite B2, A2; [reflexivity | exact T |].
      unfold tracking_off. rewrite (sd_params _ _ A1). exact T.
  - intros s l. split; [apply (fr_log _ Frame_steady) | reflexivity].
  - intros s pop tk tm c g.
    split; [apply (fr_engine _ Frame_steady) | reflexivity].
  - intros s tm c. split; [apply (fr_timer _ Frame_steady) | reflexivity].
  - intros s t. split; [apply (fr_track _ Frame_steady) | reflexivity].
Qed.

Lemma steady_settled (s s' : State) : steady s s' -> settled s s'.
Proof. apply sd_settled. Qed.

Lemma calm_steady (s s' : State) : calm s s' -> steady s s'.
Proof. intros [H _]. exact H. Qed.

Lemma push_tracking_steady (x : pyfloat) : keeps steady (push_tracking x).
Proof. intros s. repeat split. Qed.

(** One iteration changes neither the parameters, the environment, the
    iteration counter, the record, the trained flag, the final metrics nor
    the files; with tracking off it leaves the moving window alone. *)
Lemma runIteration_calm (state_phenotype : Row * pyval) (exploreIter : pyval) :
  keeps calm (runIteration state_phenotype exploreIter).
Proof.
  apply (keeps_runIteration calm Frame_calm).
  intros s E.
  apply (outcome_sat_weaken _ _ _ _ _
           (keeps_track_accuracy steady Frame_steady state_phenotype
              push_tracking_steady s));
    intros; (split; [assumption|]); unfold tracking_off; congruence.
Qed.

Lemma on_return_bind {A B} (c : Meth A) (k : A -> Meth B) (s : State)
  (Q : B -> State -> Prop) :
  on_return (c s) (fun a s1 => on_return (k a s1) Q) ->
  on_return (bind c k s) Q.
Proof. apply outcome_sat_bind. Qed.

Lemma on_return_weaken {A} (o : Outcome State A) (Q Q' : A -> State -> Prop) :
  on_return o Q -> (forall a s, Q a s -> Q' a s) -> on_return o Q'.
Proof. intros H HQ. apply (outcome_sat_weaken _ _ _ _ _ H); auto. Qed.

Lemma keeps_on_return {A} (P : State -> State -> Prop) (c : Meth A)
  (s : State) :
  keeps P c -> on_return (c s) (fun _ s1 => P s s1).
Proof.
  intros K. apply (outcome_sat_weaken _ _ _ _ _ (K s)); auto.
Qed.

Lemma on_return_attr {A B} (f : Model -> option A) (k : A -> Meth B)
  (s : State) (Q : B -> State -> Prop) :
  (forall a, f (fst s) = Some a -> on_return (k a s) Q) ->
  on_return (bind (attr f) k s) Q.
Proof.
  intros H. cbv [bind attr get_state get].
  destruct (f (fst s)) as [a|]; [apply H; reflexivity | exact I].
Qed.

Lemma on_return_lift {A B} (r : res A) (k : A -> Meth B) (s : State)
  (Q : B -> State -> Prop) :
  (forall a, r = Val a -> on_return (k a s) Q) ->
  on_return (bind (lift r) k s) Q.
Proof.
  intros H. destruct r as [a|e]; [apply H; reflexivity | exact I].
Qed.

Lemma on_return_keeps {A B} (P : State -> State -> Prop) (c : Meth A)
  (k : A -> Meth B) (s : State) (Q : B -> State -> Prop) :
  keeps P c ->
  (forall a s1, P s s1 -> on_return (k a s1) Q) ->
  on_return (bind c k s) Q.
Proof.
  intros K H. apply on_return_bind.
  apply (on_return_weaken _ _ _ (keeps_on_return P c s K)). exact H.
Qed.

Lemma on_return_get_state {B} (k : State -> Meth B) (s : State)
  (Q : B -> State -> Prop) :
  on_return (k s s) Q -> on_return (bind get_state k s) Q.
Proof. intros H. exact H. Qed.

Lemma on_return_modify_model {B} (f : Model -> Model) (k : unit -> Meth B)
  (s : State) (Q : B -> State -> Prop) :
  on_return (k tt (f (fst s), snd s)) Q ->
  on_return (bind (modify_model f) k s) Q.
Proof. intros H. exact H. Qed.

(** One pass of the training loop appends one row to the record, stamped
    with the iteration number it started with, and adds 1 to that number. *)
Lemma fit_body_effect (freq : Z) (ag : pyfloat) (s : State) (it : pyval) :
  explorIter (fst s) = Some it ->
  on_return (fit_body freq ag s) (fun _ s' =>
    exists row it',
      record (fst s') = record (fst s) ++ [row]
      /\ tr_iter row = it
      /\ py_add it (VInt 1) = Val it'
      /\ explorIter (fst s') = Some it'
      /\ params (fst s') = params (fst s)
      /\ movingAvgCount (fst s') = movingAvgCount (fst s)
      /\ settled s s'
      /\ (tracking_off s ->
          trackingAccuracy (fst s') = trackingAccuracy (fst s)
          /\ mean_trackingAccuracy (trackingAccuracy (fst s))
             = Val (tr_accuracy row))).
Proof.
  intros Hit. unfold fit_body.
  apply on_return_attr; intros ev Hev.
  apply (on_return_keeps calm); [apply (keeps_log_event _ Frame_calm)|].
  intros _ s1 C1.
  apply on_return_attr; intros it1 Hit1.
  apply (on_return_keeps calm); [apply runIteration_calm|].
  intros _ s2 C2.
  apply (on_return_keeps calm); [apply (keeps_call_timer _ Frame_calm)|].
  intros _ s3 C3.
  pose proof (fr_trans _ Frame_calm _ _ _ (fr_trans _ Frame_calm _ _ _ C1 C2)
                C3) as C. clear C1 C2 C3.
  apply on_return_attr; intros it3 Hit3.
  apply on_return_lift; intros r Hr.
  apply (on_return_keeps calm).
  { destruct (py_eqb r (VInt (freq - 1))); [|apply (keeps_ret _ Frame_calm)].
    apply keeps_bind; [exact Frame_calm | apply (keeps_attr _ Frame_calm) |].
    intro.
    apply keeps_bind;
      [exact Frame_calm | apply (keeps_log_event _ Frame_calm) | intro].
    apply keeps_bind;
      [exact Frame_calm | apply (keeps_get_formatData _ Frame_calm) | intro].
    apply keeps_bind;
      [exact Frame_calm | apply (keeps_get_state _ Frame_calm) | intro].
    apply (keeps_ret _ Frame_calm). }
  intros ag' s4 C4.
  pose proof (fr_trans _ Frame_calm _ _ _ C C4) as C'. clear C C4.
  apply on_return_get_state.
  apply on_return_lift; intros accuracy Hacc.
  apply (on_return_keeps calm); [apply (keeps_call_timer _ Frame_calm)|].
  intros _ s5 C5.
  apply on_return_attr; intros it5 Hit5.
  apply on_return_attr; intros tm Htm.
  apply (on_return_keeps calm); [apply (keeps_log_event _ Frame_calm)|].
  intros _ s6 C6.
  pose proof (fr_trans _ Frame_calm _ _ _ (fr_trans _ Frame_calm _ _ _ C' C5)
                C6) as C.
  apply on_return_modify_model.
  apply (on_return_keeps calm); [apply (keeps_call_timer _ Frame_calm)|].
  intros _ s8 C8.
  apply on_return_attr; intros it8 Hit8.
  apply on_return_lift; intros it' Hit'.
  apply on_return_modify_model.
  apply on_return_attr; intros ev9 Hev9.
  apply (on_return_keeps calm); [apply (keeps_log_event _ Frame_calm)|].
  intros _ s10 C10.
  apply on_return_modify_model.
  cbv [ret on_return outcome_sat].
  destruct C as [[Cp Ce Ci Cr Cm Cs] Ca].
  destruct C' as [[Cp' Ce' Ci' Cr' Cm' Cs'] Ca'].
  destruct C5 as [[Cp5 Ce5 Ci5 Cr5 Cm5 Cs5] _].
  destruct C8 as [[Cp8 Ce8 Ci8 Cr8 Cm8 [Cs8a Cs8b Cs8c]] Ca8].
  destruct C10 as [[Cp10 Ce10 Ci10 Cr10 Cm10 [Cs10a Cs10b Cs10c]] Ca10].
  destruct Cs as [Csa Csb Csc].
  cbn [fst snd] in *.
  unfold tracking_off in *.
  cbn [fst snd set_record set_explorIter set_env params env explorIter
       record movingAvgCount hasTrained finalMetrics trackingAccuracy] in *.
  exists (mkTrackRow it5 accuracy ag' (trackingObj (fst s6)) (times_of tm)), it'.
  assert (E5 : it5 = it) by congruence.
  assert (E8 : it8 = it) by congruence.
  subst it5 it8. cbn [tr_iter tr_accuracy].
  split; [congruence|]. split; [reflexivity|]. split; [assumption|].
  split; [congruence|]. split; [congruence|]. split; [congruence|].
  split;
    [split; cbn [fst snd set_env hasTrained finalMetrics]; congruence|].
  intros T.
  assert (T8 : py_truthy (trackAccuracyWhileFit (params (fst s8))) = false)
    by congruence.
  assert (T6 : py_truthy (trackAccuracyWhileFit (params (fst s6))) = false)
    by congruence.
  split; [|rewrite <- (Ca' T); assumption].
  rewrite (Ca10 T8), (Ca8 T6). apply Ca, T.
Qed.

(** The training loop appends one row per pass, stamped with consecutive
    iteration numbers, up to learningIterations. *)
Lemma fit_loop_rows (freq n : Z) :
  forall (fuel : nat) (ag : pyfloat) (s : State) (i : Z),
    explorIter (fst s) = Some (VInt i) ->
    learningIterations (params (fst s)) = VInt n ->
    on_return (fit_loop fuel freq ag s) (fun _ s' =>
      exists rows,
        record (fst s') = record (fst s) ++ rows
        /\ map tr_iter rows = iteration_numbers i (Z.to_nat (n - i))
        /\ explorIter (fst s') = Some (VInt (Z.max i n))
        /\ params (fst s') = params (fst s)
        /\ settled s s'
        /\ (tracking_off s -> trackingAccuracy (fst s) = [] ->
            trackingAccuracy (fst s') = []
            /\ Forall (fun r => tr_accuracy r = FFin 0) rows)).
Proof.
  induction fuel as [|fuel IH]; intros ag s i Hi HL; cbn [fit_loop];
    apply on_return_attr; intros it Hit;
    apply on_return_get_state; rewrite HL;
    apply on_return_lift; intros b Hb;
    assert (it = VInt i) by congruence; subst it;
    change (py_lt (VInt i) (VInt n)) with (@Val bool (i <? n)) in Hb;
    inversion Hb; subst b; clear Hb;
    destruct (Z.ltb_spec i n) as [Lt|Ge].
  - exact I.
  - exists []. rewrite app_nil_r.
    replace (Z.to_nat (n - i)) with O by lia.
    replace (Z.max i n) with i by lia.
    repeat split; auto.
  - apply on_return_bind.
    apply (on_return_weaken _ _ _ (fit_body_effect freq ag s (VInt i) Hi)).
    intros ag' s1 (row & it' & R1 & I1 & A1 & E1 & P1 & M1 & S1 & T1).
    change (py_add (VInt i) (VInt 1)) with (Val (VInt (i + 1))) in A1.
    inversion A1; subst it'; clear A1.
    assert (HL1 : learningIterations (params (fst s1)) = VInt n)
      by (rewrite P1; exact HL).
    apply (on_return_weaken _ _ _ (IH ag' s1 (i + 1) E1 HL1)).
    intros _ s2 (rows & R2 & I2 & E2 & P2 & S2 & T2).
    exists (row :: rows).
    split; [rewrite R2, R1, <- app_assoc; reflexivity|].
    split.
    { replace (Z.to_nat (n - i)) with (S (Z.to_nat (n - (i + 1)))) by lia.
      cbn [map iteration_numbers]. rewrite I1, I2. reflexivity. }
    split; [rewrite E2; do 2 f_equal; lia|].
    split; [congruence|].
    split; [exact (fr_trans _ Frame_settled _ _ _ S1 S2)|].
    intros Toff Hnil. destruct (T1 Toff) as [Hacc Hmean].
    rewrite Hnil in Hacc, Hmean.
    assert (Toff1 : tracking_off s1)
      by (unfold tracking_off in *; rewrite P1; exact Toff).
    destruct (T2 Toff1 Hacc) as [Hnil2 Hall].
    split; [exact Hnil2|]. constructor; [|exact Hall].
    change (mean_trackingAccuracy []) with (Val (FFin 0)) in Hmean.
    congruence.
  - exists []. rewrite app_nil_r.
    replace (Z.to_nat (n - i)) with O by lia.
    replace (Z.max i n) with i by lia.
    repeat split; auto.
Qed.

Lemma on_return_ret {A B} (a : A) (k : A -> Meth B) (s : State)
  (Q : B -> State -> Prop) :
  on_return (k a s) Q -> on_return (bind (ret a) k s) Q.
Proof. intros H. exact H. Qed.

Lemma on_return_modify {B} (f : State -> State) (k : unit -> Meth B)
  (s : State) (Q : B -> State -> Prop) :
  on_return (k tt (f s)) Q -> on_return (bind (modify f) k s) Q.
Proof. intros H. exact H. Qed.

Lemma on_return_log_event {B} (e : event) (k : unit -> Meth B) (s : State)
  (Q : B -> State -> Prop) :
  on_return (k tt (fst s, set_log (log (snd s) ++ [e]) (snd s))) Q ->
  on_return (bind (log_event e) k s) Q.
Proof. intros H. exact H. Qed.

Lemma on_return_get_formatData {B} (k : FormatData -> Meth B) (s : State)
  (Q : B -> State -> Prop) :
  (forall ev, env (fst s) = Some ev -> on_return (k (formatData ev) s) Q) ->
  on_return (bind get_formatData k s) Q.
Proof.
  intros H. cbv [bind get_formatData attr get_state get ret raise].
  destruct (env (fst s)) as [ev|]; [apply H; reflexivity | exact I].
Qed.

(** What the training loop and the two statements after it add to the
    record. *)
Lemma fit_train_rows (freq n i : Z) (s : State) :
  explorIter (fst s) = Some (VInt i) ->
  learningIterations (params (fst s)) = VInt n ->
  trackingAccuracy (fst s) = [] ->
  on_return (fit_train freq s) (fun _ s' =>
    exists rows,
      record (fst s') = record (fst s) ++ rows
      /\ map tr_iter rows = iteration_numbers i (Z.to_nat (n - i))
      /\ (tracking_off s -> Forall (fun r => tr_accuracy r = FFin 0) rows)).
Proof.
  intros Hi HL Hnil. unfold fit_train.
  apply on_return_get_state.
  apply on_return_attr; intros it Hit.
  apply on_return_bind.
  apply (on_return_weaken _ _ _
           (fit_loop_rows freq n _ (FFin 0) s i Hi HL)).
  intros _ s1 (rows & R & I1 & E & P1 & S1 & T).
  apply on_return_bind. unfold saveFinalMetrics.
  apply on_return_get_state.
  apply on_return_attr; intros tm Htm.
  apply on_return_attr; intros pop Hpop.
  cbv [modify_model modify on_return outcome_sat]. cbn [fst snd].
  exists rows. split; [exact R|]. split; [exact I1|].
  intros Toff. apply (T Toff Hnil).
Qed.

Lemma iteration_numbers_length (i : Z) (k : nat) :
  List.length (iteration_numbers i k) = k.
Proof.
  revert i. induction k as [|k IH]; intro i; simpl; [|rewrite IH]; reflexivity.
Qed.

Lemma fit_rows (X : list Row) (y : list pyval) (m : Model) (w : World)
  (n r : Z) (e : event) :
  learningIterations (params m) = VInt n ->
  starts_from (params m) w r e ->
  on_return (fit X y (m, w)) (fun _ s' =>
    exists rows,
      record (fst s') = record m ++ rows
      /\ map tr_iter rows = iteration_numbers r (Z.to_nat n)
      /\ (tracking_off (m, w) ->
          Forall (fun row => tr_accuracy row = FFin 0) rows)).
Proof.
  intros HL Hs. unfold fit.
  apply on_return_get_state. cbn [fst].
  destruct (hasTrained m); [exact I|].
  apply on_return_ret.
  apply on_return_lift; intros _ _.
  apply on_return_log_event.
  apply on_return_get_state. cbn [fst snd rngs set_log].
  destruct (OfflineEnvironment X y (params m) (rngs w)) as [ev g].
  apply on_return_modify. apply on_return_modify_model.
  apply on_return_get_formatData; intros ev' _.
  apply on_return_get_state.
  apply on_return_lift; intros freq _.
  cbn [fst snd params set_movingAvgCount set_trackingAccuracy set_explorIter
       set_env].
  destruct Hs as [Hr | f rawData r Hr Hfile Hraw]; rewrite Hr.
  - change (py_eqb VNone VNone) with true. cbv iota.
    unfold new_training_state.
    cbv [bind get_state get log_event modify ret].
    cbn [fst snd clock set_rngs set_log].
    destruct (new_Timer (clock w)) as [tm c].
    match goal with
    | |- on_return (fit_train freq ?s2) _ =>
        apply (on_return_weaken _ _ _ (fit_train_rows freq n 0 s2
                 eq_refl HL eq_refl))
    end.
    intros _ s' (rows & R & I1 & T). exists rows.
    rewrite Z.sub_0_r in I1. split; [exact R|]. split; [exact I1|exact T].
  - change (py_eqb (VStr f) VNone) with false. cbv iota.
    unfold bind at 1.
    rewrite (rebootPopulation_run _ _ f rawData (VInt 0) (VInt (n + r))
               (VInt r));
      try assumption; try reflexivity;
      try (cbn; rewrite ?HL, ?Hraw; reflexivity).
    match goal with
    | |- on_return (fit_train freq ?s2) _ =>
        apply (on_return_weaken _ _ _ (fit_train_rows freq (n + r) r s2
                 eq_refl eq_refl eq_refl))
    end.
    intros _ s' (rows & R & I1 & T). exists rows.
    replace (n + r - r) with n in I1 by lia.
    split; [exact R|]. split; [exact I1|exact T].
Qed.

(** X12.  A [fit] that returns has appended exactly one row to the tracking
    record for each pass of its loop, in order and stamped with consecutive
    iteration numbers: 0 .. n-1 for learningIterations = n on a fresh
    population, r .. r+n-1 after a reboot from iteration count r.  With
    trackAccuracyWhileFit off the accuracy written in every row is 0. *)
Theorem fit_records_every_iteration (X : list Row) (y : list pyval)
  (m : Model) (w : World) (n r : Z) (e : event) (s' : State) :
  learningIterations (params m) = VInt n ->
  starts_from (params m) w r e ->
  fit X y (m, w) = Ok tt s' ->
  exists rows,
    record (fst s') = record m ++ rows
    /\ map tr_iter rows = iteration_numbers r (Z.to_nat n)
    /\ List.length rows = Z.to_nat n
    /\ (py_truthy (trackAccuracyWhileFit (params m)) = false ->
        Forall (fun row => tr_accuracy row = FFin 0) rows).
Proof.
  intros HL Hs Hfit.
  pose proof (fit_rows X y m w n r e HL Hs) as H.
  rewrite Hfit in H. destruct H as (rows & R & I1 & T).
  exists rows. split; [exact R|]. split; [exact I1|]. split; [|exact T].
  rewrite <- (length_map tr_iter), I1. apply iteration_numbers_length.
Qed.

Lemma keeps_modify (P : State -> State -> Prop) (f : State -> State) :
  (forall s, P s (f s)) -> keeps P (modify f).
Proof. intros H s. apply H. Qed.

(** Composes the lemmas on [keeps] along a method. *)
Ltac keeps_chain F :=
  repeat first
    [ apply (keeps_ret _ F) | apply (keeps_raise _ F)
    | apply (keeps_lift _ F) | apply (keeps_get_state _ F)
    | apply (keeps_attr _ F) | apply (keeps_log_event _ F)
    | apply (keeps_get_formatData _ F) | apply (keeps_call_timer _ F)
    | apply (keeps_call_set_op _ F) | apply (keeps_call_Prediction _ F)
    | apply (keeps_snapshot_counters _ F)
    | apply (keeps_bind _ F); [|intro]
    | match goal with
      | |- keeps _ (if ?b then _ else _) => destruct b
      | |- keeps _ (let (_, _) := ?x in _) => destruct x
      end ].

Lemma runIteration_settled (state_phenotype : Row * pyval)
  (exploreIter : pyval) :
  keeps settled (runIteration state_phenotype exploreIter).
Proof.
  apply (keeps_weaken calm); [|apply runIteration_calm].
  intros s s' H. apply steady_settled, calm_steady, H.
Qed.

Lemma fit_body_settled (freq : Z) (ag : pyfloat) :
  keeps settled (fit_body freq ag).
Proof.
  unfold fit_body.
  apply (keeps_bind _ Frame_settled); [apply (keeps_attr _ Frame_settled)|].
  intro ev.
  apply (keeps_bind _ Frame_settled);
    [apply (keeps_log_event _ Frame_settled)|intro].
  apply (keeps_bind _ Frame_settled); [apply (keeps_attr _ Frame_settled)|].
  intro it.
  apply (keeps_bind _ Frame_settled); [apply runIteration_settled|intro].
  keeps_chain Frame_settled;
    apply keeps_modify_model; intros s; split; reflexivity.
Qed.

Lemma fit_loop_settled (freq : Z) :
  forall (fuel : nat) (ag : pyfloat), keeps settled (fit_loop fuel freq ag).
Proof.
  induction fuel as [|fuel IH]; intro ag; cbn [fit_loop];
    (apply (keeps_bind _ Frame_settled);
     [apply (keeps_attr _ Frame_settled) | intro it]);
    (apply (keeps_bind _ Frame_settled);
     [apply (keeps_get_state _ Frame_settled) | intro s0]);
    (apply (keeps_bind _ Frame_settled);
     [apply (keeps_lift _ Frame_settled) | intros [|]]);
    try apply (keeps_ret _ Frame_settled).
  - intros s. exact I.
  - apply (keeps_bind _ Frame_settled); [apply fit_body_settled|].
    intro. apply IH.
Qed.

Lemma new_training_state_settled : keeps settled new_training_state.
Proof.
  unfold new_training_state. intros s. cbv [bind get_state get].
  destruct (new_Timer (clock (snd s))) as [tm c].
  cbv [log_event modify outcome_sat]. split; reflexivity.
Qed.

Lemma rebootPopulation_settled : keeps settled rebootPopulation.
Proof.
  unfold rebootPopulation.
  keeps_chain Frame_settled;
    try (apply keeps_modify_model; intros s; split; reflexivity).
  apply keeps_modify. intros s. split; reflexivity.
Qed.

Lemma settled_then {A B} (c : Meth A) (k : A -> Meth B) :
  keeps settled c ->
  (forall a s1,
      outcome_sat (k a s1) (fun _ s' => trained_from s1 s') (settled s1)) ->
  forall s,
    outcome_sat (bind c k s) (fun _ s' => trained_from s s') (settled s).
Proof.
  intros Hc Hk s. apply outcome_sat_bind.
  apply (outcome_sat_weaken _ _ _ _ _ (Hc s)); [|auto].
  intros a s1 H1.
  apply (outcome_sat_weaken _ _ _ _ _ (Hk a s1)).
  - intros _ s' (T & Fl & Rest). split; [exact T|]. split; [|exact Rest].
    rewrite Fl. apply (st_files _ _ H1).
  - intros s' H2. exact (fr_trans _ Frame_settled _ _ _ H1 H2).
Qed.

Lemma fit_train_finishes (freq : Z) (s : State) :
  outcome_sat (fit_train freq s) (fun _ s' => trained_from s s') (settled s).
Proof.
  revert s. unfold fit_train.
  apply settled_then; [apply (keeps_get_state _ Frame_settled)|].
  intros s0.
  apply settled_then; [apply (keeps_attr _ Frame_settled)|].
  intros it.
  apply settled_then; [apply fit_loop_settled|].
  intros _ s.
  cbv [saveFinalMetrics bind get_state get attr ret raise modify_model modify].
  destruct (timer (fst s)) as [tm|] eqn:Ht;
    [|apply (fr_refl _ Frame_settled)].
  destruct (population (fst s)) as [pop|] eqn:Hp;
    [|apply (fr_refl _ Frame_settled)].
  cbn. split; [reflexivity|]. split; [reflexivity|].
  exists pop, tm. auto.
Qed.

(** X13.  [fit] is all or nothing for the trained flag.  When it returns,
    hasTrained is set and the final metrics are the snapshot of the model as
    training left it: its learningIterations, the times of its timer and the
    popSet of its population.  When it raises, at whatever point, hasTrained
    and the final metrics are what they were before the call.  In neither
    case has a file been written. *)
Theorem fit_all_or_nothing (X : list Row) (y : list pyval) (s : State) :
  outcome_sat (fit X y s) (fun _ s' => trained_from s s') (settled s).
Proof.
  revert s. unfold fit.
  apply settled_then; [apply (keeps_get_state _ Frame_settled)|].
  intros s0.
  apply settled_then.
  { destruct (hasTrained (fst s0));
      [apply (keeps_raise _ Frame_settled) | apply (keeps_ret _ Frame_settled)]. }
  intros _.
  apply settled_then; [apply (keeps_lift _ Frame_settled)|]. intros _.
  apply settled_then; [apply (keeps_log_event _ Frame_settled)|]. intros _.
  apply settled_then; [apply (keeps_get_state _ Frame_settled)|].
  intros s1.
  destruct (OfflineEnvironment X y (params (fst s1)) (rngs (snd s1)))
    as [ev g].
  apply settled_then.
  { apply keeps_modify. intros s. split; reflexivity. }
  intros _.
  apply settled_then.
  { apply keeps_modify_model. intros s. split; reflexivity. }
  intros _.
  apply settled_then; [apply (keeps_get_formatData _ Frame_settled)|].
  intros fd.
  apply settled_then; [apply (keeps_get_state _ Frame_settled)|].
  intros s2.
  apply settled_then; [apply (keeps_lift _ Frame_settled)|].
  intros freq.
  apply settled_then.
  { destruct (py_eqb (rebootFilename (params (fst s2))) VNone);
      [apply new_training_state_settled | apply rebootPopulation_settled]. }
  intros _ s. apply fit_train_finishes.
Qed.

(** *** The moving window of tracked accuracies *)

Lemma Frame_windowed : Frame windowed.
Proof.
  split.
  - intros s. split; auto.
  - intros s1 s2 s3 [A1 A2] [B1 B2]. split; [congruence|].
    intros Hpos Hle. rewrite <- A1. apply B2; rewrite A1; auto.
  - intros s l. split; auto.
  - intros s pop tk tm c g. split; auto.
  - intros s tm c. split; auto.
  - intros s t. split; auto.
Qed.

Lemma push_tracking_windowed (x : pyfloat) : keeps windowed (push_tracking x).
Proof.
  clear_ops.
  intros [m w]. cbv [push_tracking modify_model modify outcome_sat].
  split; [reflexivity|]. cbn [fst snd trackingAccuracy set_trackingAccuracy
                               movingAvgCount].
  unfold py_len. intros Hpos Hle. rewrite length_app. cbn [List.length].
  destruct (Z.eqb_spec (Z.of_nat (List.length (trackingAccuracy m)))
              (movingAvgCount m)) as [E|NE].
  - destruct (trackingAccuracy m) as [|a l]; cbn [tl List.length] in *; lia.
  - lia.
Qed.

Lemma runIteration_windowed (state_phenotype : Row * pyval)
  (exploreIter : pyval) :
  keeps windowed (runIteration state_phenotype exploreIter).
Proof.
  apply (keeps_runIteration _ Frame_windowed). intros s _.
  apply (keeps_track_accuracy _ Frame_windowed). apply push_tracking_windowed.
Qed.

Lemma windowed_same (f : Model -> Model) :
  (forall m, movingAvgCount (f m) = movingAvgCount m
             /\ trackingAccuracy (f m) = trackingAccuracy m) ->
  keeps windowed (modify_model f).
Proof.
  intros H [m w]. cbv [modify_model modify outcome_sat windowed].
  cbn [fst snd]. destruct (H m) as [E1 E2]. rewrite E1, E2. split; auto.
Qed.

Lemma fit_body_windowed (freq : Z) (ag : pyfloat) :
  keeps windowed (fit_body freq ag).
Proof.
  unfold fit_body.
  apply (keeps_bind _ Frame_windowed); [apply (keeps_attr _ Frame_windowed)|].
  intro ev.
  apply (keeps_bind _ Frame_windowed);
    [apply (keeps_log_event _ Frame_windowed)|intro].
  apply (keeps_bind _ Frame_windowed); [apply (keeps_attr _ Frame_windowed)|].
  intro it.
  apply (keeps_bind _ Frame_windowed); [apply runIteration_windowed|intro].
  keeps_chain Frame_windowed; apply windowed_same; intros m; split; reflexivity.
Qed.

Lemma fit_loop_windowed (freq : Z) :
  forall (fuel : nat) (ag : pyfloat), keeps windowed (fit_loop fuel freq ag).
Proof.
  induction fuel as [|fuel IH]; intro ag; cbn [fit_loop];
    (apply (keeps_bind _ Frame_windowed);
     [apply (keeps_attr _ Frame_windowed) | intro it]);
    (apply (keeps_bind _ Frame_windowed);
     [apply (keeps_get_state _ Frame_windowed) | intro s0]);
    (apply (keeps_bind _ Frame_windowed);
     [apply (keeps_lift _ Frame_windowed) | intros [|]]);
    try apply (keeps_ret _ Frame_windowed).
  - intros s. exact I.
  - apply (keeps_bind _ Frame_windowed); [apply fit_body_windowed|].
    intro. apply IH.
Qed.

Lemma fit_train_windowed (freq : Z) : keeps windowed (fit_train freq).
Proof.
  unfold fit_train.
  apply (keeps_bind _ Frame_windowed);
    [apply (keeps_get_state _ Frame_windowed)|intro s0].
  apply (keeps_bind _ Frame_windowed);
    [apply (keeps_attr _ Frame_windowed)|intro it].
  apply (keeps_bind _ Frame_windowed); [apply fit_loop_windowed|intro].
  apply (keeps_bind _ Frame_windowed).
  - unfold saveFinalMetrics.
    keeps_chain Frame_windowed.
  - intro. apply windowed_same. intros m; split; reflexivity.
Qed.

(** X14.  The tracked accuracies are a moving window: [fit] sets its size to
    50 and starts it empty, and from then on every iteration that appends a
    value first drops the oldest one when the window is full.  So a [fit]
    that returns leaves movingAvgCount = 50 and at most 50 values in
    trackingAccuracy, however many iterations it ran. *)
Theorem fit_window_bounded (X : list Row) (y : list pyval) (s s' : State) :
  fit X y s = Ok tt s' ->
  movingAvgCount (fst s') = 50
  /\ py_len (trackingAccuracy (fst s')) <= 50.
Proof.
  intros Hfit.
  assert (H : on_return (fit X y s) (fun _ s' =>
            movingAvgCount (fst s') = 50
            /\ py_len (trackingAccuracy (fst s')) <= 50)).
  { unfold fit.
    apply on_return_get_state.
    destruct (hasTrained (fst s)); [exact I|].
    apply on_return_ret.
    apply on_return_lift; intros _ _.
    apply on_return_log_event.
    apply on_return_get_state. cbn [fst snd].
    destruct (OfflineEnvironment X y (params (fst s)) (rngs (set_log _ (snd s))))
      as [ev g].
    apply on_return_modify. apply on_return_modify_model.
    match goal with
    | |- on_return (?rest ?s2) _ =>
        assert (K : keeps windowed rest)
    end.
    { apply (keeps_bind _ Frame_windowed);
        [apply (keeps_get_formatData _ Frame_windowed)|intro fd].
      apply (keeps_bind _ Frame_windowed);
        [apply (keeps_get_state _ Frame_windowed)|intro s0].
      apply (keeps_bind _ Frame_windowed);
        [apply (keeps_lift _ Frame_windowed)|intro freq].
      apply (keeps_bind _ Frame_windowed); [|intro; apply fit_train_windowed].
      destruct (py_eqb (rebootFilename (params (fst s0))) VNone).
      - unfold new_training_state. intros s1. cbv [bind get_state get].
        destruct (new_Timer (clock (snd s1))) as [tm c].
        cbv [log_event modify outcome_sat]. split; auto.
      - unfold rebootPopulation. keeps_chain Frame_windowed. }
    apply (on_return_weaken _ _ _ (keeps_on_return _ _ _ K)).
    intros _ s2 [W1 W2]. cbn [fst snd movingAvgCount set_movingAvgCount
                               trackingAccuracy set_trackingAccuracy] in W1, W2.
    split; [exact W1|]. apply W2; [reflexivity | discriminate]. }
  rewrite Hfit in H. exact H.
Qed.

(** X15.  [fit] on a model whose rebootFilename names a file that does not
    exist raises FileNotFoundError from [rebootPopulation], after the
    environment has been built from [X] and [y] and the counters have been
    reset, and before any population or timer is made: the model stays
    untrained, and its population is the one it had. *)
Theorem fit_missing_reboot_file (X : list Row) (y : list pyval) (m : Model)
  (w : World) (f : string) (n : Z) :
  hasTrained m = false ->
  check_X X = Val tt -> check_y y = Val tt ->
  learningIterations (params m) = VInt n -> 0 <= n < float_int_bound ->
  rebootFilename (params m) = VStr f -> files w f = None ->
  exists s',
    fit X y (m, w) = Raise FileNotFoundError s'
    /\ hasTrained (fst s') = false
    /\ population (fst s') = population m
    /\ timer (fst s') = timer m
    /\ env (fst s') = Some (fst (OfflineEnvironment X y (params m) (rngs w)))
    /\ explorIter (fst s') = Some (VInt 0)
    /\ log (snd s') = log w ++ [EvNewEnvironment].
Proof.
  intros Hh HX Hy HL Hn Hr Hfile.
  unfold fit.
  cbv [bind get_state get ret raise lift modify modify_model log_event attr
       get_formatData].
  cbn [fst snd]. rewrite Hh, HX, Hy.
  change (try_except (Val tt ~;; Val tt) "X and y must be fully numeric")
    with (Val tt).
  cbv beta iota. cbn [fst snd rngs set_log].
  destruct (OfflineEnvironment X y (params m) (rngs w)) as [ev g].
  cbn [fst snd].
  cbn [env set_movingAvgCount set_trackingAccuracy set_explorIter set_env
       params movingAvgCount trackingAccuracy explorIter].
  cbv beta iota. cbn [fst snd].
  cbn [env set_movingAvgCount set_trackingAccuracy set_explorIter set_env
       params movingAvgCount trackingAccuracy explorIter].
  rewrite HL, (compute_aveGeneralityFreq_VInt _ _ Hn).
  cbv beta iota. rewrite Hr.
  change (py_eqb (VStr f) VNone) with false. cbv iota.
  cbv [rebootPopulation bind get_state get lift load_pickle raise].
  cbn [fst snd params set_movingAvgCount set_trackingAccuracy set_explorIter
       set_env files set_rngs set_log].
  rewrite Hr, Hfile.
  eexists. split; [reflexivity|]. cbn. repeat split; auto.
Qed.

(** *** What inference and evaluation leave alone *)

Lemma Frame_still : Frame still.
Proof.
  split.
  - intros s. split; [apply (fr_refl _ Frame_steady) | reflexivity].
  - intros s1 s2 s3 [A1 A2] [B1 B2]. split; [|congruence].
    exact (fr_trans _ Frame_steady _ _ _ A1 B1).
  - intros s l. split; [apply (fr_log _ Frame_steady) | reflexivity].
  - intros s pop tk tm c g.
    split; [apply (fr_engine _ Frame_steady) | reflexivity].
  - intros s tm c. split; [apply (fr_timer _ Frame_steady) | reflexivity].
  - intros s t. split; [apply (fr_track _ Frame_steady) | reflexivity].
Qed.

Section FramedInference.

Variable P : State -> State -> Prop.
Hypothesis F : Frame P.

Lemma keeps_for_rows {A} (f : Row -> Meth A) :
  (forall row, keeps P (f row)) -> forall X, keeps P (for_rows f X).
Proof.
  intros Hf. induction X as [|row rest IH]; cbn [for_rows].
  - apply (keeps_ret _ F).
  - apply (keeps_bind _ F); [apply Hf | intro a].
    apply (keeps_bind _ F); [apply IH | intro; apply (keeps_ret _ F)].
Qed.

Lemma keeps_predict_row (row : Row) : keeps P (predict_row row).
Proof.
  unfold predict_row.
  apply (keeps_bind _ F); [apply (keeps_call_set_op _ F) | intro].
  apply (keeps_bind _ F); [apply (keeps_call_Prediction _ F) | intro].
  apply (keeps_bind _ F); [apply (keeps_call_set_op _ F) | intro].
  apply (keeps_ret _ F).
Qed.

Lemma keeps_predict_proba_row (row : Row) : keeps P (predict_proba_row row).
Proof.
  unfold predict_proba_row.
  apply (keeps_bind _ F); [apply (keeps_call_set_op _ F) | intro].
  apply (keeps_bind _ F); [apply (keeps_call_Prediction _ F) | intro].
  apply (keeps_bind _ F); [apply (keeps_call_set_op _ F) | intro].
  apply (keeps_ret _ F).
Qed.

Lemma keeps_predict (X : list Row) : keeps P (predict X).
Proof.
  unfold predict.
  apply (keeps_bind _ F); [apply (keeps_lift _ F) | intro].
  apply keeps_for_rows, keeps_predict_row.
Qed.

Lemma keeps_predict_proba (X : list Row) : keeps P (predict_proba X).
Proof.
  unfold predict_proba.
  apply (keeps_bind _ F); [apply (keeps_lift _ F) | intro].
  apply keeps_for_rows, keeps_predict_proba_row.
Qed.

Lemma keeps_score (X : list Row) (y : list pyval) : keeps P (score X y).
Proof.
  unfold score.
  apply (keeps_bind _ F); [apply keeps_predict | intro].
  apply (keeps_lift _ F).
Qed.

Lemma keeps_if_trained {A} (body : Meth A) (msg : string) :
  keeps P body -> keeps P (if_trained body msg).
Proof.
  intros H. unfold if_trained.
  apply (keeps_bind _ F); [apply (keeps_get_state _ F) | intro s0].
  destruct (hasTrained (fst s0)); [exact H | apply (keeps_raise _ F)].
Qed.

Lemma keeps_coverage_rows (X : list Row) :
  forall n, keeps P (coverage_rows n X).
Proof.
  induction X as [|row rest IH]; intro n; cbn [coverage_rows].
  - apply (keeps_ret _ F).
  - apply (keeps_bind _ F); [|intro; apply IH].
    unfold coverage_row.
    apply (keeps_bind _ F); [apply (keeps_call_set_op _ F) | intro].
    apply (keeps_bind _ F); [apply (keeps_call_Prediction _ F) | intro].
    apply (keeps_bind _ F); [apply (keeps_call_set_op _ F) | intro].
    apply (keeps_ret _ F).
Qed.

End FramedInference.

(** X16.  Inference and evaluation leave the model alone.  However
    [predict], [predict_proba], [score], [getFinalAccuracy],
    [getFinalInstanceCoverage] and the two attribute lists end, by returning
    or by raising, they have changed neither the parameters, the environment,
    the iteration counter, the tracking record, the moving window, the
    trained flag, the final metrics nor any file: what they touch is within
    the population, its counters, the timer, the clock, the generators and
    the calls made. *)
Theorem inference_leaves_model_alone (X : list Row) (y : list pyval) :
  keeps still (predict X) /\ keeps still (predict_proba X)
  /\ keeps still (score X y) /\ keeps still getFinalAccuracy
  /\ keeps still getFinalInstanceCoverage
  /\ keeps still getFinalAttributeSpecificityList
  /\ keeps still getFinalAttributeAccuracyList.
Proof.
  pose proof Frame_still as F.
  split; [apply (keeps_predict _ F)|].
  split; [apply (keeps_predict_proba _ F)|].
  split; [apply (keeps_score _ F)|].
  split.
  { apply (keeps_if_trained _ F).
    apply (keeps_bind _ F); [apply (keeps_get_formatData _ F) | intro fd].
    apply (keeps_score _ F). }
  split.
  { apply (keeps_if_trained _ F).
    apply (keeps_bind _ F); [apply (keeps_get_formatData _ F) | intro fd].
    apply (keeps_bind _ F); [apply (keeps_coverage_rows _ F) | intro n].
    apply (keeps_bind _ F); [apply (keeps_lift _ F) | intro].
    apply (keeps_ret _ F). }
  split.
  { apply (keeps_if_trained _ F).
    apply (keeps_bind _ F); [apply (keeps_attr _ F) | intro pop].
    apply (keeps_bind _ F); [apply (keeps_get_formatData _ F) | intro fd].
    apply (keeps_bind _ F); [apply (keeps_get_state _ F) | intro s0].
    apply (keeps_with_engine _ F). }
  apply (keeps_if_trained _ F).
  apply (keeps_bind _ F); [apply (keeps_attr _ F) | intro pop].
  apply (keeps_bind _ F); [apply (keeps_get_formatData _ F) | intro fd].
  apply (keeps_bind _ F); [apply (keeps_get_state _ F) | intro s0].
  apply (keeps_with_engine _ F).
Qed.

(** *** The value that a tracked iteration appends *)

Lemma still_pushed (s0 s1 s2 s3 : State) (x : pyfloat) :
  still s0 s1 ->
  still (set_trackingAccuracy
           (window (movingAvgCount (fst s1)) (trackingAccuracy (fst s1)) x)
           (fst s1), snd s1) s2 ->
  still s2 s3 ->
  steady s0 s3
  /\ trackingAccuracy (fst s3)
     = window (movingAvgCount (fst s0)) (trackingAccuracy (fst s0)) x.
Proof.
  intros [A1 A2] [B1 B2] [C1 C2].
  assert (M : steady s1 (set_trackingAccuracy
                           (window (movingAvgCount (fst s1))
                              (trackingAccuracy (fst s1)) x) (fst s1), snd s1))
    by (repeat split).
  split.
  - exact (fr_trans _ Frame_steady _ _ _ A1
             (fr_trans _ Frame_steady _ _ _ M
                (fr_trans _ Frame_steady _ _ _ B1 C1))).
  - rewrite C2, B2. cbn [fst trackingAccuracy set_trackingAccuracy].
    rewrite A2, (sd_movingAvgCount _ _ A1). reflexivity.
Qed.

Lemma track_accuracy_effect (state_phenotype : Row * pyval) (s : State) :
  on_return (track_accuracy state_phenotype s) (fun _ s' => tracked s s').
Proof.
  pose proof Frame_still as F.
  unfold track_accuracy.
  apply (on_return_keeps still); [apply (keeps_call_timer _ F)|].
  intros _ s1 S1.
  apply (on_return_keeps still); [apply (keeps_call_Prediction _ F)|].
  intros prediction s2 S2.
  pose proof (fr_trans _ F _ _ _ S1 S2) as S. clear S1 S2.
  apply on_return_get_formatData; intros ev Hev.
  assert (Hev0 : env (fst s) = Some ev)
    by (rewrite <- (sd_env _ _ (proj1 S)); exact Hev).
  assert (Finish : forall x,
             (discretePhenotype (formatData ev) = true ->
              x = FFin 1 \/ x = FFin 0) ->
             on_return
               (bind (push_tracking x)
                  (fun _ => call_timer StopTimeEvaluation) s2)
               (fun _ s' => tracked s s')).
  { intros x Hx. apply on_return_modify_model.
    apply (on_return_weaken _ _ _
             (keeps_on_return still _ _ (keeps_call_timer _ F _))).
    intros _ s3 S3.
    destruct (still_pushed s s2 s3 s3 x S S3 (fr_refl _ F s3)) as [St Acc].
    split; [exact St|]. exists x. split; [exact Acc|].
    intros ev' Hev' Hd. apply Hx. congruence. }
  destruct (discretePhenotype (formatData ev)) eqn:D.
  - destruct (py_eqb (getDecision prediction) (snd state_phenotype));
      apply Finish; auto.
  - apply on_return_bind. apply on_return_lift; intros a _.
    cbv [on_return outcome_sat push_tracking modify_model modify].
    apply (on_return_weaken _ _ _
             (keeps_on_return still _ _ (keeps_call_timer _ F _))).
    intros _ s3 S3.
    destruct (still_pushed s s2 s3 s3 a S S3 (fr_refl _ F s3)) as [St Acc].
    split; [exact St|]. exists a. split; [exact Acc|].
    intros ev' Hev' Hd. congruence.
Qed.

(** X17.  One call of [runIteration], however it ends, changes neither the
    parameters, the environment, the iteration counter, the tracking record,
    the size of the moving window, the trained flag, the final metrics nor
    any file.  With trackAccuracyWhileFit off it leaves the moving window
    alone; with it on, a call that returns has put exactly one value into
    the window, dropping the oldest one when the window was full, and that
    value is 0 or 1 when the phenotype is discrete. *)
Theorem runIteration_frame (state_phenotype : Row * pyval)
  (exploreIter : pyval) :
  keeps calm (runIteration state_phenotype exploreIter)
  /\ forall s,
       py_truthy (trackAccuracyWhileFit (params (fst s))) = true ->
       on_return (runIteration state_phenotype exploreIter s)
         (fun _ s' => tracked s s').
Proof.
  split; [apply runIteration_calm|].
  intros s T. pose proof Frame_still as F. unfold runIteration.
  apply (on_return_keeps still); [apply (keeps_log_event _ F)|].
  intros _ s1 S1.
  apply (on_return_keeps still).
  { apply keeps_modify_model. intros s0. apply (fr_track _ F). }
  intros _ s2 S2.
  apply (on_return_keeps still); [apply (keeps_call_set_op _ F)|].
  intros _ s3 S3.
  pose proof (fr_trans _ F _ _ _ (fr_trans _ F _ _ _ S1 S2) S3) as S.
  clear S1 S2 S3.
  apply on_return_get_state.
  rewrite (sd_params _ _ (proj1 S)), T.
  apply on_return_bind.
  apply (on_return_weaken _ _ _ (track_accuracy_effect state_phenotype s3)).
  intros _ s4 [St (x & Acc & Bit)].
  match goal with
  | |- on_return (?rest s4) _ => assert (K : keeps still rest)
  end.
  { keeps_chain F. }
  apply (on_return_weaken _ _ _ (keeps_on_return still _ s4 K)).
  intros _ s5 [St5 Acc5].
  split.
  - exact (fr_trans _ Frame_steady _ _ _ (proj1 S)
             (fr_trans _ Frame_steady _ _ _ St St5)).
  - exists x. split.
    + rewrite Acc5, Acc, (proj2 S), (sd_movingAvgCount _ _ (proj1 S)).
      reflexivity.
    + intros ev Hev. apply Bit. rewrite (sd_env _ _ (proj1 S)). exact Hev.
Qed.

(** *** Further properties of persistence *)

(** X18.  What survives a reboot of the timer.  The final metrics saved
    right after [rebootPopulation] carry the pickled popSet and the pickled
    times of matching, deletion, subsumption and evaluation, and the
    iteration counts added up.  The pickled global time and selection time
    are not carried over: they are assigned to the timer's globalAdd and
    globalGA, and what is saved as global time and selection time is that of
    the fresh [Timer()]. *)
Theorem reboot_then_save (m : Model) (w : World) (f : string)
  (rawData : Snapshot) (it li' it' : pyval) :
  rebootFilename (params m) = VStr f ->
  files w f = Some rawData ->
  explorIter m = Some it ->
  py_add (learningIterations (params m)) (raw0 rawData) = Val li' ->
  py_add it (raw0 rawData) = Val it' ->
  exists s1 s2 rawData' tm,
    rebootPopulation (m, w) = Ok tt s1
    /\ saveFinalMetrics s1 = Ok tt s2
    /\ finalMetrics (fst s2) = Some rawData'
    /\ timer (fst s2) = Some tm
    /\ raw0 rawData' = li'
    /\ raw7 rawData' = raw7 rawData
    /\ raw2 rawData' = raw2 rawData /\ raw3 rawData' = raw3 rawData
    /\ raw4 rawData' = raw4 rawData /\ raw6 rawData' = raw6 rawData
    /\ raw1 rawData' = globalTime (fst (new_Timer (clock w)))
    /\ raw5 rawData' = globalSelection (fst (new_Timer (clock w)))
    /\ globalAdd tm = Some (raw1 rawData)
    /\ globalGA tm = Some (raw5 rawData).
Proof.
  intros Hf Hfile Hit Hli Hit'.
  rewrite (rebootPopulation_run m w f rawData it li' it' Hf Hfile Hit Hli Hit').
  eexists _, _, _, _. split; [reflexivity|]. split.
  - apply saveFinalMetrics_run; reflexivity.
  - cbn. repeat split; reflexivity.
Qed.

Lemma spAttr_step (spAttr : pyval) (rest : list pyval) :
  check_spAttrs (spAttr :: rest) = Val tt <->
  (whole_number spAttr /\ ~ negative spAttr) /\ check_spAttrs rest = Val tt.
Proof.
  clear_ops.
  cbn [check_spAttrs].
  destruct (checkIsInt spAttr) eqn:Hc.
  - apply checkIsInt_whole in Hc.
    destruct (py_int spAttr) as [i|e] eqn:Hi.
    2: { destruct spAttr as [z|b|[q| | |]|s|]; simpl in Hc, Hi;
         try contradiction; discriminate. }
    pose proof (py_int_negative spAttr i Hc Hi) as Hneg. simpl.
    destruct (Z.ltb_spec i 0); simpl.
    + split; [discriminate|]. intros [[_ Hn] _]. tauto.
    + split; [|tauto]. intros H'. split; [|exact H'].
      split; [exact Hc|]. intros Hn. apply Hneg in Hn. lia.
  - simpl. split; [discriminate|]. intros [[Hw _] _].
    apply checkIsInt_whole in Hw. congruence.
Qed.

(** X19.  The check of specifiedAttributes passes exactly for an ndarray
    whose every element is an integer value ([checkIsInt]) that is not
    negative; anything that is not an ndarray is refused, whatever it
    holds. *)
Theorem check_specifiedAttributes_iff (a : pyarg) :
  check_specifiedAttributes a = Val tt <->
  exists l, a = ANdArray l
            /\ Forall (fun v => whole_number v /\ ~ negative v) l.
Proof.
  clear_ops.
  destruct a as [v|l]; simpl.
  - split; [discriminate|]. intros (l & H & _). discriminate.
  - split.
    + intros H. exists l. split; [reflexivity|].
      induction l as [|spAttr rest IH]; [constructor|].
      apply spAttr_step in H. destruct H as [H1 H2].
      constructor; [exact H1 | apply IH, H2].
    + intros (l' & E & H). inversion E; subst l'. clear E.
      induction H as [|spAttr rest H1 H2 IH]; [reflexivity|].
      apply spAttr_step. split; assumption.
Qed.

(** *** Tracked accuracies on a discrete phenotype *)

Lemma Frame_sound : Frame sound.
Proof.
  split; unfold sound; auto.
Qed.

Section Returning.

Variable P : State -> State -> Prop.
Hypothesis F : Frame P.

Lemma returns_of_keeps {A} (c : Meth A) : keeps P c -> returns_with P c.
Proof. intros K s. apply keeps_on_return, K. Qed.

Lemma returns_bind_at {A B} (c : Meth A) (k : A -> Meth B) (s : State) :
  on_return (c s) (fun _ s' => P s s') ->
  (forall a, returns_with P (k a)) ->
  on_return (bind c k s) (fun _ s' => P s s').
Proof.
  intros Hc Hk. apply on_return_bind.
  apply (on_return_weaken _ _ _ Hc). intros a s1 H1.
  apply (on_return_weaken _ _ _ (Hk a s1)).
  intros; eapply (fr_trans P F); eassumption.
Qed.

Lemma returns_bind {A B} (c : Meth A) (k : A -> Meth B) :
  returns_with P c -> (forall a, returns_with P (k a)) ->
  returns_with P (bind c k).
Proof. intros Hc Hk s. apply returns_bind_at; auto. Qed.

Lemma returns_runIteration (state_phenotype : Row * pyval)
  (exploreIter : pyval) :
  (forall s,
      py_truthy (trackAccuracyWhileFit (params (fst s))) = true ->
      on_return (track_accuracy state_phenotype s) (fun _ s' => P s s')) ->
  returns_with P (runIteration state_phenotype exploreIter).
Proof.
  intros Htrack. unfold runIteration.
  apply returns_bind; [apply returns_of_keeps, (keeps_log_event _ F) | intro].
  apply returns_bind.
  { apply returns_of_keeps, keeps_modify_model. intros s.
    apply (fr_track P F). }
  intro.
  apply returns_bind; [apply returns_of_keeps, (keeps_call_set_op _ F)|intro].
  intros s. unfold bind at 1. cbv [get_state get].
  apply returns_bind_at.
  { destruct (py_truthy (trackAccuracyWhileFit (params (fst s)))) eqn:E.
    - apply Htrack, E.
    - apply (fr_refl P F). }
  intro. apply returns_of_keeps. keeps_chain F.
Qed.

End Returning.

Lemma window_bits (size : Z) (l : list pyfloat) (x : pyfloat) :
  Forall bit l -> bit x -> Forall bit (window size l x).
Proof.
  intros Hl Hx. unfold window. apply Forall_app. split; [|auto].
  destruct (py_len l =? size); [|exact Hl].
  destruct Hl; [constructor | assumption].
Qed.

Lemma tracked_sound (s s' : State) : tracked s s' -> sound s s'.
Proof.
  intros [St (x & Acc & Bit)] [(ev & Hev & Hd) [Hb Hr]].
  split; [|split].
  - exists ev. rewrite (sd_env _ _ St). auto.
  - rewrite Acc. apply window_bits; [exact Hb | exact (Bit ev Hev Hd)].
  - rewrite (sd_record _ _ St). exact Hr.
Qed.

Lemma runIteration_sound (state_phenotype : Row * pyval)
  (exploreIter : pyval) :
  returns_with sound (runIteration state_phenotype exploreIter).
Proof.
  apply (returns_runIteration _ Frame_sound). intros s _.
  apply (on_return_weaken _ _ _ (track_accuracy_effect state_phenotype s)).
  intros _ s'. apply tracked_sound.
Qed.

Lemma py_len_cons {A} (a : A) (l : list A) : py_len (a :: l) = py_len l + 1.
Proof. clear_ops. unfold py_len. cbn [List.length]. lia. Qed.

Lemma fsum_bits (l : list pyfloat) :
  Forall bit l ->
  forall a, exists b,
    fold_left fadd l (FFin a) = FFin b
    /\ (a <= b)%Q /\ (b <= a + inject_Z (py_len l))%Q.
Proof.
  clear_ops.
  induction 1 as [|x l Hx Hl IH]; intro a.
  - exists a. split; [reflexivity|]. split; [apply Qle_refl|].
    change (inject_Z (py_len [])) with 0%Q. rewrite Qplus_0_r.
    apply Qle_refl.
  - cbn [fold_left]. rewrite py_len_cons, inject_Z_plus.
    destruct Hx as [-> | ->]; cbn [fadd].
    + destruct (IH (a + 1)%Q) as (b & E & L1 & L2).
      exists b. split; [exact E|]. change (inject_Z 1) with 1%Q. split; lra.
    + destruct (IH (a + 0)%Q) as (b & E & L1 & L2).
      exists b. split; [exact E|]. change (inject_Z 1) with 1%Q.
      pose proof (Qle_refl 0). split; lra.
Qed.

(** The mean of a window of zeros and ones is a fraction. *)
Lemma mean_of_bits (l : list pyfloat) :
  Forall bit l ->
  exists q, mean_trackingAccuracy l = Val (FFin q) /\ (0 <= q <= 1)%Q.
Proof.
  clear_ops.
  intros Hl. unfold mean_trackingAccuracy.
  destruct (Z.eqb_spec (py_len l) 0) as [E|NE]; cbn [negb].
  - exists 0%Q. split; [reflexivity|]. split; lra.
  - destruct (fsum_bits l Hl 0%Q) as (b & Eb & L1 & L2).
    unfold fsum. rewrite Eb. unfold fdiv.
    assert (Pos : (0 < inject_Z (py_len l))%Q).
    { change 0%Q with (inject_Z 0). rewrite <- Zlt_Qlt.
      unfold py_len in *. lia. }
    replace (Qeq_bool (inject_Z (py_len l)) 0) with false.
    2: { symmetry. apply not_true_iff_false. intros H.
         apply Qeq_bool_iff in H. rewrite H in Pos.
         exact (Qlt_irrefl _ Pos). }
    exists (b / inject_Z (py_len l))%Q. split; [reflexivity|]. split.
    + apply Qle_shift_div_l; [exact Pos|]. lra.
    + apply Qle_shift_div_r; [exact Pos|]. lra.
Qed.

Section DiscreteRun.

(** [newInstance] moves to another instance of the same data. *)
Hypothesis same_data : forall ev, formatData (newInstance ev) = formatData ev.

Lemma fit_body_sound (freq : Z) (ag : pyfloat) :
  returns_with sound (fit_body freq ag).
Proof.
  pose proof Frame_sound as F.
  intros s. unfold fit_body.
  apply on_return_attr; intros ev Hev.
  apply (on_return_keeps sound); [apply (keeps_log_event _ F)|].
  intros _ s1 S1.
  apply on_return_attr; intros it1 Hit1.
  apply on_return_bind.
  apply (on_return_weaken _ _ _ (runIteration_sound (getTrainInstance ev) it1 s1)).
  intros _ s2 S2.
  apply (on_return_keeps sound); [apply (keeps_call_timer _ F)|].
  intros _ s3 S3.
  apply on_return_attr; intros it3 Hit3.
  apply on_return_lift; intros r Hr.
  apply (on_return_keeps sound).
  { destruct (py_eqb r (VInt (freq - 1))); keeps_chain F. }
  intros ag' s4 S4.
  apply on_return_get_state.
  apply on_return_lift; intros accuracy Hacc.
  apply (on_return_keeps sound); [apply (keeps_call_timer _ F)|].
  intros _ s5 S5.
  apply on_return_attr; intros it5 Hit5.
  apply on_return_attr; intros tm Htm.
  apply (on_return_keeps sound); [apply (keeps_log_event _ F)|].
  intros _ s6 S6.
  apply on_return_modify_model.
  apply (on_return_keeps sound); [apply (keeps_call_timer _ F)|].
  intros _ s8 S8.
  apply on_return_attr; intros it8 Hit8.
  apply on_return_lift; intros it' Hit'.
  apply on_return_modify_model.
  apply on_return_attr; intros ev9 Hev9.
  apply (on_return_keeps sound); [apply (keeps_log_event _ F)|].
  intros _ s10 S10.
  apply on_return_modify_model.
  cbv [ret on_return outcome_sat].
  intros D.
  pose proof (S4 (S3 (S2 (S1 D)))) as D4.
  destruct (mean_of_bits _ (proj1 (proj2 D4))) as (q & Hq & Hq01).
  assert (Eacc : accuracy = FFin q) by congruence.
  pose proof (S6 (S5 D4)) as D6.
  assert (D7 : discrete_run
                 (set_record
                    (record (fst s6)
                     ++ [mkTrackRow it5 accuracy ag' (trackingObj (fst s6))
                           (times_of tm)]) (fst s6), snd s6)).
  { destruct D6 as (De & Db & Dr). split; [exact De|]. split; [exact Db|].
    cbn [fst record set_record]. apply Forall_app. split; [exact Dr|].
    constructor; [|constructor]. exists q. auto. }
  pose proof (S8 D7) as D8.
  assert (D9 : discrete_run (set_explorIter (Some it') (fst s8), snd s8))
    by exact D8.
  pose proof (S10 D9) as (_ & Db & Dr).
  destruct D9 as ((ev' & He' & Hd') & _ & _).
  assert (ev' = ev9) by congruence. subst ev'.
  split; [|split; [exact Db | exact Dr]].
  exists (newInstance ev9). split; [reflexivity|].
  rewrite same_data. exact Hd'.
Qed.

Lemma fit_loop_sound (freq : Z) :
  forall (fuel : nat) (ag : pyfloat), returns_with sound (fit_loop fuel freq ag).
Proof.
  pose proof Frame_sound as F.
  induction fuel as [|fuel IH]; intro ag; cbn [fit_loop];
    (apply (returns_bind _ F);
     [apply returns_of_keeps, (keeps_attr _ F) | intro it]);
    (apply (returns_bind _ F);
     [apply returns_of_keeps, (keeps_get_state _ F) | intro s0]);
    (apply (returns_bind _ F);
     [apply returns_of_keeps, (keeps_lift _ F) | intros [|]]);
    try apply returns_of_keeps, (keeps_ret _ F).
  - intros s. exact I.
  - apply (returns_bind _ F); [apply fit_body_sound|].
    intro. apply IH.
Qed.

Lemma fit_train_sound (freq : Z) : returns_with sound (fit_train freq).
Proof.
  pose proof Frame_sound as F.
  unfold fit_train.
  apply (returns_bind _ F);
    [apply returns_of_keeps, (keeps_get_state _ F) | intro s0].
  apply (returns_bind _ F);
    [apply returns_of_keeps, (keeps_attr _ F) | intro it].
  apply (returns_bind _ F); [apply fit_loop_sound | intro].
  apply returns_of_keeps.
  apply (keeps_bind _ F).
  - unfold saveFinalMetrics. keeps_chain F.
  - intro. apply keeps_modify_model. intros s. unfold sound. auto.
Qed.

(** X20.  On a discrete phenotype every accuracy that training records is a
    fraction between 0 and 1.  When the environment built from [X] and [y]
    has a discrete phenotype, a [fit] that returns leaves only zeros and ones
    in the moving window, and the accuracy of every row it has added to the
    record, the mean of the window at that pass, lies between 0 and 1. *)
Theorem fit_accuracy_is_fraction (X : list Row) (y : list pyval) (m : Model)
  (w : World) (s' : State) :
  fit X y (m, w) = Ok tt s' ->
  discretePhenotype
    (formatData (fst (OfflineEnvironment X y (params m) (rngs w)))) = true ->
  Forall unit_row (record m) ->
  Forall unit_row (record (fst s'))
  /\ Forall bit (trackingAccuracy (fst s')).
Proof.
  intros Hfit Hd Hrec. pose proof Frame_sound as F.
  assert (H : on_return (fit X y (m, w)) (fun _ s' =>
            Forall unit_row (record (fst s'))
            /\ Forall bit (trackingAccuracy (fst s')))).
  { unfold fit.
    apply on_return_get_state. cbn [fst].
    destruct (hasTrained m); [exact I|].
    apply on_return_ret.
    apply on_return_lift; intros _ _.
    apply on_return_log_event.
    apply on_return_get_state. cbn [fst snd rngs set_log].
    destruct (OfflineEnvironment X y (params m) (rngs w)) as [ev g].
    cbn [fst] in Hd.
    apply on_return_modify. apply on_return_modify_model.
    match goal with
    | |- on_return (?rest ?s2) _ =>
        assert (K : returns_with sound rest)
    end.
    { apply (returns_bind _ F);
        [apply returns_of_keeps, (keeps_get_formatData _ F) | intro fd].
      apply (returns_bind _ F);
        [apply returns_of_keeps, (keeps_get_state _ F) | intro s0].
      apply (returns_bind _ F);
        [apply returns_of_keeps, (keeps_lift _ F) | intro freq].
      apply (returns_bind _ F); [|intro; apply fit_train_sound].
      apply returns_of_keeps.
      destruct (py_eqb (rebootFilename (params (fst s0))) VNone).
      - unfold new_training_state. intros s1. cbv [bind get_state get].
        destruct (new_Timer (clock (snd s1))) as [tm c].
        cbv [log_event modify outcome_sat sound]. auto.
      - unfold rebootPopulation. keeps_chain F. }
    apply (on_return_weaken _ _ _ (K _)).
    intros _ s2 S2.
    assert (D : discrete_run s2).
    { apply S2. split; [|split].
      - exists ev. split; [reflexivity | exact Hd].
      - constructor.
      - exact Hrec. }
    destruct D as (_ & Db & Dr). split; assumption. }
  rewrite Hfit in H. exact H.
Qed.

End DiscreteRun.

(** *** Termination of training *)

Lemma halts_ret {A} (a : A) : halts (ret a).
Proof. intros s. discriminate. Qed.

Lemma halts_raise {A} (e : exn) : halts (@raise State A e).
Proof. intros s. discriminate. Qed.

Lemma halts_lift {A} (r : res A) : halts (lift r).
Proof. destruct r; intros s; discriminate. Qed.

Lemma halts_get_state : halts get_state.
Proof. intros s. discriminate. Qed.

Lemma halts_modify (f : State -> State) : halts (modify f).
Proof. intros s. discriminate. Qed.

Lemma halts_modify_model (f : Model -> Model) : halts (modify_model f).
Proof. intros s. discriminate. Qed.

Lemma halts_log_event (e : event) : halts (log_event e).
Proof. intros s. discriminate. Qed.

Lemma halts_bind {A B} (c : Meth A) (k : A -> Meth B) :
  halts c -> (forall a, halts (k a)) -> halts (bind c k).
Proof.
  intros Hc Hk s. unfold bind. specialize (Hc s).
  destruct (c s) as [a s1|e s1|]; [apply Hk | discriminate | congruence].
Qed.

Lemma halts_attr {A} (f : Model -> option A) : halts (attr f).
Proof.
  intros s. cbv [attr bind get_state get]. destruct (f (fst s)); discriminate.
Qed.

(** Composes the lemmas on [halts] along a method. *)
Ltac halts_chain :=
  repeat first
    [ apply halts_ret | apply halts_raise | apply halts_lift
    | apply halts_get_state | apply halts_attr | apply halts_log_event
    | apply halts_modify_model | apply halts_modify
    | apply halts_bind; [|intro]
    | match goal with
      | |- halts (if ?b then _ else _) => destruct b
      | |- halts (let (_, _) := ?x in _) => destruct x
      end ].

Lemma halts_with_engine {A} (f : Engine -> A * Engine) : halts (with_engine f).
Proof.
  intros s. cbv [with_engine bind attr get_state get ret raise modify].
  destruct (population (fst s)); [|discriminate].
  destruct (timer (fst s)); [|discriminate].
  destruct s as [m w]. destruct (f _). discriminate.
Qed.

Lemma halts_get_formatData : halts get_formatData.
Proof. unfold get_formatData. halts_chain. Qed.

Lemma halts_call_set_op (o : set_op) : halts (call_set_op o).
Proof.
  unfold call_set_op.
  apply halts_bind; [apply halts_attr | intro].
  apply halts_bind; [apply halts_log_event | intro].
  apply halts_bind; [apply halts_get_formatData | intro].
  apply halts_bind; [apply halts_get_state | intro].
  apply halts_with_engine.
Qed.

Lemma halts_call_Prediction : halts call_Prediction.
Proof.
  unfold call_Prediction.
  apply halts_bind; [apply halts_attr | intro].
  apply halts_bind; [apply halts_log_event | intro].
  apply halts_bind; [apply halts_get_formatData | intro].
  apply halts_bind; [apply halts_get_state | intro].
  apply halts_with_engine.
Qed.

Lemma halts_call_timer (o : timer_op) : halts (call_timer o).
Proof.
  unfold call_timer.
  apply halts_bind; [apply halts_attr | intro tm].
  apply halts_bind; [apply halts_log_event | intro].
  intros s. cbv [bind get_state get modify].
  destruct (timer_step o tm (clock (snd s))). discriminate.
Qed.

Lemma halts_runIteration (state_phenotype : Row * pyval)
  (exploreIter : pyval) :
  halts (runIteration state_phenotype exploreIter).
Proof.
  assert (T : halts (track_accuracy state_phenotype)).
  { unfold track_accuracy.
    apply halts_bind; [apply halts_call_timer | intro].
    apply halts_bind; [apply halts_call_Prediction | intro].
    apply halts_bind; [apply halts_get_formatData | intro fd].
    apply halts_bind; [|intro; apply halts_call_timer].
    unfold push_tracking. halts_chain. }
  assert (S : halts snapshot_counters).
  { unfold snapshot_counters. halts_chain. }
  unfold runIteration.
  repeat first
    [ apply halts_call_set_op | apply halts_call_timer | exact T | exact S
    | apply halts_ret | apply halts_get_state | apply halts_log_event
    | apply halts_modify_model
    | apply halts_bind; [|intro]
    | match goal with
      | |- halts (if ?b then _ else _) => destruct b
      end ].
Qed.

Lemma halts_fit_body (freq : Z) (ag : pyfloat) : halts (fit_body freq ag).
Proof.
  unfold fit_body.
  repeat first
    [ apply halts_runIteration | apply halts_call_timer
    | apply halts_ret | apply halts_get_state | apply halts_log_event
    | apply halts_modify_model | apply halts_attr | apply halts_lift
    | apply halts_get_formatData
    | apply halts_bind; [|intro]
    | match goal with
      | |- halts (if ?b then _ else _) => destruct b
      end ].
Qed.

Lemma fit_loop_unfold (fuel : nat) (freq : Z) (ag : pyfloat) (s : State) :
  fit_loop fuel freq ag s
  = match explorIter (fst s) with
    | None => Raise AttributeError s
    | Some it =>
        match py_lt it (learningIterations (params (fst s))) with
        | Exn e => Raise e s
        | Val false => Ok tt s
        | Val true =>
            match fuel with
            | O => Loops
            | S fuel' =>
                bind (fit_body freq ag)
                  (fun ag' => fit_loop fuel' freq ag') s
            end
        end
    end.
Proof.
  destruct fuel; cbn [fit_loop];
    cbv [bind attr get_state get lift ret raise];
    destruct (explorIter (fst s)) as [it|]; try reflexivity;
    destruct (py_lt it (learningIterations (params (fst s)))) as [[|]|e];
    reflexivity.
Qed.

(** With as many passes allowed as remain to be made, the training loop
    ends. *)
Lemma fit_loop_halts (freq n : Z) :
  forall (fuel : nat) (ag : pyfloat) (s : State) (i : Z),
    explorIter (fst s) = Some (VInt i) ->
    learningIterations (params (fst s)) = VInt n ->
    (Z.to_nat (n - i) <= fuel)%nat ->
    fit_loop fuel freq ag s <> Loops.
Proof.
  induction fuel as [|fuel IH]; intros ag s i Hi HL Hfuel;
    rewrite fit_loop_unfold, Hi, HL;
    change (py_lt (VInt i) (VInt n)) with (@Val bool (i <? n));
    destruct (Z.ltb_spec i n) as [Lt|Ge]; try discriminate.
  - lia.
  - unfold bind.
    destruct (fit_body freq ag s) as [ag' s1|e s1|] eqn:E.
    + pose proof (fit_body_effect freq ag s (VInt i) Hi) as H.
      rewrite E in H.
      destruct H as (row & it' & _ & _ & A1 & E1 & P1 & _).
      change (py_add (VInt i) (VInt 1)) with (Val (VInt (i + 1))) in A1.
      inversion A1; subst it'.
      apply (IH ag' s1 (i + 1) E1); [rewrite P1; exact HL | lia].
    + discriminate.
    + destruct (halts_fit_body freq ag s E).
Qed.

Lemma fit_train_halts (freq n i : Z) (s : State) :
  explorIter (fst s) = Some (VInt i) ->
  learningIterations (params (fst s)) = VInt n ->
  fit_train freq s <> Loops.
Proof.
  intros Hi HL. unfold fit_train. unfold bind at 1. cbv [get_state get].
  unfold bind at 1. cbv [attr bind get_state get ret]. rewrite Hi, HL.
  rewrite iterations_left_VInt.
  pose proof (fit_loop_halts freq n (Z.to_nat (n - i)) (FFin 0) s i Hi HL
                (Nat.le_refl _)) as H.
  destruct (fit_loop (Z.to_nat (n - i)) freq (FFin 0) s) as [[] s1|e s1|];
    [|discriminate|congruence].
  cbv [saveFinalMetrics bind get_state get attr ret raise modify_model modify].
  destruct (timer (fst s1)); [|discriminate].
  destruct (population (fst s1)); discriminate.
Qed.

Lemma halts_rebootPopulation : halts rebootPopulation.
Proof. unfold rebootPopulation. halts_chain. Qed.

(** X21.  Training ends.  With learningIterations an int, and the
    iteration count of the pickled model an int when the population is
    rebooted, [fit] returns or raises: its loop makes at most
    learningIterations - explorIter passes, since each pass that returns has
    added 1 to explorIter and left learningIterations alone, and no
    statement inside a pass loops (the methods of the collaborators are
    taken to return). *)
Theorem fit_terminates (X : list Row) (y : list pyval) (m : Model)
  (w : World) (n : Z) :
  learningIterations (params m) = VInt n ->
  (forall f rawData,
      rebootFilename (params m) = VStr f -> files w f = Some rawData ->
      exists r, raw0 rawData = VInt r) ->
  fit X y (m, w) <> Loops.
Proof.
  intros HL Hraw. unfold fit.
  cbv [bind get_state get ret raise lift modify modify_model log_event attr
       get_formatData].
  cbn [fst snd].
  destruct (hasTrained m); [discriminate|].
  destruct (try_except (check_X X ~;; check_y y)
              "X and y must be fully numeric"); [|discriminate].
  cbn [fst snd rngs set_log].
  destruct (OfflineEnvironment X y (params m) (rngs w)) as [ev g].
  cbn [fst snd env set_movingAvgCount set_trackingAccuracy set_explorIter
       set_env params].
  destruct (compute_aveGeneralityFreq (formatData ev)
              (learningIterations (params m))) as [freq|e]; [|discriminate].
  destruct (py_eqb (rebootFilename (params m)) VNone) eqn:Hnone.
  - cbv [new_training_state bind get_state get log_event modify ret].
    cbn [fst snd clock set_rngs set_log].
    destruct (new_Timer (clock w)) as [tm c].
    apply (fit_train_halts freq n 0); [reflexivity | exact HL].
  - match goal with
    | |- match rebootPopulation ?s2 with _ => _ end <> _ =>
        destruct (rebootPopulation s2) as [[] s3|e s3|] eqn:E
    end.
    + destruct (rebootFilename (params m)) as [z|b|x|f|] eqn:Hf;
        try (revert E;
             cbv [rebootPopulation bind get_state get lift load_pickle raise];
             cbn [fst snd params set_movingAvgCount set_trackingAccuracy
                  set_explorIter set_env];
             rewrite ?Hf; discriminate).
      destruct (files w f) as [rawData|] eqn:Hfile.
      2: { revert E.
           cbv [rebootPopulation bind get_state get lift load_pickle raise].
           cbn [fst snd params files set_rngs set_log set_movingAvgCount
                set_trackingAccuracy set_explorIter set_env].
           rewrite Hf, Hfile. discriminate. }
      destruct (Hraw f rawData eq_refl Hfile) as [r Hr].
      rewrite (rebootPopulation_run _ _ f rawData (VInt 0) (VInt (n + r))
                 (VInt r)) in E;
        try assumption; try reflexivity;
        try (cbn; rewrite ?HL, ?Hr; reflexivity).
      inversion E; subst s3.
      apply (fit_train_halts freq (n + r) r); reflexivity.
    + discriminate.
    + destruct (halts_rebootPopulation _ E).
Qed.

End Estimator.


(** ** The theorems at the sample instance *)

Local Abbreviation demo_init :=
  (init Demo.float_of_string Demo.int_of_string Z Z Z Demo.Env
     Demo.random_seed Demo.np_random_seed).

Local Abbreviation demo_fit :=
  (fit Demo.float_of_string Demo.int_of_string Z Z Z Demo.Env
     Demo.OfflineEnvironment Demo.getTrainInstance Demo.newInstance
     Demo.formatData Demo.run_set_op Demo.Prediction Demo.getInitStampAverage
     Demo.getAveGenerality Demo.new_Timer Demo.timer_step).

Local Abbreviation demo_safe :=
  (tracking_safe Demo.float_of_string Z Z Z Demo.Env Demo.formatData
     Demo.Prediction).

Lemma in_range_default : in_range default_params.
Proof.
  constructor; cbn;
    try (eexists; reflexivity);
    try (split; [lia | reflexivity]);
    try (unfold Qle; cbn; lia);
    try exact I; auto.
  exists []. split; [reflexivity | constructor].
Qed.



(** The float 2.0 is accepted as learningIterations. *)
Lemma integral_float_accepted_witness :
  integral 2 /\ (0 <= 2)%Q
  /\ returns (demo_init default_params (Demo.world (0, 0) 0))
  /\ checkIsInt Demo.float_of_string Demo.int_of_string (VFloat (FFin 2))
     = true
  /\ returns
       (demo_init
          (with_int_param LearningIterations (VFloat (FFin 2)) default_params)
          (Demo.world (0, 0) 0)).
Proof.
  assert (H1 : integral 2) by reflexivity.
  assert (H2 : (0 <= 2)%Q) by (unfold Qle; simpl; lia).
  assert (H3 : returns (demo_init default_params (Demo.world (0, 0) 0)))
    by (vm_compute; exact I).
  split; [exact H1|]. split; [exact H2|]. split; [exact H3|].
  exact (integral_float_accepted Demo.float_of_string Demo.int_of_string
           Z Z Z Demo.Env Demo.random_seed Demo.np_random_seed
           LearningIterations 2 default_params (Demo.world (0, 0) 0)
           H1 H2 H3).
Defined.

Local Abbreviation demo_runIteration :=
  (runIteration Demo.float_of_string Z Z Z Demo.Env Demo.formatData
     Demo.run_set_op Demo.Prediction Demo.getInitStampAverage
     Demo.timer_step).

Lemma ready_started : ready Z Z Z Demo.Env Demo.started.
Proof. repeat split; discriminate. Qed.

Lemma safe_params3 : forall li, demo_safe (set_learningIterations li Demo.params3).
Proof. intro li. left. reflexivity. Qed.



Local Abbreviation demo_export :=
  (exportIterationTrackingData Z Z Z Demo.Env).

(** Exporting from the model right after construction raises. *)
Lemma illegal_state_witness :
  hasTrained (Demo.untrained Demo.params3) = false
  /\ demo_export (VStr "iterationData.csv")
       (Demo.untrained Demo.params3, Demo.world (0, 0) 0)
     = Raise (PyException msg_no_tracking)
         (Demo.untrained Demo.params3, Demo.world (0, 0) 0).
Proof.
  split; [reflexivity|].
  apply (illegal_state Demo.float_of_string Demo.int_of_string Z Z Z Demo.Env
           Demo.OfflineEnvironment Demo.getTrainInstance Demo.newInstance
           Demo.formatData Demo.run_set_op Demo.Prediction
           Demo.getInitStampAverage Demo.getAveGenerality Demo.new_Timer
           Demo.timer_step Demo.other_targets Demo.X Demo.y
           (VStr "iterationData.csv") true
           (Demo.untrained Demo.params3) (Demo.world (0, 0) 0)).
  reflexivity.
Defined.

Local Abbreviation demo_predict :=
  (predict Demo.float_of_string Z Z Z Demo.Env Demo.formatData
     Demo.run_set_op Demo.Prediction).

Local Abbreviation demo_score :=
  (score Demo.float_of_string Z Z Z Demo.Env Demo.formatData
     Demo.run_set_op Demo.Prediction Demo.other_targets).

(** [predict] on the four sample rows returns four decisions. *)
Lemma predict_row_by_row_witness :
  env (fst Demo.started) = Some Demo.env0
  /\ exists predList s1,
       demo_predict Demo.X Demo.started = Ok predList s1
       /\ List.length predList = 4%nat.
Proof.
  split; [reflexivity|].
  destruct (predict_row_by_row Demo.float_of_string Z Z Z Demo.Env
              Demo.formatData Demo.run_set_op Demo.Prediction Demo.X
              Demo.started Demo.env0 _ eq_refl eq_refl eq_refl)
    as (s1 & s2 & E & L & _).
  eexists _, s1. split; [exact E | exact L].
Defined.


(** The finished sample model does not score every [y]: with a label 1/2
    among the four, or with one label for the four rows, [score] raises
    ValueError. *)
Lemma score_refuses_labels :
  hasTrained DemoDisk.finished = true
  /\ (exists s1,
        demo_score Demo.X [VFloat (FFin (1 # 2)); VInt 1; VInt 1; VInt 0]
          (DemoDisk.finished, Demo.world (0, 0) 1) = Raise ValueError s1)
  /\ (exists s1,
        demo_score Demo.X [VInt 0] (DemoDisk.finished, Demo.world (0, 0) 1)
        = Raise ValueError s1).
Proof.
  split; [reflexivity|]. split; eexists; vm_compute; reflexivity.
Qed.

Local Abbreviation demo_reboot :=
  (rebootPopulation Z Z Z Demo.Env Demo.new_Timer).


(** A reboot recomputes more than the population: on the sample model it
    raises learningIterations from 3 to 6 and explorIter from 0 to 3, and it
    makes a timer. *)
Lemma reboot_rewrites_counters :
  exists m' w',
    demo_reboot (Demo.rebooting, Demo.world_with_pickle) = Ok tt (m', w')
    /\ learningIterations (params Demo.rebooting) = VInt 3
    /\ learningIterations (params m') = VInt 6
    /\ explorIter Demo.rebooting = Some (VInt 0)
    /\ explorIter m' = Some (VInt 3)
    /\ timer Demo.rebooting = None
    /\ timer m' <> None
    /\ clock w' <> clock Demo.world_with_pickle.
Proof.
  eexists _, _. split; [vm_compute; reflexivity|].
  repeat split; try reflexivity; discriminate.
Qed.

(** The sample collaborators never look at the timer or the clock. *)
Lemma demo_time_blind : time_blind Z Z Z Demo.run_set_op Demo.Prediction.
Proof.
  split.
  - intros p fd o [pop1 t1 tm1 c1 g1] [pop2 t2 tm2 c2 g2] C.
    unfold core in C. cbn in C. inversion C; subst.
    destruct o; reflexivity.
  - intros p fd [pop1 t1 tm1 c1 g1] [pop2 t2 tm2 c2 g2] C.
    unfold core in C. cbn in C. inversion C; subst.
    unfold Demo.Prediction. cbn [e_pop].
    destruct (matchSet pop2); [split; reflexivity|].
    destruct (popSet pop2); split; reflexivity.
Qed.

(** Two runs with seed 1, started with different generators and clocks, end
    alike. *)
Lemma training_deterministic_witness :
  let p := Demo.with_seed (VInt 1) Demo.params3 in
  randomSeed p <> VStr "none"
  /\ demo_init p (Demo.world (5, 5) 0)
     = Ok (Demo.untrained p) (Demo.world (1, 1) 0)
  /\ demo_init p (Demo.world (9, 2) 7)
     = Ok (Demo.untrained p) (Demo.world (1, 1) 7)
  /\ sim_outcome Z Z Z Demo.Env any
       (demo_fit Demo.X Demo.y (Demo.untrained p, Demo.world (1, 1) 0))
       (demo_fit Demo.X Demo.y (Demo.untrained p, Demo.world (1, 1) 7)).
Proof.
  cbv zeta.
  assert (H0 : randomSeed (Demo.with_seed (VInt 1) Demo.params3)
               <> VStr "none") by discriminate.
  assert (H1 : demo_init (Demo.with_seed (VInt 1) Demo.params3)
                 (Demo.world (5, 5) 0)
               = Ok (Demo.untrained (Demo.with_seed (VInt 1) Demo.params3))
                   (Demo.world (1, 1) 0)) by (vm_compute; reflexivity).
  assert (H2 : demo_init (Demo.with_seed (VInt 1) Demo.params3)
                 (Demo.world (9, 2) 7)
               = Ok (Demo.untrained (Demo.with_seed (VInt 1) Demo.params3))
                   (Demo.world (1, 1) 7)) by (vm_compute; reflexivity).
  split; [exact H0|]. split; [exact H1|]. split; [exact H2|].
  exact (proj1
           (training_deterministic Demo.float_of_string Demo.int_of_string
              Z Z Z Demo.Env Demo.random_seed Demo.np_random_seed
              Demo.OfflineEnvironment Demo.getTrainInstance Demo.newInstance
              Demo.formatData Demo.run_set_op Demo.Prediction
              Demo.getInitStampAverage Demo.getAveGenerality Demo.new_Timer
              Demo.timer_step demo_time_blind
              (Demo.with_seed (VInt 1) Demo.params3) Demo.X Demo.y
              (Demo.world (5, 5) 0) (Demo.world (9, 2) 7)
              (Demo.world (1, 1) 0) (Demo.world (1, 1) 7)
              (Demo.untrained (Demo.with_seed (VInt 1) Demo.params3))
              (Demo.untrained (Demo.with_seed (VInt 1) Demo.params3))
              H0 (fun _ => eq_refl) H1 H2)).
Defined.

(** Without a seed the generators are left as they were, and the trained
    population depends on them: the same construct-then-fit, started with
    two different generators, ends with two different populations. *)
Lemma unseeded_training_depends_on_generator :
  exists s1 s2,
    demo_fit Demo.X Demo.y (Demo.untrained Demo.params3, Demo.world (5, 5) 0)
    = Ok tt s1
    /\ demo_fit Demo.X Demo.y (Demo.untrained Demo.params3, Demo.world (9, 2) 0)
       = Ok tt s2
    /\ population (fst s1) <> population (fst s2).
Proof.
  eexists _, _. split; [vm_compute; reflexivity|].
  split; [vm_compute; reflexivity|].
  cbn [fst population]. intro H. inversion H.
Qed.

(** [fit] on one numeric row whose label is NaN returns a trained model. *)
Lemma fit_trains_on_nan_label :
  exists s',
    demo_fit [[VFloat (FFin 1)]] [VFloat FNaN]
      (Demo.untrained Demo.params3, Demo.world (0, 0) 0)
    = Ok tt s'
    /\ hasTrained (fst s') = true.
Proof. eexists. split; vm_compute; reflexivity. Qed.

(** ** The further properties at the sample instance *)

(** Seed 7 reseeds both generators with 7. *)
Lemma init_seeds_generators_witness :
  let p := Demo.with_seed (VInt 7) default_params in
  demo_init p (Demo.world (5, 5) 0)
  = Ok (Demo.untrained p) (Demo.world (7, 7) 0)
  /\ ((randomSeed p = VStr "none" /\ Demo.world (7, 7) 0 = Demo.world (5, 5) 0)
      \/ exists i,
           whole_number (randomSeed p)
           /\ py_int Demo.int_of_string (randomSeed p) = Val i
           /\ 0 <= i < 2 ^ 32
           /\ Demo.world (7, 7) 0
              = set_rngs (Demo.random_seed i, Demo.np_random_seed i)
                  (Demo.world (5, 5) 0)).
Proof.
  cbv zeta.
  assert (H : demo_init (Demo.with_seed (VInt 7) default_params)
                (Demo.world (5, 5) 0)
              = Ok (Demo.untrained (Demo.with_seed (VInt 7) default_params))
                  (Demo.world (7, 7) 0)) by (vm_compute; reflexivity).
  split; [exact H|].
  exact (init_seeds_generators Demo.float_of_string Demo.int_of_string Z Z Z
           Demo.Env Demo.random_seed Demo.np_random_seed _ _ _ _ H).
Defined.

(** Seed -1 is refused by numpy only: the constructor raises, and [random]
    has been reseeded with -1. *)
Lemma init_refused_seed_witness :
  let p := Demo.with_seed (VInt (-1)) default_params in
  checks_before_seed Demo.float_of_string Demo.int_of_string p = Val tt
  /\ randomSeed p <> VStr "none"
  /\ demo_init p (Demo.world (5, 5) 0)
     = Raise (PyException msg_seed)
         (set_rngs (Demo.random_seed (-1), 5) (Demo.world (5, 5) 0)).
Proof.
  cbv zeta.
  assert (H1 : checks_before_seed Demo.float_of_string Demo.int_of_string
                 (Demo.with_seed (VInt (-1)) default_params) = Val tt)
    by (vm_compute; reflexivity).
  assert (H2 : randomSeed (Demo.with_seed (VInt (-1)) default_params)
               <> VStr "none") by discriminate.
  assert (H3 : ~ 0 <= -1 < 2 ^ 32) by lia.
  split; [exact H1|]. split; [exact H2|].
  exact (proj2 (init_refused_seed Demo.float_of_string Demo.int_of_string
                  Z Z Z Demo.Env Demo.random_seed Demo.np_random_seed
                  (Demo.with_seed (VInt (-1)) default_params)
                  (Demo.world (5, 5) 0) H1 H2) (-1) eq_refl eq_refl H3).
Defined.

(** The string "5" is accepted as nu and raises TypeError as p_spec. *)
Lemma numeric_string_parameter_witness :
  in_range default_params
  /\ Demo.float_of_string "5" = Some (FFin 5)
  /\ returns (demo_init (set_nu (VStr "5") default_params)
                (Demo.world (0, 0) 0))
  /\ demo_init (set_p_spec (VStr "5") default_params) (Demo.world (0, 0) 0)
     = Raise TypeError (Demo.world (0, 0) 0).
Proof.
  assert (H : Demo.float_of_string "5" = Some (FFin 5))
    by (vm_compute; reflexivity).
  split; [exact in_range_default|]. split; [exact H|].
  exact (numeric_string_parameter Demo.float_of_string Demo.int_of_string
           Z Z Z Demo.Env Demo.random_seed Demo.np_random_seed
           default_params (Demo.world (0, 0) 0) "5" (FFin 5)
           in_range_default H).
Defined.

Local Abbreviation demo_predict_proba :=
  (predict_proba Demo.float_of_string Z Z Z Demo.Env Demo.formatData
     Demo.run_set_op Demo.Prediction).

(** [predict] on the model right after construction raises
    AttributeError. *)
Lemma predict_edge_cases_witness :
  let s := (Demo.untrained Demo.params3, Demo.world (0, 0) 0) in
  population (fst s) = None
  /\ check_X Demo.float_of_string Demo.X = Val tt
  /\ Demo.X <> []
  /\ demo_predict Demo.X s = Raise AttributeError s
  /\ demo_predict_proba Demo.X s = Raise AttributeError s.
Proof.
  cbv zeta.
  assert (H1 : population
                 (fst (Demo.untrained Demo.params3, Demo.world (0, 0) 0))
               = None) by reflexivity.
  assert (H2 : check_X Demo.float_of_string Demo.X = Val tt) by reflexivity.
  assert (H3 : Demo.X <> []) by discriminate.
  split; [exact H1|]. split; [exact H2|]. split; [exact H3|].
  exact (proj2 (proj2 (predict_edge_cases Demo.float_of_string Z Z Z Demo.Env
                         Demo.formatData Demo.run_set_op Demo.Prediction
                         Demo.X
                         (Demo.untrained Demo.params3, Demo.world (0, 0) 0)))
           H1 H2 H3).
Defined.

(** [score] on the four sample rows against one label raises ValueError. *)
Lemma score_length_mismatch_witness :
  env (fst Demo.started) = Some Demo.env0
  /\ List.length [VInt 0] <> List.length Demo.X
  /\ exists s1, demo_score Demo.X [VInt 0] Demo.started = Raise ValueError s1.
Proof.
  assert (H : List.length [VInt 0] <> List.length Demo.X) by discriminate.
  split; [reflexivity|]. split; [exact H|].
  destruct (score_length_mismatch Demo.float_of_string Z Z Z Demo.Env
              Demo.formatData Demo.run_set_op Demo.Prediction
              Demo.other_targets Demo.X
              [VInt 0] Demo.started Demo.env0 _ eq_refl eq_refl eq_refl H)
    as (s1 & E & _).
  exists s1. exact E.
Defined.

Local Abbreviation demo_coverage :=
  (getFinalInstanceCoverage Z Z Z Demo.Env Demo.formatData Demo.run_set_op
     Demo.Prediction).

(** The coverage of the finished sample model is a count of its four
    training rows, divided by 4. *)
Lemma coverage_is_matched_fraction_witness :
  let s := (DemoDisk.finished, Demo.world (0, 0) 1) in
  let X := fst (savedRawTrainingData (Demo.formatData Demo.env0)) in
  hasTrained (fst s) = true
  /\ env (fst s) = Some Demo.env0
  /\ exists covered s',
       0 <= covered <= py_len X
       /\ demo_coverage s
          = if py_len X =? 0 then Raise ZeroDivisionError s'
            else Ok (FFin (inject_Z covered / inject_Z (py_len X))) s'.
Proof.
  cbv zeta. split; [reflexivity|]. split; [reflexivity|].
  destruct (coverage_is_matched_fraction Z Z Z Demo.Env Demo.formatData
              Demo.run_set_op Demo.Prediction
              (DemoDisk.finished, Demo.world (0, 0) 1) Demo.env0 _
              eq_refl eq_refl eq_refl)
    as (s' & _ & B & E).
  eexists _, s'. split; [exact B | exact E].
Defined.

Local Abbreviation demo_pickleModel :=
  (pickleModel Z Z Z Demo.Env DemoDisk.time_time DemoDisk.open_wb).

(** The finished sample model pickled as model.pkl, and a second model
    rebooted from that file: it gets the two pickled rules. *)
Lemma pickle_then_reboot_witness :
  hasTrained DemoDisk.finished = true
  /\ finalMetrics DemoDisk.finished = Some Demo.pickled
  /\ DemoDisk.open_wb "model.pkl" = None
  /\ exists w1,
       demo_pickleModel (Some "model.pkl"%string)
         (DemoDisk.finished, Demo.world (0, 0) 1)
       = Ok tt (DemoDisk.finished, w1)
       /\ load_pickle Z Z Z (VStr "model.pkl") w1 = Val Demo.pickled
       /\ exists s2 cs,
            demo_reboot (Demo.rebooting, w1) = Ok tt s2
            /\ population (fst s2) = Some cs
            /\ popSet cs = popSet Demo.two_rules
            /\ micro_invariant cs.
Proof.
  split; [reflexivity|]. split; [reflexivity|]. split; [reflexivity|].
  destruct (pickle_then_reboot Z Z Z Demo.Env Demo.new_Timer
              DemoDisk.time_time DemoDisk.open_wb (Some "model.pkl"%string)
              DemoDisk.finished (Demo.world (0, 0) 1) Demo.pickled
              eq_refl eq_refl eq_refl)
    as (w1 & E & L & _ & _ & _ & R).
  exists w1. split; [exact E|]. split; [exact L|].
  exact (R Demo.rebooting (VInt 0) (VInt 6) (VInt 3) eq_refl eq_refl eq_refl
           eq_refl).
Defined.

(** Three iterations on the sample data leave three rows, stamped 0, 1
    and 2, each with accuracy 0 since tracking is off by default. *)
Lemma fit_records_every_iteration_witness :
  learningIterations Demo.params3 = VInt 3
  /\ exists s' rows,
       demo_fit Demo.X Demo.y (Demo.untrained Demo.params3, Demo.world (0, 0) 0)
       = Ok tt s'
       /\ record (fst s') = rows
       /\ map tr_iter rows = [VInt 0; VInt 1; VInt 2]
       /\ Forall (fun row => tr_accuracy row = FFin 0) rows.
Proof.
  split; [reflexivity|].
  assert (exists s',
             demo_fit Demo.X Demo.y
               (Demo.untrained Demo.params3, Demo.world (0, 0) 0) = Ok tt s')
    as [s' E] by (eexists; vm_compute; reflexivity).
  assert (Hs : starts_from Z Z Z
                 (params (Demo.untrained Demo.params3))
                 (Demo.world (0, 0) 0) 0 EvNewPopulation)
    by (apply start_fresh; reflexivity).
  destruct (fit_records_every_iteration Demo.float_of_string
              Demo.int_of_string Z Z Z Demo.Env
              Demo.OfflineEnvironment Demo.getTrainInstance Demo.newInstance
              Demo.formatData Demo.run_set_op Demo.Prediction
              Demo.getInitStampAverage Demo.getAveGenerality Demo.new_Timer
              Demo.timer_step Demo.X Demo.y (Demo.untrained Demo.params3)
              (Demo.world (0, 0) 0) 3 0 EvNewPopulation s' eq_refl Hs E)
    as (rows & R & I & _ & T).
  exists s', rows. split; [exact E|]. split; [exact R|]. split; [exact I|].
  apply T. reflexivity.
Defined.

(** After these three iterations the window is of size 50 and holds at most
    50 values. *)
Lemma fit_window_bounded_witness :
  exists s',
    demo_fit Demo.X Demo.y (Demo.untrained Demo.params3, Demo.world (0, 0) 0)
    = Ok tt s'
    /\ movingAvgCount (fst s') = 50
    /\ py_len (trackingAccuracy (fst s')) <= 50.
Proof.
  assert (exists s',
             demo_fit Demo.X Demo.y
               (Demo.untrained Demo.params3, Demo.world (0, 0) 0) = Ok tt s')
    as [s' E] by (eexists; vm_compute; reflexivity).
  exists s'. split; [exact E|].
  exact (fit_window_bounded Demo.float_of_string
           Demo.int_of_string Z Z Z Demo.Env
           Demo.OfflineEnvironment Demo.getTrainInstance Demo.newInstance
           Demo.formatData Demo.run_set_op Demo.Prediction
           Demo.getInitStampAverage Demo.getAveGenerality Demo.new_Timer
           Demo.timer_step Demo.X Demo.y _ s' E).
Defined.

(** Fitting a model that is to reboot from a file that is not there. *)
Lemma fit_missing_reboot_file_witness :
  let m := Demo.untrained
             (Demo.with_rebootFilename (VStr "absent.pkl") Demo.params3) in
  files (Demo.world (0, 0) 0) "absent.pkl" = None
  /\ exists s',
       demo_fit Demo.X Demo.y (m, Demo.world (0, 0) 0)
       = Raise FileNotFoundError s'
       /\ hasTrained (fst s') = false
       /\ population (fst s') = None.
Proof.
  cbv zeta. split; [reflexivity|].
  assert (Hn : 0 <= 3 < float_int_bound) by (split; [lia | reflexivity]).
  destruct (fit_missing_reboot_file Demo.float_of_string
              Demo.int_of_string Z Z Z Demo.Env
              Demo.OfflineEnvironment Demo.getTrainInstance Demo.newInstance
              Demo.formatData Demo.run_set_op Demo.Prediction
              Demo.getInitStampAverage Demo.getAveGenerality Demo.new_Timer
              Demo.timer_step Demo.X Demo.y
              (Demo.untrained
                 (Demo.with_rebootFilename (VStr "absent.pkl") Demo.params3))
              (Demo.world (0, 0) 0) "absent.pkl" 3
              eq_refl eq_refl eq_refl eq_refl Hn eq_refl eq_refl)
    as (s' & E & H & P & _).
  exists s'. split; [exact E|]. split; [exact H | exact P].
Defined.

(** Rebooting from model.pkl and saving at once: the two pickled rules and
    the iteration count 3 + 3 are saved again. *)
Lemma reboot_then_save_witness :
  files Demo.world_with_pickle "model.pkl" = Some Demo.pickled
  /\ exists s1 s2 rawData',
       demo_reboot (Demo.rebooting, Demo.world_with_pickle) = Ok tt s1
       /\ saveFinalMetrics Z Z Z Demo.Env s1 = Ok tt s2
       /\ finalMetrics (fst s2) = Some rawData'
       /\ raw0 rawData' = VInt 6
       /\ raw7 rawData' = popSet Demo.two_rules.
Proof.
  split; [reflexivity|].
  destruct (reboot_then_save Z Z Z Demo.Env Demo.new_Timer Demo.rebooting
              Demo.world_with_pickle "model.pkl" Demo.pickled (VInt 0)
              (VInt 6) (VInt 3) eq_refl eq_refl eq_refl eq_refl eq_refl)
    as (s1 & s2 & rawData' & tm & E1 & E2 & F & _ & R0 & R7 & _).
  exists s1, s2, rawData'. split; [exact E1|]. split; [exact E2|].
  split; [exact F|]. split; [exact R0 | exact R7].
Defined.


(** After three tracked iterations on the sample data every recorded
    accuracy is a fraction and the window holds zeros and ones. *)
Lemma fit_accuracy_is_fraction_witness :
  (forall ev, Demo.formatData (Demo.newInstance ev) = Demo.formatData ev)
  /\ exists s',
       demo_fit Demo.X Demo.y
         (Demo.untrained DemoDisk.tracking3, Demo.world (0, 0) 0)
       = Ok tt s'
       /\ Forall unit_row (record (fst s'))
       /\ Forall bit (trackingAccuracy (fst s')).
Proof.
  assert (Hsame : forall ev,
             Demo.formatData (Demo.newInstance ev) = Demo.formatData ev)
    by (intro ev; reflexivity).
  split; [exact Hsame|].
  assert (exists s',
             demo_fit Demo.X Demo.y
               (Demo.untrained DemoDisk.tracking3, Demo.world (0, 0) 0)
             = Ok tt s')
    as [s' E] by (eexists; vm_compute; reflexivity).
  exists s'. split; [exact E|].
  exact (fit_accuracy_is_fraction Demo.float_of_string
           Demo.int_of_string Z Z Z Demo.Env
           Demo.OfflineEnvironment Demo.getTrainInstance Demo.newInstance
           Demo.formatData Demo.run_set_op Demo.Prediction
           Demo.getInitStampAverage Demo.getAveGenerality Demo.new_Timer
           Demo.timer_step Hsame Demo.X Demo.y
           (Demo.untrained DemoDisk.tracking3) (Demo.world (0, 0) 0) s' E
           eq_refl (Forall_nil _)).
Defined.

(** The float 2.0 passes [checkIsInt], hence [checkIsFloat]. *)
Lemma checkIsInt_characterised_witness :
  checkIsInt Demo.float_of_string Demo.int_of_string (VFloat (FFin 2)) = true
  /\ checkIsFloat Demo.float_of_string (VFloat (FFin 2)) = true.
Proof.
  assert (H : checkIsInt Demo.float_of_string Demo.int_of_string
                (VFloat (FFin 2)) = true) by reflexivity.
  split; [exact H|].
  exact (proj2 (proj2 (checkIsInt_characterised Demo.float_of_string
                         Demo.int_of_string)) (VFloat (FFin 2)) H).
Defined.

(** The string "5" passes [checkIsFloat] and not [checkIsInt]. *)
Lemma checkIsFloat_characterised_witness :
  numeric_string Demo.float_of_string (VStr "5")
  /\ checkIsFloat Demo.float_of_string (VStr "5") = true
  /\ checkIsInt Demo.float_of_string Demo.int_of_string (VStr "5") = false.
Proof.
  assert (H : numeric_string Demo.float_of_string (VStr "5")).
  { exists "5"%string, (FFin 5). split; reflexivity. }
  split; [exact H|].
  exact (proj2 (proj2 (checkIsFloat_characterised Demo.float_of_string
                         Demo.int_of_string)) (VStr "5") H).
Defined.

(** One tracked iteration from the sample state puts one value into the
    window. *)
Lemma runIteration_frame_witness :
  let s := (set_params DemoDisk.tracking3 (fst Demo.started),
            snd Demo.started) in
  py_truthy (trackAccuracyWhileFit (params (fst s))) = true
  /\ on_return Z Z Z Demo.Env
       (demo_runIteration (Demo.getTrainInstance Demo.env0) (VInt 0) s)
       (fun _ s' => tracked Z Z Z Demo.Env Demo.formatData s s').
Proof.
  cbv zeta. split; [reflexivity|].
  apply (proj2 (runIteration_frame Demo.float_of_string Z Z Z Demo.Env
                  Demo.formatData Demo.run_set_op Demo.Prediction
                  Demo.getInitStampAverage Demo.timer_step
                  (Demo.getTrainInstance Demo.env0) (VInt 0))).
  reflexivity.
Defined.


(** Three iterations on the sample data end. *)
Lemma fit_terminates_witness :
  learningIterations (params (Demo.untrained Demo.params3)) = VInt 3
  /\ demo_fit Demo.X Demo.y (Demo.untrained Demo.params3, Demo.world (0, 0) 0)
     <> Loops.
Proof.
  split; [reflexivity|].
  apply (fit_terminates Demo.float_of_string Demo.int_of_string Z Z Z
           Demo.Env Demo.OfflineEnvironment Demo.getTrainInstance
           Demo.newInstance Demo.formatData Demo.run_set_op Demo.Prediction
           Demo.getInitStampAverage Demo.getAveGenerality Demo.new_Timer
           Demo.timer_step Demo.X Demo.y (Demo.untrained Demo.params3)
           (Demo.world (0, 0) 0) 3).
  - reflexivity.
  - intros f rawData H. discriminate H.
Defined.
